(** * ValidAI: a shallow embedding of the project state machine

    The development follows the TypeScript sources:
    - [types.ts]                 the data model;
    - [services/geminiService]   the model gateway and its [retry] helper;
    - [services/excelService]    the spreadsheet import;
    - [components/TestPlanView]  the test-plan editor;
    - [components/ReportView]    the report and its fix modal;
    - [components/ExecutionRunner] the execution simulator;
    - [App.tsx]                  the view controller.

    Conventions.  A JS [number] that the code only uses as a counter or an
    index is a [nat]; a step number, which arrives from outside, is a [Z].
    An optional field ([x?: T]) is an [option].  A JS string is a [string]
    holding the UTF-8 encoding of its text, which is what a string literal
    of this file denotes.  [Math.random()] is an
    explicit supply of draws, each a rational in [0,1).  React state is
    passed explicitly; a handler returns the new value of every state
    variable it sets. *)

From Stdlib Require Import ZArith QArith Qround String Ascii List Lia.
From stdpp Require Import base list gmap strings pretty.

Local Open Scope string_scope.

(** ** Data model ([types.ts]) *)

Inductive AppView :=
  | DASHBOARD | GATHER_REQUIREMENTS | REVIEW_PLAN | EXECUTION | REPORT | HISTORY.

Inductive RequirementType := USER | FUNCTIONAL | TECHNICAL.

Inductive Priority := High | Medium | Low.

Module Requirement.
Record t := mk {
  id : string;
  type : RequirementType;
  description : string;
  priority : Priority
}.
End Requirement.

Record TestStep := mkStep {
  stepNumber : Z;
  action : string;
  expectedResult : string
}.

Inductive CaseStatus := PENDING | RUNNING | PASSED | FAILED.

Module TestCase.
Record t := mk {
  id : string;
  requirementId : string;
  title : string;
  steps : list TestStep;
  status : CaseStatus;
  logs : list string;
  screenshotUrl : option string;
  failedStepNumber : option Z;
  failureReason : option string
}.

(** [{ ...tc, steps }] *)
Definition with_steps (tc : t) (s : list TestStep) : t :=
  mk (id tc) (requirementId tc) (title tc) s (status tc) (logs tc)
     (screenshotUrl tc) (failedStepNumber tc) (failureReason tc).

(** [{ ...tc, status }] *)
Definition with_status (tc : t) (s : CaseStatus) : t :=
  mk (id tc) (requirementId tc) (title tc) (steps tc) s (logs tc)
     (screenshotUrl tc) (failedStepNumber tc) (failureReason tc).
End TestCase.

Inductive Role := user | model.

Record ChatMessage := mkMsg {
  role : Role;
  text : string;
  timestamp : Z
}.

(** ['Draft' | 'In Progress' | 'Validated' | 'Partly Validated' | 'Failed'] *)
Inductive ProjectStatus :=
  | Draft | InProgress | Validated | PartlyValidated | Failed.

Module ValidationProject.
Record t := mk {
  id : string;
  name : string;
  platformVersion : string;
  status : ProjectStatus;
  createdAt : string;
  requirements : list Requirement.t;
  testCases : list TestCase.t;
  chatHistory : list ChatMessage;
  environmentConfig : option string
}.

(** [{ ...project, testCases, status }] *)
Definition with_cases_status (p : t) (cs : list TestCase.t)
    (s : ProjectStatus) : t :=
  mk (id p) (name p) (platformVersion p) s (createdAt p) (requirements p)
     cs (chatHistory p) (environmentConfig p).

(** [{ ...project, status }] *)
Definition with_status (p : t) (s : ProjectStatus) : t :=
  with_cases_status p (testCases p) s.
End ValidationProject.

#[global] Instance CaseStatus_eq_dec : EqDecision CaseStatus.
Proof. solve_decision. Defined.

#[global] Instance ProjectStatus_eq_dec : EqDecision ProjectStatus.
Proof. solve_decision. Defined.

#[global] Instance Priority_eq_dec : EqDecision Priority.
Proof. solve_decision. Defined.

(** The numbers carried by a list of steps, and the numbering [1, 2, ..., n]
    the data model asks for. *)
Definition stepNumbers (l : list TestStep) : list Z := map stepNumber l.

Definition contiguous (l : list TestStep) : Prop :=
  stepNumbers l = seqZ 1 (Z.of_nat (length l)).

(** ** Step editing (test-plan editor and fix modal) *)

Module Editor.

(** [arr.filter((_, i) => p(i))], the index counted from [k]. *)
Fixpoint filter_index_from {A} (p : nat -> bool) (k : nat) (l : list A)
    : list A :=
  match l with
  | [] => []
  | x :: r =>
      if p k then x :: filter_index_from p (S k) r
      else filter_index_from p (S k) r
  end.

Definition filter_index {A} (p : nat -> bool) (l : list A) : list A :=
  filter_index_from p 0 l.

(** [{ ...s, stepNumber: i + 1 }] *)
Definition renumber (i : nat) (s : TestStep) : TestStep :=
  mkStep (Z.of_nat i + 1) (action s) (expectedResult s).

(** The step list computed by both [removeStep] handlers:
    [steps.filter((_, i) => i !== index).map((s, i) => ({...s, stepNumber: i + 1}))] *)
Definition removeStep_steps (index : nat) (l : list TestStep)
    : list TestStep :=
  imap renumber (filter_index (fun i => negb (Nat.eqb i index)) l).

(** The step list computed by both [addStep] handlers:
    [[...steps, { stepNumber: steps.length + 1, action, expectedResult }]] *)
Definition addStep_steps (act : string) (l : list TestStep)
    : list TestStep :=
  l ++ [mkStep (Z.of_nat (length l) + 1) act "Expected result"].

(** [TestPlanView]: the handlers act on the [editForm] state, and do
    nothing when it is [null]. *)
Module Plan.
Definition addStep (editForm : option TestCase.t) : option TestCase.t :=
  match editForm with
  | Some f =>
      Some (TestCase.with_steps f
              (addStep_steps "New action" (TestCase.steps f)))
  | None => None
  end.

Definition removeStep (index : nat) (editForm : option TestCase.t)
    : option TestCase.t :=
  match editForm with
  | Some f =>
      Some (TestCase.with_steps f
              (removeStep_steps index (TestCase.steps f)))
  | None => None
  end.
End Plan.

(** [ReportView]: the same two handlers on the [selectedTest] state of
    the fix modal. *)
Module Fix.
Definition addStep (selectedTest : option TestCase.t)
    : option TestCase.t :=
  match selectedTest with
  | Some t =>
      Some (TestCase.with_steps t
              (addStep_steps "New step action" (TestCase.steps t)))
  | None => None
  end.

Definition removeStep (index : nat) (selectedTest : option TestCase.t)
    : option TestCase.t :=
  match selectedTest with
  | Some t =>
      Some (TestCase.with_steps t
              (removeStep_steps index (TestCase.steps t)))
  | None => None
  end.
End Fix.

End Editor.


(** ** Model gateway ([services/geminiService]) *)

Module Gateway.

(** What a gateway operation can throw: the rejection of the remote call
    (rethrown as it is), the local [new Error("No response from Gemini")],
    and a failure of [JSON.parse] or of reading the parsed value. *)
Inductive Exn :=
  | ApiError (message : string)
  | NoResponse
  | ParseError.

(** [GenerateContentResponse]: only its [text] getter is read. *)
Record GenerateContentResponse := mkResponse {
  response_text : option string
}.

(** What [retry] does that the outside can see: it invokes [fn], and it
    sleeps ([setTimeout(r, delay)], in milliseconds). *)
Inductive Event (E T : Type) :=
  | Attempt (outcome : E + T)
  | Wait (delay : Q).
Arguments Attempt {E T} outcome.
Arguments Wait {E T} delay.

Section Retry.
Context {W E T : Type}.

(** [fn : () => Promise<T>]: an invocation acts on the outside world [W]
    and resolves ([inr]) or rejects ([inl]). *)
Variable fn : W -> (E + T) * W.

(** [async function retry<T>(fn, retries = 2, delay = 1000)]; [retries]
    counts down to 0, where [if (retries <= 0) throw error] gives up. *)
Fixpoint retry (retries : nat) (delay : Q) (w : W)
    : (E + T) * W * list (Event E T) :=
  let '(r, w1) := fn w in
  match r with
  | inr v => (inr v, w1, [Attempt r])
  | inl error =>
      match retries with
      | O => (inl error, w1, [Attempt r])
      | S n =>
          let '(r', w2, tr) := retry n (delay * 1.5)%Q w1 in
          (r', w2, Attempt r :: Wait delay :: tr)
      end
  end.

(** [retry(fn)], with the default arguments. *)
Definition retry_default (w : W) : (E + T) * W * list (Event E T) :=
  retry 2 1000%Q w.

End Retry.

(** The delays [d, d * 1.5, (d * 1.5) * 1.5, ...], [n] of them. *)
Fixpoint backoff (d : Q) (n : nat) : list Q :=
  match n with
  | O => []
  | S k => d :: backoff (d * 1.5)%Q k
  end.

(** The request of each operation; the prompt text sent to the model is a
    function of these inputs. *)
Inductive Request :=
  | ExtractRequirements (chatHistory : string)
  | GenerateTestCases (requirements : list Requirement.t)
  | AnalyzeAndFix (testCase : TestCase.t)
  | Refine (testCase : TestCase.t) (instruction : string)
  | GenerateCode (testCases : list TestCase.t) (framework : string)
      (envConfig : option string).

(** The parsed JSON values.  The response schemas ask for the first three
    fields of each; of a parsed test case, [{ ...tc, id, status, logs }]
    also keeps the other properties of a [TestCase] it may carry. *)
Record RawRequirement := mkRawReq {
  raw_type : RequirementType;
  raw_description : string;
  raw_priority : Priority
}.

Record RawTestCase := mkRawCase {
  raw_requirementId : string;
  raw_title : string;
  raw_steps : list TestStep;
  raw_screenshotUrl : option string;
  raw_failedStepNumber : option Z;
  raw_failureReason : option string
}.

(** [/^```[a-z]*\n/i] and [/\n```$/], each replaced by the empty string. *)
Definition is_letter (c : ascii) : bool :=
  let n := nat_of_ascii c in
  ((65 <=? n) && (n <=? 90) || (97 <=? n) && (n <=? 122))%nat.

Fixpoint drop_letters (s : string) : string :=
  match s with
  | String c r => if is_letter c then drop_letters r else s
  | EmptyString => s
  end.

Definition newline : ascii := "010"%char.

Definition strip_open_fence (s : string) : string :=
  match s with
  | String "`" (String "`" (String "`" r)) =>
      match drop_letters r with
      | String c r' => if Ascii.eqb c newline then r' else s
      | EmptyString => s
      end
  | _ => s
  end.

Definition close_fence : string := String newline "```".

Fixpoint strip_close_fence (s : string) : string :=
  match s with
  | EmptyString => s
  | String c r =>
      if String.eqb s close_fence then EmptyString
      else String c (strip_close_fence r)
  end.

Section Operations.
Context {W : Type}.

(** [ai.models.generateContent], the remote call. *)
Variable generateContent :
  Request -> W -> (Exn + GenerateContentResponse) * W.

(** [JSON.parse] followed by the reads of the parsed value, one per schema;
    [None] when either throws. *)
Variable parse_requirements : string -> option (list RawRequirement * string).
Variable parse_testCases : string -> option (list RawTestCase).
Variable parse_fix : string -> option (list TestStep * string).
Variable parse_refine : string -> option (string * list TestStep).

Definition Outcome (A : Type) : Type :=
  (Exn + A) * W * list (Event Exn GenerateContentResponse).

(** [const response = await retry(() => ai.models.generateContent(...));
     const text = response.text;
     if (!text) throw new Error("No response from Gemini");
     return k(text)] *)
Definition call_parsed {A} (req : Request) (k : string -> Exn + A) (w : W)
    : Outcome A :=
  let '(r, w', tr) := retry_default (generateContent req) w in
  (match r with
   | inl e => inl e
   | inr response =>
       match response_text response with
       | None => inl NoResponse
       | Some EmptyString => inl NoResponse
       | Some text => k text
       end
   end, w', tr).

Definition parsed {A B} (p : string -> option A) (f : A -> B) (text : string)
    : Exn + B :=
  match p text with
  | Some a => inr (f a)
  | None => inl ParseError
  end.

(** [`REQ-${Date.now()}-${index}`]; [now i] is the clock read for the
    element of index [i]. *)
Definition tagged_id (tag : string) (now : nat -> Z) (index : nat) : string :=
  tag ++ pretty (now index) ++ "-" ++ pretty index.

Definition extractRequirements (now : nat -> Z) (chatHistory : string)
    : W -> Outcome (list Requirement.t * string) :=
  call_parsed (ExtractRequirements chatHistory)
    (parsed parse_requirements (fun data =>
       (imap (fun index req =>
                Requirement.mk (tagged_id "REQ-" now index) (raw_type req)
                  (raw_description req) (raw_priority req))
             (fst data),
        snd data))).

(** [data.testCases.map((tc, index) =>
       ({ ...tc, id: `TC-${Date.now()}-${index}`, status: 'PENDING', logs: [] }))] *)
Definition generateTestCases (now : nat -> Z)
    (requirements : list Requirement.t) : W -> Outcome (list TestCase.t) :=
  call_parsed (GenerateTestCases requirements)
    (parsed parse_testCases
       (imap (fun index tc =>
                TestCase.mk (tagged_id "TC-" now index)
                  (raw_requirementId tc) (raw_title tc) (raw_steps tc)
                  PENDING [] (raw_screenshotUrl tc) (raw_failedStepNumber tc)
                  (raw_failureReason tc)))).

Definition analyzeAndFixTestCase (testCase : TestCase.t)
    : W -> Outcome (list TestStep * string) :=
  call_parsed (AnalyzeAndFix testCase) (parsed parse_fix (fun x => x)).

Definition refineTestCase (testCase : TestCase.t) (instruction : string)
    : W -> Outcome (string * list TestStep) :=
  call_parsed (Refine testCase instruction) (parsed parse_refine (fun x => x)).

(** [const text = response.text || '';
     return text.replace(/^```[a-z]*\n/i, '').replace(/\n```$/, '')] *)
Definition generateTestSuiteCode (testCases : list TestCase.t)
    (framework : string) (envConfig : option string) (w : W)
    : Outcome string :=
  let '(r, w', tr) :=
    retry_default (generateContent (GenerateCode testCases framework envConfig)) w in
  (match r with
   | inl e => inl e
   | inr response =>
       inr (strip_close_fence
              (strip_open_fence (default "" (response_text response))))
   end, w', tr).

End Operations.

End Gateway.


(** ** Spreadsheet import ([services/excelService]) *)

Module Excel.

(** A cell of a row object, as [sheet_to_json] produces them, and
    [undefined] for a property that is absent.  Numeric cells are taken to
    be integers. *)
Inductive Cell :=
  | CUndefined
  | CString (s : string)
  | CNumber (n : Z)
  | CBoolean (b : bool).

(** A row object: its own properties, in property order. *)
Definition Row : Type := list (string * Cell).

(** [row[key]] *)
Fixpoint get (row : Row) (key : string) : Cell :=
  match row with
  | [] => CUndefined
  | (k, v) :: rest => if String.eqb k key then v else get rest key
  end.

(** [Object.values(row)[0]] *)
Definition first_value (row : Row) : Cell :=
  match row with
  | [] => CUndefined
  | (_, v) :: _ => v
  end.

(** JS truthiness, and [a || b]. *)
Definition truthy (c : Cell) : bool :=
  match c with
  | CUndefined => false
  | CString s => negb (String.eqb s "")
  | CNumber n => negb (Z.eqb n 0)
  | CBoolean b => b
  end.

Definition or_else (a b : Cell) : Cell := if truthy a then a else b.

(** [String(c)] *)
Definition to_String (c : Cell) : string :=
  match c with
  | CUndefined => "undefined"
  | CString s => s
  | CNumber n => pretty n
  | CBoolean true => "true"
  | CBoolean false => "false"
  end.

Definition lower (c : ascii) : ascii :=
  let n := nat_of_ascii c in
  if ((65 <=? n) && (n <=? 90))%nat then ascii_of_nat (n + 32) else c.

Fixpoint string_map (f : ascii -> ascii) (s : string) : string :=
  match s with
  | EmptyString => EmptyString
  | String c r => String (f c) (string_map f r)
  end.

(** [s.toLowerCase()], on the letters A to Z.  The letters outside ASCII,
    which [toLowerCase] maps too, are left as they are.  This does not
    change whether the result includes "user", "tech", "high" or "low",
    the only use made of it: the one letter outside ASCII whose lower-case
    form holds a letter of these words is U+0130, and that form is an i
    followed by U+0307, not by a g. *)
Definition toLowerCase (s : string) : string := string_map lower s.

(** [s.includes(sub)] *)
Fixpoint includes (s sub : string) : bool :=
  String.prefix sub s ||
  match s with
  | EmptyString => false
  | String _ r => includes r sub
  end.

(** The UTF-8 encoding of a code point of the Basic Multilingual Plane. *)
Definition utf8 (cp : N) : string :=
  if (cp <? 128)%N then String (ascii_of_N cp) ""
  else if (cp <? 2048)%N then
    String (ascii_of_N (192 + cp / 64))
      (String (ascii_of_N (128 + cp mod 64)) "")
  else
    String (ascii_of_N (224 + cp / 4096))
      (String (ascii_of_N (128 + (cp / 64) mod 64))
         (String (ascii_of_N (128 + cp mod 64)) "")).

(** The white space of ECMAScript, which [trim] strips and [\s] matches
    (WhiteSpace and LineTerminator): U+0009 to U+000D, U+0020, U+00A0,
    U+1680, U+2000 to U+200A, U+2028, U+2029, U+202F, U+205F, U+3000 and
    U+FEFF. *)
Definition white_space : list string :=
  Eval cbv in
    List.map utf8
      [ 9; 10; 11; 12; 13; 32; 160; 5760;
        8192; 8193; 8194; 8195; 8196; 8197; 8198; 8199; 8200; 8201; 8202;
        8232; 8233; 8239; 8287; 12288; 65279 ]%N.

(** The number of bytes of the white-space character [s] starts with, 0
    when it starts with none. *)
Definition space_width (s : string) : nat :=
  match List.find (fun ws => String.prefix ws s) white_space with
  | Some ws => String.length ws
  | None => 0
  end.

Definition tail (s : string) : string :=
  match s with
  | String _ r => r
  | EmptyString => s
  end.

(** [s.trimStart()] *)
Fixpoint trim_start (s : string) : string :=
  match s with
  | EmptyString => s
  | String _ r =>
      match space_width s with
      | 0 => s
      | 1 => trim_start r
      | 2 => trim_start (tail r)
      | _ => trim_start (tail (tail r))
      end
  end.

(** [s.trimEnd()]: what is left of [s] is cut where only white space
    follows. *)
Fixpoint trim_end (s : string) : string :=
  match s with
  | EmptyString => EmptyString
  | String c r =>
      if String.eqb (trim_start s) "" then EmptyString
      else String c (trim_end r)
  end.

(** [s.trim()] *)
Definition trim (s : string) : string := trim_end (trim_start s).

(** The resolved description of a row:
    [row['Description'] || row['Requirement'] || row['desc'] || Object.values(row)[0]] *)
Definition description_of (row : Row) : Cell :=
  or_else (or_else (or_else (get row "Description") (get row "Requirement"))
                   (get row "desc"))
          (first_value row).

(** [row['Type'] || row['Category'] || 'Functional'] *)
Definition typeRaw_of (row : Row) : Cell :=
  or_else (or_else (get row "Type") (get row "Category"))
          (CString "Functional").

(** [row['Priority'] || 'Medium'] *)
Definition priorityRaw_of (row : Row) : Cell :=
  or_else (get row "Priority") (CString "Medium").

(** [let type = FUNCTIONAL; if (...includes('user')) type = USER;
     if (...includes('tech')) type = TECHNICAL;] *)
Definition type_of (typeRaw : Cell) : RequirementType :=
  let s := toLowerCase (to_String typeRaw) in
  let type := FUNCTIONAL in
  let type := if includes s "user" then USER else type in
  let type := if includes s "tech" then TECHNICAL else type in
  type.

(** [let priority = 'Medium'; if (...includes('high')) priority = 'High';
     if (...includes('low')) priority = 'Low';] *)
Definition priority_of (priorityRaw : Cell) : Priority :=
  let s := toLowerCase (to_String priorityRaw) in
  let priority := Medium in
  let priority := if includes s "high" then High else priority in
  let priority := if includes s "low" then Low else priority in
  priority.

(** The callback of [jsonData.map((row, index) => ...)]; [now index] is
    the clock read for that row. *)
Definition row_to_requirement (now : nat -> Z) (index : nat) (row : Row)
    : Requirement.t :=
  Requirement.mk
    ("REQ-IMPORT-" ++ pretty (now index) ++ "-" ++ pretty index)
    (type_of (typeRaw_of row))
    (to_String (description_of row))
    (priority_of (priorityRaw_of row)).

(** The predicate of [.filter(req => req.description && req.description.trim() !== '')] *)
Definition keep (req : Requirement.t) : bool :=
  negb (String.eqb (Requirement.description req) "") &&
  negb (String.eqb (trim (Requirement.description req)) "").

Definition requirements_of (now : nat -> Z) (jsonData : list Row)
    : list Requirement.t :=
  List.filter keep (imap (row_to_requirement now) jsonData).

(** [file.name.split('.')[0]] *)
Fixpoint before_dot (s : string) : string :=
  match s with
  | EmptyString => EmptyString
  | String c r => if Ascii.eqb c "." then EmptyString else String c (before_dot r)
  end.

(** The number of bytes of the character whose encoding starts with the
    byte [c]. *)
Definition char_width (c : ascii) : nat :=
  let n := nat_of_ascii c in
  if (n <? 192)%nat then 1
  else if (n <? 224)%nat then 2
  else if (n <? 240)%nat then 3
  else 4.

(** The replacement of [/[-_]/g] by a space, byte by byte. *)
Definition dash_to_space (x : ascii) : ascii :=
  if Ascii.eqb x "-" || Ascii.eqb x "_" then " "%char else x.

(** [fileName.charAt(0).toUpperCase() + fileName.slice(1).replace(/[-_]/g, ' ')].
    [toUpperCase] is the built-in, here applied to the first character.
    A first character of four bytes, outside the Basic Multilingual Plane,
    is two code units for [charAt] and [slice], a lone surrogate each,
    which [toUpperCase] and [replace] leave as they are. *)
Definition projectName_of (toUpperCase : string -> string) (fileName : string)
    : string :=
  match fileName with
  | EmptyString => EmptyString
  | String c r =>
      let k := (char_width c - 1)%nat in
      let first := String c (substring 0 k r) in
      let rest := substring k (String.length r - k) r in
      (if (k =? 3)%nat then first else toUpperCase first)
      ++ string_map dash_to_space rest
  end.

(** [parseExcelRequirements]: [sheet] is the outcome of reading the first
    worksheet, [inl] when the reader or the workbook parser fails. *)
Definition parseExcelRequirements {Err} (toUpperCase : string -> string)
    (now : nat -> Z) (fileName : string)
    (sheet : Err + list Row) : Err + (list Requirement.t * string) :=
  match sheet with
  | inl err => inl err
  | inr jsonData =>
      inr (requirements_of now jsonData,
           projectName_of toUpperCase (before_dot fileName))
  end.

(** A description that is empty or made of white space only. *)
Inductive blank : string -> Prop :=
  | blank_empty : blank ""
  | blank_space (ws s : string) :
      In ws white_space -> blank s -> blank (ws ++ s).

End Excel.


(** ** Execution simulator ([components/ExecutionRunner]) *)

Module Runner.

(** What [runTests] does that the outside can see, in order: console lines
    ([addLog], without the clock prefix), the two local state setters, the
    timers it awaits, and the two callbacks of the view controller.
    [OnComplete ms] is [onComplete] called after [ms] milliseconds
    ([setTimeout(onComplete, 1000)]), [OnComplete 0] the direct call. *)
Inductive Event :=
  | AddLog (msg : string)
  | SetActiveTestId (id : string)
  | SetTestCases (snapshot : list TestCase.t)
  | Sleep (ms : nat)
  | OnUpdateProject (p : ValidationProject.t)
  | OnComplete (ms : nat).

Definition reasons : list string :=
  [ "Element not found within timeout";
    "Expected text 'Submit' but found 'Save'";
    "API returned 500 Internal Server Error";
    "Button is not clickable";
    "Input validation failed unexpectedly" ].

(** [arr[k]] for a number [k] that is an integer. *)
Definition at_index {A} (l : list A) (k : Z) : option A :=
  if (k <? 0)%Z then None else l !! Z.to_nat k.

(** [Math.floor(r * n)] *)
Definition floor_times (r : Q) (n : nat) : Z :=
  Qfloor (r * inject_Z (Z.of_nat n)).

(** [a > b] on numbers. *)
Definition gt (a b : Q) : bool :=
  match Qcompare a b with Gt => true | _ => false end.

(** [`${x}`] for an optional number and an optional string. *)
Definition show_number (x : option Z) : string :=
  match x with Some n => pretty n | None => "undefined" end.

Definition show_string (x : option string) : string :=
  default "undefined" x.

(** [arr.slice(-n)] *)
Definition slice_last {A} (n : nat) (l : list A) : list A :=
  drop (length l - n) l.

(** The status rule at the end of a pass:
    [if (failedCount > totalCount / 2) 'Failed'
     else if (failedCount > 0) 'Partly Validated' else 'Validated'] *)
Definition failedCount_of (cases : list TestCase.t) : nat :=
  length (List.filter (fun tc => bool_decide (TestCase.status tc = FAILED)) cases).

Definition pendingCount_of (cases : list TestCase.t) : nat :=
  length (List.filter (fun tc => bool_decide (TestCase.status tc = PENDING)) cases).

(** The cases the loop does not skip ([if (tc.status === 'PASSED') continue]). *)
Definition to_run (tc : TestCase.t) : bool :=
  negb (bool_decide (TestCase.status tc = PASSED)).

Definition finalStatus_of (failedCount totalCount : nat) : ProjectStatus :=
  if gt (inject_Z (Z.of_nat failedCount)) (inject_Z (Z.of_nat totalCount) / 2)
  then Failed
  else if (0 <? failedCount)%nat then PartlyValidated
  else Validated.

(** The step at which the loop over the steps stops: the first one whose
    number is [failAtStep], if the case is to fail. *)
Definition stop_step (isSuccess : bool) (failAtStep : Z)
    (steps : list TestStep) : option TestStep :=
  if isSuccess then None
  else List.find (fun step => (stepNumber step =? failAtStep)%Z) steps.

Section Simulator.

(** The canvas drawing, of which only the data URL it returns matters. *)
Variable generateScreenshot :
  CaseStatus -> string -> option Z -> option string -> string.

(** The successive values of [Math.random()]. *)
Variable rng : nat -> Q.

(** The [consoleLogs] the effect closure holds: the state of the render
    that created it, which [addLog] does not change. *)
Variable consoleLogs : list string.

(** The state [runTests] threads: its [updatedCases] array, how many
    draws it has made, and what it has emitted. *)
Record St := mkSt {
  updatedCases : list TestCase.t;
  drawn : nat;
  trace : list Event
}.

Definition M (A : Type) : Type := St -> A * St.

Definition ret {A} (a : A) : M A := fun s => (a, s).

Definition bind {A B} (m : M A) (k : A -> M B) : M B :=
  fun s => let '(a, s') := m s in k a s'.

Notation "x <- m ;; k" := (bind m (fun x => k))
  (at level 100, m at next level, right associativity).
Notation "m ;; k" := (bind m (fun _ => k))
  (at level 100, right associativity).

Definition random : M Q :=
  fun s => (rng (drawn s), mkSt (updatedCases s) (S (drawn s)) (trace s)).

Definition emit (ev : Event) : M unit :=
  fun s => (tt, mkSt (updatedCases s) (drawn s) (trace s ++ [ev])).

(** [updatedCases[i] = tc; setTestCases([...updatedCases])] *)
Definition store (i : nat) (tc : TestCase.t) : M unit :=
  fun s =>
    let cases := <[i := tc]> (updatedCases s) in
    (tt, mkSt cases (drawn s) (trace s ++ [SetTestCases cases])).

(** [for (const step of tc.steps) { ... }], returning
    [(failedStepNumber, failureReason)]. *)
Fixpoint run_steps (isSuccess : bool) (failAtStep : Z) (steps : list TestStep)
    : M (option Z * option string) :=
  match steps with
  | [] => ret (None, None)
  | step :: rest =>
      emit (AddLog ("  Running Step " ++ pretty (stepNumber step) ++ ": "
                    ++ action step)) ;;
      emit (Sleep 800) ;;
      if negb isSuccess && (stepNumber step =? failAtStep)%Z then
        r <- random ;;
        let failureReason := at_index reasons (floor_times r (length reasons)) in
        emit (AddLog ("  ❌ Failed Step " ++ pretty (stepNumber step) ++ ": "
                      ++ show_string failureReason)) ;;
        ret (Some (stepNumber step), failureReason)
      else run_steps isSuccess failAtStep rest
  end.

(** The body of the loop over the cases, for a case that is not skipped. *)
Definition run_case (i : nat) (tc : TestCase.t) : M unit :=
  emit (SetActiveTestId (TestCase.id tc)) ;;
  store i (TestCase.with_status tc RUNNING) ;;
  emit (AddLog ("Starting Test Case: " ++ TestCase.title tc ++ " ("
                ++ TestCase.id tc ++ ")")) ;;
  r <- random ;;
  let isSuccess := gt r 0.3 in
  failAtStep <-
    (if negb isSuccess then
       r' <- random ;;
       ret (floor_times r' (length (TestCase.steps tc)) + 1)%Z
     else ret (-1)%Z) ;;
  failed <- run_steps isSuccess failAtStep (TestCase.steps tc) ;;
  let '(failedStepNumber, failureReason) := failed in
  let status := if isSuccess then PASSED else FAILED in
  shoot <- (if negb isSuccess then ret true
            else r'' <- random ;; ret (gt r'' 0.8)) ;;
  screenshotUrl <-
    (if shoot : bool then
       emit (AddLog "  📸 Capturing evidence screenshot...") ;;
       ret (Some (generateScreenshot status (TestCase.title tc)
                    failedStepNumber failureReason))
     else ret None) ;;
  store i (TestCase.mk (TestCase.id tc) (TestCase.requirementId tc)
             (TestCase.title tc) (TestCase.steps tc) status
             (("Result: " ++ (if isSuccess then "Success"
                              else "Failed at Step " ++ show_number failedStepNumber))
              :: slice_last 5 consoleLogs)
             screenshotUrl failedStepNumber failureReason) ;;
  emit (AddLog ("Test Case Finished: "
                ++ (if isSuccess then "PASSED" else "FAILED"))) ;;
  emit (Sleep 500).

(** The record [run_case] stores last, in closed form: what the case is
    left with, from the draws it consumes, the first being draw [k]. *)
Definition finished (tc : TestCase.t) (k : nat) : TestCase.t :=
  let isSuccess := gt (rng k) 0.3 in
  let failAtStep :=
    (floor_times (rng (S k)) (length (TestCase.steps tc)) + 1)%Z in
  let stop := stop_step isSuccess failAtStep (TestCase.steps tc) in
  let failedStepNumber := stepNumber <$> stop in
  let failureReason :=
    match stop with
    | Some _ => at_index reasons (floor_times (rng (S (S k))) (length reasons))
    | None => None
    end in
  let status := if isSuccess then PASSED else FAILED in
  let shoot := if isSuccess then gt (rng (S k)) 0.8 else true in
  TestCase.mk (TestCase.id tc) (TestCase.requirementId tc)
    (TestCase.title tc) (TestCase.steps tc) status
    (("Result: " ++ (if isSuccess then "Success"
                     else "Failed at Step " ++ show_number failedStepNumber))
     :: slice_last 5 consoleLogs)
    (if shoot then Some (generateScreenshot status (TestCase.title tc)
                           failedStepNumber failureReason)
     else None)
    failedStepNumber failureReason.

(** One turn of [for (let i = 0; i < updatedCases.length; i++)]. *)
Definition turn (i : nat) : M unit :=
  fun s =>
    match updatedCases s !! i with
    | None => (tt, s)
    | Some tc =>
        if bool_decide (TestCase.status tc = PASSED) then (tt, s)
        else run_case i tc s
    end.

Fixpoint for_each (indices : list nat) : M unit :=
  match indices with
  | [] => ret tt
  | i :: rest => turn i ;; for_each rest
  end.

(** What a run leaves behind: what it emitted, the last value of the
    [testCases] state, and the project handed to [onUpdateProject], if
    any. *)
Record Outcome := mkOutcome {
  events : list Event;
  testCases_state : list TestCase.t;
  update : option ValidationProject.t
}.

Definition opening : list Event :=
  [ AddLog "Initializing Cloud Execution Environment...";
    AddLog "Connecting to Selenium Grid...";
    Sleep 1000 ].

(** [runTests], started by the effect of the first render. *)
Definition runTests (project : ValidationProject.t) : Outcome :=
  let testCases := ValidationProject.testCases project in
  let pendingCount := pendingCount_of testCases in
  if (pendingCount =? 0)%nat then
    mkOutcome
      (opening ++ [ AddLog "No pending tests found. Redirecting to report...";
                    OnComplete 1000 ])
      testCases None
  else
    let s0 :=
      mkSt testCases 0
        (opening ++ [ AddLog ("Environment Ready. Starting "
                              ++ pretty pendingCount ++ " Tests.") ]) in
    let '(_, s) := for_each (seq 0 (length testCases)) s0 in
    let finalStatus :=
      finalStatus_of (failedCount_of (updatedCases s))
                     (length (updatedCases s)) in
    let updated :=
      ValidationProject.with_cases_status project (updatedCases s) finalStatus in
    mkOutcome
      (trace s ++ [ AddLog "All tests completed. Generating Report...";
                    Sleep 1000;
                    OnUpdateProject updated;
                    OnComplete 0 ])
      (updatedCases s) (Some updated).

End Simulator.

(** The snapshots a run handed to [setTestCases], and the ids it handed to
    [setActiveTestId], in order. *)
Definition snapshots (evs : list Event) : list (list TestCase.t) :=
  omap (fun ev => match ev with SetTestCases c => Some c | _ => None end) evs.

Definition activated (evs : list Event) : list string :=
  omap (fun ev => match ev with SetActiveTestId i => Some i | _ => None end) evs.

End Runner.


(** ** Report view: the fix modal ([components/ReportView]) *)

Module Report.

(** [setSelectedTest(JSON.parse(JSON.stringify(tc)))]: a copy of the case. *)
Definition openFixModal (tc : TestCase.t) : option TestCase.t := Some tc.

(** [handleAiFix]: on success the steps of the gateway result replace those
    of [selectedTest]; on failure (an alert) the state is left as it is. *)
Definition handleAiFix {Exn} (selectedTest : option TestCase.t)
    (result : Exn + (list TestStep * string)) : option TestCase.t :=
  match selectedTest, result with
  | Some t, inr (steps, _) => Some (TestCase.with_steps t steps)
  | _, _ => selectedTest
  end.

(** [{ ...selectedTest, status: 'PENDING', failedStepNumber: undefined,
       failureReason: undefined, screenshotUrl: undefined, logs: [] }] *)
Definition reset (selectedTest : TestCase.t) : TestCase.t :=
  TestCase.mk (TestCase.id selectedTest) (TestCase.requirementId selectedTest)
    (TestCase.title selectedTest) (TestCase.steps selectedTest)
    PENDING [] None None None.

(** [project.testCases.map(tc => tc.id === selectedTest.id ? {...} : tc)] *)
Definition updatedTestCases (project : ValidationProject.t)
    (selectedTest : TestCase.t) : list TestCase.t :=
  map (fun tc =>
         if String.eqb (TestCase.id tc) (TestCase.id selectedTest)
         then reset selectedTest else tc)
      (ValidationProject.testCases project).

(** The project [handleSaveAndRetry] hands to [onUpdateProject]. *)
Definition saved (project : ValidationProject.t) (selectedTest : TestCase.t)
    : ValidationProject.t :=
  ValidationProject.with_cases_status project
    (updatedTestCases project selectedTest) InProgress.

(** [handleSaveAndRetry], over the state [S] of whoever owns the two
    callbacks; it returns the new [selectedTest] with that state. *)
Definition handleSaveAndRetry {S}
    (onUpdateProject : ValidationProject.t -> S -> S) (onRetry : S -> S)
    (project : ValidationProject.t) (selectedTest : option TestCase.t) (s : S)
    : option TestCase.t * S :=
  match selectedTest with
  | None => (None, s)
  | Some t => (None, onRetry (onUpdateProject (saved project t) s))
  end.

(** The tallies of the report:
    [project.testCases.filter(tc => tc.status === 'PASSED').length], the
    same for ['FAILED'], and [project.testCases.length]. *)
Definition passed (project : ValidationProject.t) : nat :=
  length (List.filter (fun tc => bool_decide (TestCase.status tc = PASSED))
            (ValidationProject.testCases project)).

Definition failed (project : ValidationProject.t) : nat :=
  length (List.filter (fun tc => bool_decide (TestCase.status tc = FAILED))
            (ValidationProject.testCases project)).

Definition total (project : ValidationProject.t) : nat :=
  length (ValidationProject.testCases project).

End Report.


(** ** Chat view ([components/ChatInterface]) *)

Module Chat.

(** [Partial<ValidationProject>], with the fields the controller reads. *)
Record PartialProject := mkPartial {
  p_name : option string;
  p_platformVersion : option string;
  p_requirements : option (list Requirement.t);
  p_chatHistory : option (list ChatMessage)
}.

(** [a || b] on strings; an absent or empty [a] gives [b]. *)
Definition or_string (a : option string) (b : string) : string :=
  match a with
  | None => b
  | Some EmptyString => b
  | Some s => s
  end.

(** [messages.map(m => `${m.role.toUpperCase()}: ${m.text}`).join('\n')] *)
Definition line_of (m : ChatMessage) : string :=
  (match role m with user => "USER" | model => "MODEL" end) ++ ": " ++ text m.

Fixpoint join (sep : string) (l : list string) : string :=
  match l with
  | [] => ""
  | [x] => x
  | x :: r => x ++ sep ++ join sep r
  end.

Definition historyText (messages : list ChatMessage) : string :=
  join (String Gateway.newline "") (map line_of messages).

(** [handleFinish], given the outcome of [extractRequirements(historyText)]:
    the argument of [onComplete] on success, nothing (an alert) on failure. *)
Definition handleFinish {Exn} (messages : list ChatMessage)
    (extraction : Exn + (list Requirement.t * string))
    : option PartialProject :=
  match extraction with
  | inr (requirements, name) =>
      Some (mkPartial (Some (or_string (Some name) "New Validation Project"))
                      (Some "1.0.0") (Some requirements) (Some messages))
  | inl _ => None
  end.

End Chat.


(** ** View controller ([App.tsx]) *)

Module App.

(** The state of the controller and, with it, the record store. *)
Record State := mkState {
  currentView : AppView;
  activeProject : option ValidationProject.t;
  history : gmap string ValidationProject.t
}.

Definition initial : State := mkState DASHBOARD None ∅.

Definition setCurrentView (v : AppView) (s : State) : State :=
  mkState v (activeProject s) (history s).

Definition setActiveProject (p : option ValidationProject.t) (s : State)
    : State :=
  mkState (currentView s) p (history s).

(** Modelled from the spec: [saveProjectToHistory] of [services/db], which
    is not among the sources.  The store holds one record per project,
    keyed by the project identifier, and a save replaces the whole record
    of that key. *)
Definition saveProjectToHistory (p : ValidationProject.t) (s : State)
    : State :=
  mkState (currentView s) (activeProject s)
          (<[ValidationProject.id p := p]> (history s)).

Definition handleStartNew (s : State) : State :=
  setCurrentView GATHER_REQUIREMENTS s.

(** [handleRequirementsGathered]; [now] is [Date.now()] and [iso] is
    [new Date().toISOString()]. *)
Definition newProject (now : Z) (iso : string) (data : Chat.PartialProject)
    : ValidationProject.t :=
  ValidationProject.mk
    ("PROJ-" ++ pretty now)
    (Chat.or_string (Chat.p_name data) "Untitled Project")
    (Chat.or_string (Chat.p_platformVersion data) "1.0.0")
    Draft
    iso
    (default [] (Chat.p_requirements data))
    []
    (default [] (Chat.p_chatHistory data))
    None.

Definition handleRequirementsGathered (now : Z) (iso : string)
    (data : Chat.PartialProject) (s : State) : State :=
  let newProject := newProject now iso data in
  setCurrentView REVIEW_PLAN
    (saveProjectToHistory newProject
       (setActiveProject (Some newProject) s)).

Definition handleUpdateProject (updated : ValidationProject.t) (s : State)
    : State :=
  saveProjectToHistory updated (setActiveProject (Some updated) s).

Definition handleStartExecution (s : State) : State :=
  let s' := setCurrentView EXECUTION s in
  match activeProject s with
  | Some p =>
      handleUpdateProject (ValidationProject.with_status p InProgress) s'
  | None => s'
  end.

Definition handleExecutionComplete (s : State) : State :=
  setCurrentView REPORT s.

Definition handleRetryExecution (s : State) : State :=
  setCurrentView EXECUTION s.

Definition handleHistorySelect (project : ValidationProject.t) (s : State)
    : State :=
  let s' := setActiveProject (Some project) s in
  if bool_decide (ValidationProject.status project = Draft)
     && (length (ValidationProject.testCases project) =? 0)%nat
  then setCurrentView REVIEW_PLAN s'
  else if bool_decide (ValidationProject.status project
                         ∈ [Validated; Failed; PartlyValidated])
  then setCurrentView REPORT s'
  else setCurrentView REVIEW_PLAN s'.

(** [<ChatInterface onComplete={handleRequirementsGathered} />]: the end of
    the chat, given the outcome of the extraction. *)
Definition chat_finished {Exn} (now : Z) (iso : string)
    (messages : list ChatMessage)
    (extraction : Exn + (list Requirement.t * string)) (s : State) : State :=
  match Chat.handleFinish messages extraction with
  | Some data => handleRequirementsGathered now iso data s
  | None => s
  end.

(** [<ReportView project={activeProject} onUpdateProject={handleUpdateProject}
       onRetry={handleRetryExecution} />]: the save button of the fix modal. *)
Definition fix_saved (selectedTest : option TestCase.t) (s : State)
    : option TestCase.t * State :=
  match activeProject s with
  | Some project =>
      Report.handleSaveAndRetry handleUpdateProject handleRetryExecution
        project selectedTest s
  | None => (selectedTest, s)
  end.

(** [<ExecutionRunner project={activeProject} onUpdateProject={handleUpdateProject}
       onComplete={handleExecutionComplete} />]: the callbacks of a finished
    run, applied in the order the run made them. *)
Definition execution_finished (o : Runner.Outcome) (s : State) : State :=
  handleExecutionComplete
    (match Runner.update o with
     | Some p => handleUpdateProject p s
     | None => s
     end).

(** [handleFileChange]: [file] is [e.target.files[0]] (its name), absent
    when no file was picked; [sheet] is what reading it gives;
    [toUpperCase] is the built-in the import calls.  A rejected parse ends
    in an alert and sets nothing. *)
Definition importedProject (now : Z) (iso : string)
    (requirements : list Requirement.t) (name : string)
    : ValidationProject.t :=
  ValidationProject.mk ("PROJ-IMPORT-" ++ pretty now) name "1.0.0" Draft iso
    requirements [] [] None.

Definition handleFileChange {Err} (toUpperCase : string -> string)
    (now : Z) (iso : string) (clock : nat -> Z)
    (file : option string) (sheet : Err + list Excel.Row) (s : State)
    : State :=
  match file with
  | None => s
  | Some fileName =>
      match Excel.parseExcelRequirements toUpperCase clock fileName sheet with
      | inr (requirements, name) =>
          let newProject := importedProject now iso requirements name in
          setCurrentView REVIEW_PLAN
            (saveProjectToHistory newProject
               (setActiveProject (Some newProject) s))
      | inl _ => s
      end
  end.

(** [<TestPlanView project={activeProject} onUpdateProject={handleUpdateProject}
       onProceed={handleStartExecution} />] and the dashboard card
    [onClick={() => setCurrentView(AppView.REPORT)}], which is rendered
    when there is an active project that is no draft. *)
Definition recent_activity_clicked (s : State) : State :=
  match activeProject s with
  | Some p =>
      if bool_decide (ValidationProject.status p = Draft) then s
      else setCurrentView REPORT s
  | None => s
  end.

End App.


(** ** Test-plan view ([components/TestPlanView]) *)

Module PlanView.

(** The local state of the editing and refining handlers.  The in-flight
    flags ([isGenerating], [isRefining]), false again when a handler is
    done, are left out. *)
Record Local := mkLocal {
  editingTestId : option string;
  editForm : option TestCase.t;
  refiningTestId : option string;
  refinePrompt : string
}.

Definition startEditing (tc : TestCase.t) (l : Local) : Local :=
  mkLocal (Some (TestCase.id tc)) (Some tc) None (refinePrompt l).

Definition cancelEditing (l : Local) : Local :=
  mkLocal None None (refiningTestId l) (refinePrompt l).

(** [project.testCases.map(tc => tc.id === editForm.id ? editForm : tc)] *)
Definition replaced (project : ValidationProject.t) (form : TestCase.t)
    : list TestCase.t :=
  map (fun tc =>
         if String.eqb (TestCase.id tc) (TestCase.id form) then form else tc)
      (ValidationProject.testCases project).

(** [{ ...project, testCases }] *)
Definition with_cases (project : ValidationProject.t)
    (cases : list TestCase.t) : ValidationProject.t :=
  ValidationProject.with_cases_status project cases
    (ValidationProject.status project).

Definition saveTestChanges {S}
    (onUpdateProject : ValidationProject.t -> S -> S)
    (project : ValidationProject.t) (l : Local) (s : S) : Local * S :=
  match editForm l with
  | Some form =>
      (mkLocal None None (refiningTestId l) (refinePrompt l),
       onUpdateProject (with_cases project (replaced project form)) s)
  | None => (l, s)
  end.

(** The two fields the step inputs edit ([updateStep(idx, 'action', ...)],
    [updateStep(idx, 'expectedResult', ...)]). *)
Inductive TextField := Action | ExpectedResult.

(** [{ ...step, [field]: value }] *)
Definition set_field (field : TextField) (value : string) (step : TestStep)
    : TestStep :=
  match field with
  | Action => mkStep (stepNumber step) value (expectedResult step)
  | ExpectedResult => mkStep (stepNumber step) (action step) value
  end.

(** [const newSteps = [...steps]; newSteps[index] = {...newSteps[index], [field]: value}],
    the body of [updateStep] here and of [handleStepChange] in the fix
    modal.  Past the end of the array the assignment would store an object
    with the one field only, which is no step: [None]. *)
Definition set_step (index : nat) (field : TextField) (value : string)
    (steps : list TestStep) : option (list TestStep) :=
  match steps !! index with
  | Some step => Some (<[index := set_field field value step]> steps)
  | None => None
  end.

Definition updateStep (index : nat) (field : TextField) (value : string)
    (form : option TestCase.t) : option (option TestCase.t) :=
  match form with
  | Some f =>
      match set_step index field value (TestCase.steps f) with
      | Some steps => Some (Some (TestCase.with_steps f steps))
      | None => None
      end
  | None => Some None
  end.

(** [setEditForm({...editForm, title: e.target.value})], the title input
    of the edit mode (rendered when [editForm] is set). *)
Definition setTitle (value : string) (form : option TestCase.t)
    : option TestCase.t :=
  match form with
  | Some f =>
      Some (TestCase.mk (TestCase.id f) (TestCase.requirementId f) value
              (TestCase.steps f) (TestCase.status f) (TestCase.logs f)
              (TestCase.screenshotUrl f) (TestCase.failedStepNumber f)
              (TestCase.failureReason f))
  | None => None
  end.

(** One edit of the form in edit mode: the title input, a step input, the
    add-step button, a remove-step button. *)
Inductive edit : option TestCase.t -> option TestCase.t -> Prop :=
  | EditTitle (form : option TestCase.t) (value : string) :
      edit form (setTitle value form)
  | EditStep (form form' : option TestCase.t) (index : nat)
      (field : TextField) (value : string) :
      updateStep index field value form = Some form' -> edit form form'
  | EditAdd (form : option TestCase.t) :
      edit form (Editor.Plan.addStep form)
  | EditRemove (form : option TestCase.t) (index : nat) :
      edit form (Editor.Plan.removeStep index form).

Definition openRefine (tc : TestCase.t) (l : Local) : Local :=
  mkLocal None (editForm l) (Some (TestCase.id tc)) "".

(** [project.testCases.map(t => t.id === tc.id ? { ...t, title, steps } : t)] *)
Definition refined (project : ValidationProject.t) (tc : TestCase.t)
    (title : string) (steps : list TestStep) : list TestCase.t :=
  map (fun t =>
         if String.eqb (TestCase.id t) (TestCase.id tc)
         then TestCase.mk (TestCase.id t) (TestCase.requirementId t) title
                steps (TestCase.status t) (TestCase.logs t)
                (TestCase.screenshotUrl t) (TestCase.failedStepNumber t)
                (TestCase.failureReason t)
         else t)
      (ValidationProject.testCases project).

(** [handleRefineSubmit(tc)], given the outcome of
    [refineTestCase(tc, refinePrompt)]; a rejected call ends in an alert. *)
Definition handleRefineSubmit {S Exn}
    (onUpdateProject : ValidationProject.t -> S -> S)
    (project : ValidationProject.t) (tc : TestCase.t)
    (result : Exn + (string * list TestStep)) (l : Local) (s : S)
    : Local * S :=
  if String.eqb (Excel.trim (refinePrompt l)) "" then (l, s)
  else
    match result with
    | inr (title, steps) =>
        (mkLocal (editingTestId l) (editForm l) None "",
         onUpdateProject (with_cases project (refined project tc title steps)) s)
    | inl _ => (l, s)
    end.

(** [handleGenerateTestCases], given the outcome of
    [generateTestCases(project.requirements)]. *)
Definition handleGenerateTestCases {S Exn}
    (onUpdateProject : ValidationProject.t -> S -> S)
    (project : ValidationProject.t) (result : Exn + list TestCase.t) (s : S)
    : S :=
  match result with
  | inr cases => onUpdateProject (with_cases project cases) s
  | inl _ => s
  end.

(** A row of the exported sheet: Test Case ID, Requirement ID, Test Title,
    Step #, Action, Expected Result, Status. *)
Record ExportRow := mkRow {
  row_testCaseId : string;
  row_requirementId : string;
  row_testTitle : string;
  row_step : Z;
  row_action : string;
  row_expectedResult : string;
  row_status : CaseStatus
}.

Definition row_of (tc : TestCase.t) (step : TestStep) : ExportRow :=
  mkRow (TestCase.id tc) (TestCase.requirementId tc) (TestCase.title tc)
    (stepNumber step) (action step) (expectedResult step) (TestCase.status tc).

(** [project.testCases.forEach(tc => tc.steps.forEach(step => rows.push({...})))] *)
Definition export_rows (cases : list TestCase.t) : list ExportRow :=
  flat_map (fun tc => map (row_of tc) (TestCase.steps tc)) cases.

(** [s.replace(/\s+/g, '_')]: each run of white-space characters becomes
    one underscore. *)
Fixpoint underscore_spaces (s : string) : string :=
  match s with
  | EmptyString => EmptyString
  | String c r =>
      match Excel.space_width s with
      | 0 => String c (underscore_spaces r)
      | 1 => String "_" (underscore_spaces (Excel.trim_start r))
      | 2 => String "_" (underscore_spaces (Excel.trim_start (Excel.tail r)))
      | _ => String "_" (underscore_spaces
                           (Excel.trim_start (Excel.tail (Excel.tail r))))
      end
  end.

(** [`${project.name.replace(/\s+/g, '_')}_TestPlan.xlsx`] *)
Definition export_fileName (project : ValidationProject.t) : string :=
  underscore_spaces (ValidationProject.name project) ++ "_TestPlan.xlsx".

(** [let ext = '.ts'; if (fw.includes('Python')) ext = '.py';
     else if (fw.includes('JavaScript') || fw.includes('Cypress')) ext = '.js';] *)
Definition code_extension (selectedFramework : string) : string :=
  if Excel.includes selectedFramework "Python" then ".py"
  else if Excel.includes selectedFramework "JavaScript"
          || Excel.includes selectedFramework "Cypress" then ".js"
  else ".ts".

(** [`${baseName}${suffix}${ext}`], the name of the downloaded script. *)
Definition code_fileName (project : ValidationProject.t)
    (selectedTestForExport : option TestCase.t) (selectedFramework : string)
    : string :=
  underscore_spaces (ValidationProject.name project)
  ++ match selectedTestForExport with
     | Some tc => "_" ++ TestCase.id tc
     | None => "_Tests"
     end
  ++ code_extension selectedFramework.

End PlanView.


(** ** Chat view: sending a message ([components/ChatInterface]) *)

Module ChatView.

Record Local := mkLocal {
  messages : list ChatMessage;
  input : string;
  session : bool
}.

(** The first message of the transcript, written at time [now]. *)
Definition greeting (now : Z) : ChatMessage :=
  mkMsg model
    "Hello! I'm your Validation Agent. Briefly describe the feature or platform update you want to validate today."
    now.

(** [handleSend], given the outcome of [sendMessage]: the text of the reply
    ([inr], absent when the reply has none) or a rejection.  [now] and
    [later] are the two clock reads. *)
Definition handleSend {Exn} (now later : Z) (reply : Exn + option string)
    (l : Local) : Local :=
  if String.eqb (Excel.trim (input l)) "" || negb (session l) then l
  else
    let userMsg := mkMsg user (input l) now in
    let modelMsg :=
      match reply with
      | inr t => mkMsg model
                   (Chat.or_string t "I didn't catch that. Could you clarify?")
                   later
      | inl _ => mkMsg model
                   "I encountered an error. Please check your connection or API key."
                   later
      end in
    mkLocal ((messages l ++ [userMsg]) ++ [modelMsg]) "" (session l).

End ChatView.


(** ** The screens of the controller, as a transition system *)

Module Controller.

(** What can happen to the controller.  A click fires in the view that
    renders it; the callbacks of awaited work (the end of the chat, an
    import, the updates and the end of a run, the updates of the plan
    view) can arrive later, whatever the view is by then, from a view that
    was rendered with an active project where it needs one. *)
Inductive step : App.State -> App.State -> Prop :=
  | Navigate (s : App.State) (v : AppView) :
      In v [DASHBOARD; GATHER_REQUIREMENTS; HISTORY] ->
      step s (App.setCurrentView v s)
  | StartNew (s : App.State) :
      App.currentView s = DASHBOARD ->
      step s (App.handleStartNew s)
  | RecentActivity (s : App.State) :
      App.currentView s = DASHBOARD ->
      step s (App.recent_activity_clicked s)
  | FileChange (s : App.State) (toUpperCase : string -> string)
      (now : Z) (iso : string) (clock : nat -> Z)
      (file : option string) (sheet : string + list Excel.Row) :
      step s (App.handleFileChange toUpperCase now iso clock file sheet s)
  | ChatFinished (s : App.State) (now : Z) (iso : string)
      (messages : list ChatMessage)
      (extraction : Gateway.Exn + (list Requirement.t * string)) :
      step s (App.chat_finished now iso messages extraction s)
  | UpdateProject (s : App.State) (updated : ValidationProject.t) :
      is_Some (App.activeProject s) ->
      step s (App.handleUpdateProject updated s)
  | StartExecution (s : App.State) :
      App.currentView s = REVIEW_PLAN -> is_Some (App.activeProject s) ->
      step s (App.handleStartExecution s)
  | ExecutionComplete (s : App.State) :
      is_Some (App.activeProject s) ->
      step s (App.handleExecutionComplete s)
  | RetryExecution (s : App.State) :
      App.currentView s = REPORT -> is_Some (App.activeProject s) ->
      step s (App.handleRetryExecution s)
  | BackToDashboard (s : App.State) :
      App.currentView s = REPORT -> is_Some (App.activeProject s) ->
      step s (App.setCurrentView DASHBOARD s)
  | HistorySelect (s : App.State) (project : ValidationProject.t) :
      step s (App.handleHistorySelect project s).

(** The states the controller can be in, from [App.initial]. *)
Inductive reachable : App.State -> Prop :=
  | reach_initial : reachable App.initial
  | reach_step (s s' : App.State) : reachable s -> step s s' -> reachable s'.

(** The views that render nothing without an active project. *)
Definition needs_project (v : AppView) : bool :=
  match v with
  | REVIEW_PLAN | EXECUTION | REPORT => true
  | _ => false
  end.

End Controller.


(** ** Vocabulary of the properties, and sample data *)

(** A case whose only step carries the number 5, as a model response can
    number it. *)
Definition case_numbered_5 : TestCase.t :=
  TestCase.mk "TC-1-0" "REQ-1-0" "Login" [mkStep 5 "Open the page" "Page opens"]
    PENDING [] None None None.

Definition case_two_steps : TestCase.t :=
  TestCase.mk "TC-1-0" "REQ-1-0" "Login"
    [mkStep 1 "Open the page" "Page opens"; mkStep 2 "Sign in" "Signed in"]
    FAILED ["Result: Failed at Step 2"] None (Some 2%Z)
    (Some "Button is not clickable").

(** The outside world after [k] successive calls of [fn] from [w]. *)
Definition after_calls {W E T} (fn : W -> (E + T) * W) (k : nat) (w : W) : W :=
  Nat.iter k (fun w' => (fn w').2) w.
Arguments after_calls : simpl never.

(** The retry policy the spec gives, for an operation that makes the
    remote call [fn] from the world [w] and ends with the outcome [o]
    (result, world, trace).  The calls that failed before the last one,
    with their errors [errors], are at most two; call number [i] is made on
    the world the [i] calls before it left; after each failed call but the
    last the operation sleeps, 1000 ms the first time and 1.5 times the
    sleep before the second time, and then calls again; nothing follows
    the last call, which is the one after [errors]; and when that last call
    fails too, it is the third and its error is the result. *)
Definition retry_policy {W A}
    (fn : W -> (Gateway.Exn + Gateway.GenerateContentResponse) * W) (w : W)
    (o : (Gateway.Exn + A) * W
         * list (Gateway.Event Gateway.Exn Gateway.GenerateContentResponse))
    : Prop :=
  exists errors : list Gateway.Exn,
    (length errors <= 2)%nat
    /\ (forall i e, errors !! i = Some e ->
          (fn (after_calls fn i w)).1 = inl e)
    /\ o.2 = (flat_map
                (fun ed => [Gateway.Attempt (inl ed.1); Gateway.Wait ed.2])
                (zip errors (Gateway.backoff 1000 (length errors)))
              ++ [Gateway.Attempt (fn (after_calls fn (length errors) w)).1])%list
    /\ o.1.2 = after_calls fn (S (length errors)) w
    /\ (forall e, (fn (after_calls fn (length errors) w)).1 = inl e ->
          length errors = 2%nat /\ o.1.1 = inl e).

(** A string has [sub] in it in some letter case: one of its substrings has
    [sub] as its lower-case form. *)
Definition contains_any_case (s sub : string) : Prop :=
  exists pre mid post,
    s = (pre ++ mid ++ post)%string /\ Excel.toLowerCase mid = sub.

(** A sheet row that names both priorities. *)
Definition row_high_not_low : Excel.Row :=
  [ ("Description", Excel.CString "Login works");
    ("Priority", Excel.CString "High, not low") ].

Definition sheet_two_rows : list Excel.Row :=
  [ [ ("Description", Excel.CString "Login works");
      ("Priority", Excel.CString "HIGH") ];
    [ ("Description", Excel.CString "   ") ] ].

(** A screenshot function, and two supplies of draws: one under the pass
    threshold, one over it and under the screenshot threshold. *)
Definition blank_screenshot
    (status : CaseStatus) (testName : string) (failedStep : option Z)
    (reason : option string) : string :=
  "data:image/png;base64,".

Definition draws_low : nat -> Q := fun _ => 0.1%Q.

Definition draws_mid : nat -> Q := fun _ => 0.5%Q.

Definition draws_first_low : nat -> Q :=
  fun k => if (k =? 0)%nat then 0.1%Q else 0.5%Q.

Definition case_no_steps : TestCase.t :=
  TestCase.mk "TC-1-0" "REQ-1-0" "Login" [] PENDING [] None None None.

Definition case_steps_10_20 : TestCase.t :=
  TestCase.mk "TC-1-1" "REQ-1-0" "Logout"
    [mkStep 10 "Open the menu" "Menu opens"; mkStep 20 "Sign out" "Signed out"]
    PENDING [] None None None.

Definition case_pending : TestCase.t :=
  TestCase.mk "TC-1-2" "REQ-1-1" "Search"
    [mkStep 1 "Type a word" "Results show"] PENDING [] None None None.

Definition case_passed : TestCase.t :=
  TestCase.mk "TC-1-3" "REQ-1-1" "Filter"
    [mkStep 1 "Pick a filter" "Results shrink"] PASSED ["Result: Success"]
    None None None.

Definition project_of (status : ProjectStatus) (cases : list TestCase.t)
    : ValidationProject.t :=
  ValidationProject.mk "PROJ-1" "Login" "1.0.0" status
    "2024-01-01T00:00:00.000Z" [] cases [] None.

(** A controller that shows [view] with [project] active and stored. *)
Definition state_with (view : AppView) (project : ValidationProject.t)
    : App.State :=
  App.mkState view (Some project) {[ ValidationProject.id project := project ]}.

(** A remote service that rejects the first [n] calls, over a world that
    counts the calls made. *)
Definition failing_first (n : nat) (req : Gateway.Request) (w : nat)
    : (Gateway.Exn + Gateway.GenerateContentResponse) * nat :=
  (if (w <? n)%nat then inl (Gateway.ApiError "503")
   else inr (Gateway.mkResponse (Some "{}")), S w).

(** The hyphen, and the strings that hold none. *)
Definition dash : ascii := "-"%char.

Definition dashless (s : string) : Prop :=
  ~ In dash (list_ascii_of_string s).

(** A string that holds a white-space character. *)
Definition has_space (s : string) : Prop :=
  exists pre ws post,
    In ws Excel.white_space /\ s = (pre ++ ws ++ post)%string.



(** The no-break space and the ideographic space. *)
Definition nbsp : string := Eval cbv in Excel.utf8 160.

Definition ideographic_space : string := Eval cbv in Excel.utf8 12288.

(** The full stop. *)
Definition dot : ascii := "."%char.

(** What no edit of a case, in the plan view, touches. *)
Definition same_record (a b : TestCase.t) : Prop :=
  TestCase.id a = TestCase.id b
  /\ TestCase.requirementId a = TestCase.requirementId b
  /\ TestCase.status a = TestCase.status b
  /\ TestCase.logs a = TestCase.logs b
  /\ TestCase.screenshotUrl a = TestCase.screenshotUrl b
  /\ TestCase.failedStepNumber a = TestCase.failedStepNumber b
  /\ TestCase.failureReason a = TestCase.failureReason b.

(** A remote service that resolves every call with the text [text], over
    a world that counts the calls; a parser that reads two test cases out
    of any text; the local states of the plan view and of the chat. *)
Definition resolving (text : option string) (req : Gateway.Request) (w : nat)
    : (Gateway.Exn + Gateway.GenerateContentResponse) * nat :=
  (inr (Gateway.mkResponse text), S w).

Definition parse_two_cases (text : string) : option (list Gateway.RawTestCase) :=
  Some [ Gateway.mkRawCase "REQ-1-0" "Login"
           [mkStep 1 "Open the page" "Page opens"] None None None;
         Gateway.mkRawCase "REQ-1-0" "Logout" [] None (Some 7%Z) None ].

Definition plan_local : PlanView.Local :=
  PlanView.mkLocal None None (Some "TC-1-0") "Add a wait step".

Definition chat_local : ChatView.Local :=
  ChatView.mkLocal [ChatView.greeting 1700000000000] "Login must work" true.


(** * Properties *)

Local Open Scope list_scope.

(** ** Step numbering under the two edits *)

Section EditorFacts.
Import Editor.

Lemma stepNumbers_imap_renumber (l : list TestStep) :
  stepNumbers (imap renumber l) = seqZ 1 (Z.of_nat (length l)).
Proof.
  unfold stepNumbers, seqZ.
  change (map stepNumber (imap renumber l))
    with (stepNumber <$> imap renumber l).
  rewrite fmap_imap, Nat2Z.id.
  change (fun n : nat => stepNumber ∘ renumber n)
    with (fun (j : nat) (_ : TestStep) => (Z.of_nat j + 1)%Z).
  apply (imap_seq_0 l (fun j => (Z.of_nat j + 1)%Z)).
Qed.

Lemma removeStep_steps_contiguous (index : nat) (l : list TestStep) :
  contiguous (removeStep_steps index l).
Proof.
  unfold contiguous, removeStep_steps.
  rewrite length_imap. apply stepNumbers_imap_renumber.
Qed.

Lemma addStep_steps_numbers (act : string) (l : list TestStep) :
  stepNumbers (addStep_steps act l)
  = stepNumbers l ++ [(Z.of_nat (length l) + 1)%Z].
Proof. unfold stepNumbers, addStep_steps. now rewrite map_app. Qed.

Lemma addStep_steps_contiguous (act : string) (l : list TestStep) :
  contiguous l -> contiguous (addStep_steps act l).
Proof.
  unfold contiguous. intros H.
  rewrite addStep_steps_numbers, H.
  unfold addStep_steps. rewrite length_app. simpl length.
  replace (length l + 1)%nat with (S (length l)) by lia.
  rewrite seqZ_S. f_equal. f_equal. lia.
Qed.

(** Removal drops exactly the step at [index]: what is left is the list
    without that position. *)
Lemma filter_index_from_delete {A} (index k : nat) (l : list A) :
  filter_index_from (fun i => negb (Nat.eqb i (k + index))) k l
  = delete index l.
Proof.
  revert index k. induction l as [|x l IH]; intros index k; simpl.
  - now destruct index.
  - destruct index as [|index].
    + rewrite Nat.add_0_r, Nat.eqb_refl. simpl.
      clear IH. generalize (S k) (Nat.lt_succ_diag_r k).
      induction l as [|y l IH]; intros m Hm; simpl; [reflexivity|].
      destruct (Nat.eqb_spec m k) as [->|_]; [lia|]. simpl.
      f_equal. apply IH. lia.
    + destruct (Nat.eqb_spec k (k + S index)) as [E|_]; [lia|]. simpl.
      f_equal. replace (k + S index)%nat with (S k + index)%nat by lia.
      apply IH.
Qed.

Lemma removeStep_steps_length (index : nat) (l : list TestStep) :
  (index < length l)%nat ->
  length (removeStep_steps index l) = (length l - 1)%nat.
Proof.
  intros H. unfold removeStep_steps, filter_index.
  rewrite length_imap.
  change (filter_index_from (fun i => negb (Nat.eqb i index)) 0 l)
    with (filter_index_from (fun i => negb (Nat.eqb i (0 + index))) 0 l).
  rewrite (filter_index_from_delete index 0 l).
  rewrite length_delete; [lia|]. now apply lookup_lt_is_Some_2.
Qed.

End EditorFacts.

Section EditFacts.
Import Editor.

Lemma removeStep_steps_delete (index : nat) (l : list TestStep) :
  removeStep_steps index l = imap renumber (delete index l).
Proof.
  unfold removeStep_steps, filter_index.
  change (filter_index_from (fun i => negb (Nat.eqb i index)) 0 l)
    with (filter_index_from (fun i => negb (Nat.eqb i (0 + index))) 0 l).
  now rewrite (filter_index_from_delete index 0 l).
Qed.

(** Renumbering changes nothing in steps numbered 1, 2, ..., n. *)
Lemma imap_renumber_contiguous (l : list TestStep) :
  contiguous l -> imap renumber l = l.
Proof.
  intros Hc. apply list_eq. intros i. rewrite list_lookup_imap.
  destruct (l !! i) as [s|] eqn:Hi; [|reflexivity]. simpl. f_equal.
  assert (Hnum : stepNumbers l !! i = Some (stepNumber s)).
  { unfold stepNumbers. change (map stepNumber l) with (stepNumber <$> l).
    now rewrite list_lookup_fmap, Hi. }
  rewrite Hc in Hnum. apply lookup_seqZ in Hnum as [Hnum _].
  unfold renumber. destruct s as [n a e]. simpl in *. f_equal. lia.
Qed.

Lemma delete_past_end {A} (i : nat) (l : list A) :
  (length l <= i)%nat -> delete i l = l.
Proof.
  intros H. rewrite delete_take_drop, take_ge, drop_ge by lia.
  apply app_nil_r.
Qed.

(** What removal leaves of the actions and of the expected results. *)
Lemma removeStep_steps_action (index : nat) (l : list TestStep) :
  map action (removeStep_steps index l) = delete index (map action l).
Proof.
  rewrite removeStep_steps_delete.
  change (map action ?x) with (action <$> x).
  rewrite fmap_imap, <- list_fmap_delete. apply imap_const.
Qed.

Lemma removeStep_steps_expectedResult (index : nat) (l : list TestStep) :
  map expectedResult (removeStep_steps index l)
  = delete index (map expectedResult l).
Proof.
  rewrite removeStep_steps_delete.
  change (map expectedResult ?x) with (expectedResult <$> x).
  rewrite fmap_imap, <- list_fmap_delete. apply imap_const.
Qed.

End EditFacts.

Example removeStep_first :
  Editor.Fix.removeStep 0 (Some case_two_steps)
  = Some (TestCase.with_steps case_two_steps [mkStep 1 "Sign in" "Signed in"]).
Proof. reflexivity. Qed.

Example removeStep_out_of_range :
  Editor.Plan.removeStep 7 (Some case_two_steps) = Some case_two_steps.
Proof. reflexivity. Qed.


(** C2, as stated, fails: appending a step to a case whose one step is
    numbered 5 gives the numbers 5, 2, in the editor and in the fix modal. *)
Lemma addStep_numbers_5_2 :
  (exists tc', Editor.Plan.addStep (Some case_numbered_5) = Some tc'
               /\ stepNumbers (TestCase.steps tc') = [5; 2]%Z
               /\ ~ contiguous (TestCase.steps tc'))
  /\ (exists tc', Editor.Fix.addStep (Some case_numbered_5) = Some tc'
                  /\ stepNumbers (TestCase.steps tc') = [5; 2]%Z
                  /\ ~ contiguous (TestCase.steps tc')).
Proof.
  split; eexists; (split; [reflexivity|]); (split; [reflexivity|]);
    unfold contiguous; vm_compute; discriminate.
Qed.

(** C2, amended: in the test-plan editor and in the fix modal, removing a
    step drops the step at the index, keeps the texts of the others in
    order and numbers what is left 1, 2, ..., n; adding a step appends one
    step that takes the number (previous length + 1) and leaves the
    existing steps, with their numbers, as they are, so that a case whose
    steps are numbered 1, ..., n has them numbered 1, ..., n + 1 after. *)
Theorem step_edits_keep_numbering (tc : TestCase.t) (index : nat) :
  let steps := TestCase.steps tc in
  (exists removed,
     Editor.Plan.removeStep index (Some tc)
     = Some (TestCase.with_steps tc removed)
     /\ Editor.Fix.removeStep index (Some tc)
        = Some (TestCase.with_steps tc removed)
     /\ map action removed = delete index (map action steps)
     /\ map expectedResult removed = delete index (map expectedResult steps)
     /\ stepNumbers removed = seqZ 1 (Z.of_nat (length removed)))
  /\ (exists inPlan inFix,
        Editor.Plan.addStep (Some tc)
        = Some (TestCase.with_steps tc (steps ++ [inPlan]))
        /\ Editor.Fix.addStep (Some tc)
           = Some (TestCase.with_steps tc (steps ++ [inFix]))
        /\ stepNumber inPlan = (Z.of_nat (length steps) + 1)%Z
        /\ stepNumber inFix = (Z.of_nat (length steps) + 1)%Z
        /\ (contiguous steps ->
            stepNumbers (steps ++ [inPlan])
            = seqZ 1 (Z.of_nat (length steps) + 1)
            /\ stepNumbers (steps ++ [inFix])
               = seqZ 1 (Z.of_nat (length steps) + 1))).
Proof.
  intros steps. subst steps. split.
  - exists (Editor.removeStep_steps index (TestCase.steps tc)).
    split; [reflexivity|]. split; [reflexivity|].
    split; [apply removeStep_steps_action|].
    split; [apply removeStep_steps_expectedResult|].
    apply removeStep_steps_contiguous.
  - eexists _, _. split; [reflexivity|]. split; [reflexivity|].
    split; [reflexivity|]. split; [reflexivity|].
    intros Hc. split.
    + pose proof (addStep_steps_contiguous "New action" _ Hc) as H.
      unfold contiguous, Editor.addStep_steps in H. rewrite H.
      rewrite length_app. simpl. f_equal. lia.
    + pose proof (addStep_steps_contiguous "New step action" _ Hc) as H.
      unfold contiguous, Editor.addStep_steps in H. rewrite H.
      rewrite length_app. simpl. f_equal. lia.
Qed.

Lemma step_edits_keep_numbering_witness :
  contiguous (TestCase.steps case_two_steps)
  /\ exists inPlan,
       Editor.Plan.addStep (Some case_two_steps)
       = Some (TestCase.with_steps case_two_steps
                 (TestCase.steps case_two_steps ++ [inPlan]))
       /\ stepNumbers (TestCase.steps case_two_steps ++ [inPlan])
          = [1; 2; 3]%Z.
Proof.
  assert (H : contiguous (TestCase.steps case_two_steps)) by reflexivity.
  split; [exact H|].
  destruct (proj2 (step_edits_keep_numbering case_two_steps 0))
    as (inPlan & inFix & Hplan & _ & _ & _ & Hnum).
  exists inPlan. split; [exact Hplan|].
  rewrite (proj1 (Hnum H)). reflexivity.
Defined.


(** ** The retry policy of the gateway *)

Section RetryFacts.
Import Gateway.
Context {W E T : Type}.
Variable fn : W -> (E + T) * W.

Lemma after_calls_S (k : nat) (w : W) :
  after_calls fn (S k) w = after_calls fn k (fn w).2.
Proof. unfold after_calls. now rewrite Nat.iter_succ_r. Qed.

(** [retry fn retries delay], call by call: the calls that failed before
    the last one are at most [retries]; each call is made on the world the
    calls before it left; a sleep follows each failed call but the last,
    [delay] first and 1.5 times the sleep before after; the outcome of the
    last call is the result; and a failure is the result only when
    [retries] calls failed before it. *)
Lemma retry_calls (retries : nat) (delay : Q) (w : W) :
  exists errors : list E,
    (length errors <= retries)%nat
    /\ (forall i e, errors !! i = Some e ->
          (fn (after_calls fn i w)).1 = inl e)
    /\ (retry fn retries delay w).2
       = flat_map (fun ed => [Attempt (inl ed.1); Wait ed.2])
           (zip errors (backoff delay (length errors)))
         ++ [Attempt (fn (after_calls fn (length errors) w)).1]
    /\ (retry fn retries delay w).1.1
       = (fn (after_calls fn (length errors) w)).1
    /\ (retry fn retries delay w).1.2 = after_calls fn (S (length errors)) w
    /\ (forall e, (fn (after_calls fn (length errors) w)).1 = inl e ->
          length errors = retries).
Proof.
  revert delay w. induction retries as [|r IH]; intros delay w; simpl.
  - exists []. destruct (fn w) as [[e|v] w1] eqn:Hfn; simpl;
      unfold after_calls; simpl; rewrite Hfn; simpl;
      (split; [lia|]); (split; [intros i e' H; discriminate|]);
      repeat split.
  - destruct (fn w) as [[e|v] w1] eqn:Hfn; simpl.
    + destruct (IH (delay * 1.5)%Q w1)
        as (errors & Hlen & Herr & Htr & Hres & Hw & Hend).
      destruct (retry fn r (delay * 1.5)%Q w1) as [[r' w2] tr].
      simpl in *. exists (e :: errors). simpl.
      assert (Hw1 : forall k, after_calls fn (S k) w = after_calls fn k w1)
        by (intros k; now rewrite after_calls_S, Hfn).
      split; [lia|]. split.
      { intros [|i] e' Hi; simpl in Hi.
        - injection Hi as <-. unfold after_calls. simpl. now rewrite Hfn.
        - rewrite Hw1. now apply Herr. }
      rewrite !Hw1. split; [now rewrite Htr|]. split; [exact Hres|].
      split; [exact Hw|]. intros e' He'. f_equal. now apply (Hend e').
    + exists []. simpl. unfold after_calls. simpl. rewrite Hfn. simpl.
      split; [lia|]. split; [intros i e' H; discriminate|].
      repeat split. discriminate.
Qed.

End RetryFacts.

(** The first two delays are 1000 ms and 1500 ms. *)
Lemma backoff_default :
  Forall2 Qeq (Gateway.backoff 1000 2) [1000; 1500]%Q.
Proof. repeat constructor; reflexivity. Qed.


Section GatewayFacts.
Import Gateway.
Context {W : Type}.
Variable generateContent :
  Request -> W -> (Exn + GenerateContentResponse) * W.

(** An operation that passes on the world and the trace of
    [retry(() => generateContent(...))], and its error when it failed,
    follows the policy. *)
Lemma retry_default_policy {A} (req : Request) (w : W) (o : Exn + A) :
  (forall e, (retry_default (generateContent req) w).1.1 = inl e -> o = inl e) ->
  retry_policy (generateContent req) w
    (o, (retry_default (generateContent req) w).1.2,
     (retry_default (generateContent req) w).2).
Proof.
  intros Hprop. unfold retry_default in *.
  destruct (retry_calls (generateContent req) 2 1000 w)
    as (errors & Hlen & Herr & Htr & Hres & Hw & Hend).
  exists errors. simpl. split; [exact Hlen|]. split; [exact Herr|].
  split; [exact Htr|]. split; [exact Hw|].
  intros e He. split; [now apply (Hend e)|].
  apply Hprop. now rewrite Hres.
Qed.

Lemma call_parsed_policy {A} (req : Request) (k : string -> Exn + A) (w : W) :
  retry_policy (generateContent req) w (call_parsed generateContent req k w).
Proof.
  unfold call_parsed.
  pose proof (fun o => @retry_default_policy A req w o) as H.
  destruct (retry_default (generateContent req) w) as [[r w'] tr].
  simpl in *. apply H. now intros e ->.
Qed.

End GatewayFacts.

(** C6: each of the five gateway operations follows the retry policy on
    its remote call: a call that fails is made again, at most twice, after
    a sleep of 1000 ms and then of 1.5 times that (1500 ms), each call
    starting where the one before ended; and when the third call fails too
    its error is what the operation returns, in place of any result. *)
Theorem gateway_operations_retry {W : Type}
    (generateContent :
       Gateway.Request -> W ->
       (Gateway.Exn + Gateway.GenerateContentResponse) * W)
    (parse_requirements : string -> option (list Gateway.RawRequirement * string))
    (parse_testCases : string -> option (list Gateway.RawTestCase))
    (parse_fix : string -> option (list TestStep * string))
    (parse_refine : string -> option (string * list TestStep))
    (now : nat -> Z) (chatHistory instruction framework : string)
    (requirements : list Requirement.t) (testCase : TestCase.t)
    (testCases : list TestCase.t) (envConfig : option string) (w : W) :
  retry_policy (generateContent (Gateway.ExtractRequirements chatHistory)) w
    (Gateway.extractRequirements generateContent parse_requirements
       now chatHistory w)
  /\ retry_policy (generateContent (Gateway.GenerateTestCases requirements)) w
       (Gateway.generateTestCases generateContent parse_testCases
          now requirements w)
  /\ retry_policy (generateContent (Gateway.AnalyzeAndFix testCase)) w
       (Gateway.analyzeAndFixTestCase generateContent parse_fix testCase w)
  /\ retry_policy (generateContent (Gateway.Refine testCase instruction)) w
       (Gateway.refineTestCase generateContent parse_refine
          testCase instruction w)
  /\ retry_policy
       (generateContent (Gateway.GenerateCode testCases framework envConfig)) w
       (Gateway.generateTestSuiteCode generateContent
          testCases framework envConfig w)
  /\ Forall2 Qeq (Gateway.backoff 1000 2) [1000; 1500]%Q.
Proof.
  repeat split; try apply call_parsed_policy.
  - unfold Gateway.generateTestSuiteCode.
    pose proof (fun o => @retry_default_policy W generateContent string
                  (Gateway.GenerateCode testCases framework envConfig) w o) as H.
    destruct (Gateway.retry_default _ w) as [[r w'] tr].
    simpl in *. apply H. now intros e ->.
  - apply backoff_default.
Qed.


(** ** Spreadsheet import *)

Section ExcelFacts.
Import Excel.

Lemma append_nil (b : string) : ("" ++ b)%string = b.
Proof. reflexivity. Qed.

Lemma append_cons (c : ascii) (a b : string) :
  (String c a ++ b)%string = String c (a ++ b)%string.
Proof. reflexivity. Qed.

Lemma prefix_app (sub s : string) :
  String.prefix sub s = true <-> exists post, s = (sub ++ post)%string.
Proof.
  revert s. induction sub as [|c sub IH]; intros s; simpl.
  - split; [intros _; now exists s|]. now destruct s.
  - destruct s as [|d s]; simpl.
    + split; [discriminate|]. intros [post H]. discriminate.
    + destruct (Ascii.ascii_dec c d) as [->|Hne].
      * rewrite IH. split; intros [post H]; exists post;
          rewrite append_cons in *; congruence.
      * split; [discriminate|]. intros [post H].
        rewrite append_cons in H. congruence.
Qed.

(** [includes] is the substring test. *)
Lemma includes_app (s sub : string) :
  includes s sub = true
  <-> exists pre post, s = (pre ++ sub ++ post)%string.
Proof.
  induction s as [|c s IH]; cbn [includes].
  - rewrite orb_false_r, prefix_app. split.
    + intros [post H]. now exists ""%string, post.
    + intros (pre & post & H). destruct pre as [|d pre].
      * now exists post.
      * rewrite append_cons in H. discriminate.
  - rewrite orb_true_iff, IH, prefix_app. split.
    + intros [[post H]|(pre & post & H)].
      * now exists ""%string, post.
      * exists (String c pre), post. rewrite append_cons. now rewrite H.
    + intros (pre & post & H). destruct pre as [|d pre].
      * left. now exists post.
      * right. exists pre, post. rewrite append_cons in H. congruence.
Qed.

Lemma toLowerCase_app (a b : string) :
  toLowerCase (a ++ b)%string = (toLowerCase a ++ toLowerCase b)%string.
Proof.
  induction a as [|c a IH]; [reflexivity|].
  rewrite append_cons. unfold toLowerCase in *. simpl.
  now rewrite append_cons, IH.
Qed.

Lemma string_map_split (f : ascii -> ascii) (s x y : string) :
  string_map f s = (x ++ y)%string ->
  exists a b, s = (a ++ b)%string /\ string_map f a = x /\ string_map f b = y.
Proof.
  revert s. induction x as [|c x IH]; intros s H.
  - now exists ""%string, s.
  - rewrite append_cons in H.
    destruct s as [|d s]; simpl in H; [discriminate|].
    injection H as Hc H. destruct (IH s H) as (a & b & -> & Ha & Hb).
    exists (String d a), b. rewrite append_cons. simpl. now rewrite Hc, Ha.
Qed.


Lemma includes_toLowerCase (s sub : string) :
  includes (toLowerCase s) sub = true <-> contains_any_case s sub.
Proof.
  rewrite includes_app. split.
  - intros (pre & post & H).
    apply string_map_split in H as (a & b & -> & Ha & Hb).
    apply string_map_split in Hb as (m & p & -> & Hm & Hp).
    now exists a, m, p.
  - intros (pre & mid & post & -> & <-).
    exists (toLowerCase pre), (toLowerCase post).
    now rewrite !toLowerCase_app.
Qed.

Lemma append_length (a b : string) :
  String.length (a ++ b)%string = (String.length a + String.length b)%nat.
Proof.
  induction a as [|c a IH]; [reflexivity|].
  rewrite append_cons. simpl. now rewrite IH.
Qed.

(** Every white-space character has one to three bytes, of which none is
    the underscore. *)
Lemma white_space_bytes (ws : string) :
  In ws white_space ->
  (1 <= String.length ws <= 3)%nat
  /\ ~ In "_"%char (list_ascii_of_string ws).
Proof.
  unfold white_space. simpl.
  intros H. repeat (destruct H as [<-|H];
                    [split; [simpl; lia|];
                     simpl; intros Hin;
                     repeat (destruct Hin as [Hin|Hin]; [discriminate|]);
                     exact Hin|]).
  destruct H.
Qed.

(** A string that starts with a white-space character has the width of
    that character, and [trim_start] goes past it. *)
Lemma space_width_space (ws rest : string) :
  In ws white_space -> space_width (ws ++ rest) = String.length ws.
Proof.
  unfold white_space. simpl.
  intros H. destruct rest;
    repeat (destruct H as [<-|H]; [reflexivity|]); destruct H.
Qed.

Lemma trim_start_space (ws rest : string) :
  In ws white_space -> trim_start (ws ++ rest) = trim_start rest.
Proof.
  unfold white_space. simpl.
  intros H. destruct rest;
    repeat (destruct H as [<-|H]; [reflexivity|]); destruct H.
Qed.

Lemma space_width_split (s : string) :
  space_width s <> 0%nat ->
  exists ws rest, In ws white_space /\ s = (ws ++ rest)%string.
Proof.
  unfold space_width.
  destruct (List.find _ white_space) as [ws|] eqn:E; [|contradiction].
  intros _. apply find_some in E as [Hin Hpre].
  apply prefix_app in Hpre as [rest ->]. now exists ws, rest.
Qed.

Lemma trim_start_none (s : string) :
  space_width s = 0%nat -> trim_start s = s.
Proof.
  intros H. destruct s as [|c r]; [reflexivity|].
  cbn [trim_start]. now rewrite H.
Qed.

(** What holds of [trim_start s] for every [s], when it holds of a string
    without white space at its start and goes from [rest] to the string
    with one more white-space character before it. *)
Lemma trim_start_ind (P : string -> string -> Prop) :
  (forall s, space_width s = 0%nat -> P s s) ->
  (forall ws rest, In ws white_space ->
     P rest (trim_start rest) -> P (ws ++ rest)%string (trim_start rest)) ->
  forall s, P s (trim_start s).
Proof.
  intros Hnone Hspace s.
  remember (String.length s) as n eqn:Hn.
  revert s Hn. induction (lt_wf n) as [n _ IH]. intros s ->.
  destruct (Nat.eq_dec (space_width s) 0) as [E|E].
  - rewrite (trim_start_none s E). now apply Hnone.
  - destruct (space_width_split s E) as (ws & rest & Hin & ->).
    rewrite (trim_start_space ws rest Hin). apply Hspace; [exact Hin|].
    apply (IH (String.length rest)); [|reflexivity].
    rewrite append_length. pose proof (white_space_bytes ws Hin). lia.
Qed.

Lemma space_width_empty : space_width "" = 0%nat.
Proof. reflexivity. Qed.

Lemma trim_start_blank (s : string) : trim_start s = ""%string <-> blank s.
Proof.
  split.
  - pattern s, (trim_start s). apply trim_start_ind.
    + intros t _ ->. constructor.
    + intros ws rest Hin IH H. constructor; [exact Hin|now apply IH].
  - induction 1 as [|ws t Hin _ IH]; [reflexivity|].
    now rewrite (trim_start_space ws t Hin).
Qed.

Lemma trim_start_idem (s : string) : trim_start (trim_start s) = trim_start s.
Proof.
  pattern s, (trim_start s). apply trim_start_ind.
  - intros t Ht. now rewrite !(trim_start_none t Ht).
  - intros ws rest _ IH. exact IH.
Qed.

Lemma trim_start_length (s : string) :
  (String.length (trim_start s) <= String.length s)%nat.
Proof.
  pattern s, (trim_start s). apply trim_start_ind.
  - intros t _. lia.
  - intros ws rest _ IH. rewrite append_length. lia.
Qed.

Lemma trim_end_empty (s : string) :
  trim_end s = ""%string <-> trim_start s = ""%string.
Proof.
  destruct s as [|c r]; [easy|]. cbn [trim_end].
  destruct (String.eqb_spec (trim_start (String c r)) "") as [E|E].
  - easy.
  - split; [discriminate|]. intros H. contradiction.
Qed.

Lemma trim_empty (s : string) : trim s = ""%string <-> blank s.
Proof.
  unfold trim. now rewrite trim_end_empty, trim_start_idem, trim_start_blank.
Qed.

(** The filter of the import drops exactly the blank descriptions. *)
Lemma keep_false (req : Requirement.t) :
  keep req = false <-> blank (Requirement.description req).
Proof.
  unfold keep. rewrite andb_false_iff, !negb_false_iff, !String.eqb_eq.
  rewrite trim_empty. split; [|now right].
  intros [->|H]; [constructor|exact H].
Qed.

(** A [Priority] cell whose text holds "high" is the raw priority. *)
Lemma priorityRaw_high (row : Row) :
  includes (toLowerCase (to_String (get row "Priority"))) "high" = true ->
  priorityRaw_of row = get row "Priority".
Proof.
  unfold priorityRaw_of, or_else.
  destruct (get row "Priority") as [|s|n|[|]]; simpl; try reflexivity.
  - discriminate.
  - destruct s; [discriminate|reflexivity].
  - destruct (Z.eqb_spec n 0) as [->|_]; [discriminate|reflexivity].
  - discriminate.
Qed.

End ExcelFacts.

(** Whether a text is blank can be told, by [trim_start]. *)
#[global] Instance blank_dec (s : string) : Decision (Excel.blank s).
Proof.
  destruct (decide (Excel.trim_start s = ""%string)) as [H|H];
    [left|right]; now rewrite <- trim_start_blank.
Defined.


(** C8, as stated, fails: the [Priority] cell "High, not low" holds "high",
    the row is kept, and its priority is Low. *)
Lemma import_high_row_gets_Low :
  contains_any_case
    (Excel.to_String (Excel.get row_high_not_low "Priority")) "high"
  /\ map Requirement.priority
       (Excel.requirements_of (fun _ => 0%Z) [row_high_not_low]) = [Low]
  /\ ~ (map Requirement.priority
          (Excel.requirements_of (fun _ => 0%Z) [row_high_not_low]) = [High]).
Proof.
  split; [|split; [reflexivity|vm_compute; discriminate]].
  now exists ""%string, "High"%string, ", not low"%string.
Qed.

(** C8, amended: a row whose resolved description is empty or white space
    only is left out of the imported requirements (and any other row is
    kept); a row whose [Priority] value holds "high" in some letter case,
    and does not hold "low" in any, gets the priority High. *)
Theorem import_row_filter_and_priority (now : nat -> Z)
    (jsonData : list Excel.Row) (index : nat) (row : Excel.Row) :
  jsonData !! index = Some row ->
  let req := Excel.row_to_requirement now index row in
  let description := Excel.to_String (Excel.description_of row) in
  let priority := Excel.to_String (Excel.get row "Priority") in
  (Excel.blank description -> ~ In req (Excel.requirements_of now jsonData))
  /\ (~ Excel.blank description -> In req (Excel.requirements_of now jsonData))
  /\ (contains_any_case priority "high" ->
      ~ contains_any_case priority "low" ->
      Requirement.priority req = High).
Proof.
  intros Hrow req description priority.
  assert (Hin : In req (imap (Excel.row_to_requirement now) jsonData)).
  { apply list_elem_of_In. now apply elem_of_lookup_imap_2. }
  unfold Excel.requirements_of. split; [|split].
  - intros Hblank Hmem. apply filter_In in Hmem as [_ Hkeep].
    apply (keep_false req) in Hblank. congruence.
  - intros Hnot. apply filter_In. split; [exact Hin|].
    destruct (Excel.keep req) eqn:E; [reflexivity|].
    now apply keep_false in E.
  - intros Hhigh Hlow. subst req priority. simpl.
    apply includes_toLowerCase in Hhigh.
    rewrite <- includes_toLowerCase in Hlow.
    rewrite (priorityRaw_high row Hhigh).
    unfold Excel.priority_of. rewrite Hhigh.
    now destruct (Excel.includes _ "low").
Qed.


Lemma import_row_filter_and_priority_witness :
  Requirement.priority
    (Excel.row_to_requirement (fun _ => 0%Z) 0
       [ ("Description", Excel.CString "Login works");
         ("Priority", Excel.CString "HIGH") ]) = High.
Proof.
  refine (proj2 (proj2 (import_row_filter_and_priority (fun _ => 0%Z)
                          sheet_two_rows 0 _ eq_refl)) _ _).
  - now exists ""%string, "HIGH"%string, ""%string.
  - intros H. apply includes_toLowerCase in H. vm_compute in H. discriminate.
Defined.

(** A description made of a no-break space and an ideographic space is
    white space only: its row is left out. *)
Example import_wide_space_row :
  Excel.blank (nbsp ++ ideographic_space)
  /\ Excel.requirements_of (fun _ => 0%Z)
       [ [ ("Description", Excel.CString (nbsp ++ ideographic_space)) ] ] = [].
Proof.
  split; [|reflexivity].
  apply (Excel.blank_space nbsp); [vm_compute; tauto|].
  change (Excel.blank (ideographic_space ++ "")).
  apply Excel.blank_space; [vm_compute; tauto|constructor].
Qed.

Example import_two_rows :
  map Requirement.description
    (Excel.requirements_of (fun _ => 0%Z) sheet_two_rows) = ["Login works"].
Proof. reflexivity. Qed.


(** ** The execution simulator *)

Section RunnerFacts.
Import Runner.
Variable generateScreenshot :
  CaseStatus -> string -> option Z -> option string -> string.
Variable rng : nat -> Q.
Variable consoleLogs : list string.

Local Abbreviation run_case := (Runner.run_case generateScreenshot rng consoleLogs).
Local Abbreviation finished := (Runner.finished generateScreenshot rng consoleLogs).
Local Abbreviation turn := (Runner.turn generateScreenshot rng consoleLogs).
Local Abbreviation for_each := (Runner.for_each generateScreenshot rng consoleLogs).

Lemma run_steps_spec (isSuccess : bool) (failAtStep : Z)
    (steps : list TestStep) (s : St) :
  exists evs,
    run_steps rng isSuccess failAtStep steps s
    = match stop_step isSuccess failAtStep steps with
      | Some step =>
          ((Some (stepNumber step),
            at_index reasons (floor_times (rng (drawn s)) (length reasons))),
           mkSt (updatedCases s) (S (drawn s)) (trace s ++ evs))
      | None => ((None, None), mkSt (updatedCases s) (drawn s) (trace s ++ evs))
      end
    /\ snapshots evs = [] /\ activated evs = [].
Proof.
  unfold stop_step. revert s. induction steps as [|step rest IH]; intros s.
  - exists []. simpl. rewrite app_nil_r. destruct isSuccess, s; now simpl.
  - simpl. unfold bind, emit, random, ret. simpl.
    destruct isSuccess; simpl.
    + match goal with |- context [run_steps _ _ _ _ ?s0] =>
        destruct (IH s0) as (evs & Heq & Hs & Ha) end.
      rewrite Heq. simpl. eexists (_ :: _ :: evs).
      rewrite <- !app_assoc. simpl. split; [reflexivity|].
      unfold snapshots, activated in *. simpl. split; assumption.
    + destruct (stepNumber step =? failAtStep)%Z; simpl.
      * eexists [_; _; _]. rewrite <- !app_assoc. simpl.
        split; [reflexivity|]. split; reflexivity.
      * match goal with |- context [run_steps _ _ _ _ ?s0] =>
          destruct (IH s0) as (evs & Heq & Hs & Ha) end.
        rewrite Heq. simpl. eexists (_ :: _ :: evs).
        rewrite <- !app_assoc. simpl. split; [reflexivity|].
        unfold snapshots, activated in *. simpl. split; assumption.
Qed.

(** A case that is run is marked Running, then left as [finished] says;
    nothing else in the array changes. *)
Lemma run_case_spec (i : nat) (tc : TestCase.t) (s : St) :
  exists k evs,
    run_case i tc s
    = (tt, mkSt (<[i := finished tc (drawn s)]> (updatedCases s))
                k (trace s ++ evs))
    /\ snapshots evs
       = [ <[i := TestCase.with_status tc RUNNING]> (updatedCases s);
           <[i := finished tc (drawn s)]> (updatedCases s) ]
    /\ activated evs = [TestCase.id tc].
Proof.
  unfold Runner.run_case, Runner.finished, bind, emit, store, random, ret.
  simpl.
  destruct (gt (rng (drawn s)) 0.3) eqn:Esucc; simpl.
  - match goal with |- context [run_steps _ _ _ _ ?s0] =>
      destruct (run_steps_spec true (-1) (TestCase.steps tc) s0)
        as (evs & Heq & Hs & Ha) end.
    simpl in Heq. rewrite Heq. clear Heq. simpl.
    destruct (gt (rng (S (drawn s))) 0.8) eqn:Eshoot; simpl;
      rewrite list_insert_insert_eq, <- !app_assoc; simpl;
      eexists _, (_ :: _ :: _ :: (evs ++ _));
      (split; [reflexivity|]);
      unfold snapshots, activated in *; simpl; rewrite ?omap_app, Hs, Ha;
      split; reflexivity.
  - match goal with |- context [run_steps _ _ ?f _ ?s0] =>
      destruct (run_steps_spec false f (TestCase.steps tc) s0)
        as (evs & Heq & Hs & Ha) end.
    cbn [drawn updatedCases trace] in Heq. rewrite Heq. clear Heq.
    unfold stop_step.
    match goal with |- context [List.find ?f ?l] =>
      destruct (List.find f l) as [step|] end; simpl;
      rewrite list_insert_insert_eq, <- !app_assoc; simpl;
      eexists _, (_ :: _ :: _ :: (evs ++ _));
      (split; [reflexivity|]);
      unfold snapshots, activated in *; simpl; rewrite ?omap_app, Hs, Ha;
      split; reflexivity.
Qed.

Lemma finished_status (tc : TestCase.t) (k : nat) :
  TestCase.status (finished tc k) = PASSED
  \/ TestCase.status (finished tc k) = FAILED.
Proof. unfold Runner.finished. simpl. destruct (gt (rng k) 0.3); auto. Qed.

(** A case that has passed is skipped by every turn: the array keeps it,
    and so does every snapshot taken on the way. *)
Lemma for_each_frame (indices : list nat) (j : nat) (tc : TestCase.t) (s : St) :
  updatedCases s !! j = Some tc ->
  TestCase.status tc = PASSED ->
  exists cases k evs,
    for_each indices s = (tt, mkSt cases k (trace s ++ evs))
    /\ cases !! j = Some tc
    /\ Forall (fun snap : list TestCase.t => snap !! j = Some tc)
              (snapshots evs).
Proof.
  intros Hj Hpassed. revert s Hj.
  induction indices as [|i rest IH]; intros s Hj.
  - exists (updatedCases s), (drawn s), []. rewrite app_nil_r.
    destruct s. simpl in *. repeat split; [assumption|constructor].
  - simpl. unfold bind. unfold Runner.turn at 1.
    destruct (updatedCases s !! i) as [tci|] eqn:Hi.
    + destruct (bool_decide (TestCase.status tci = PASSED)) eqn:Hp.
      * destruct (IH s Hj) as (cases & k & evs & Heq & Hc & Hs).
        rewrite Heq. now exists cases, k, evs.
      * apply bool_decide_eq_false in Hp.
        assert (Hij : i <> j) by (intros ->; congruence).
        destruct (run_case_spec i tci s) as (k1 & evs1 & Heq1 & Hs1 & _).
        rewrite Heq1.
        match goal with |- context [Runner.for_each _ _ _ _ ?s1] =>
          destruct (IH s1) as (cases & k & evs & Heq & Hc & Hs) end.
        { simpl. now rewrite list_lookup_insert_ne. }
        rewrite Heq. simpl. exists cases, k, (evs1 ++ evs).
        rewrite app_assoc. split; [reflexivity|]. split; [exact Hc|].
        unfold snapshots in *. rewrite omap_app, Hs1.
        apply Forall_app. split; [|exact Hs].
        repeat constructor; now rewrite list_lookup_insert_ne.
    + destruct (IH s Hj) as (cases & k & evs & Heq & Hc & Hs).
      rewrite Heq. now exists cases, k, evs.
Qed.

(** The turns for the indices [k, ..., k + n - 1], from a state that still
    holds the cases of the start at those indices and after: they run, in
    this order, the cases that have not passed; each of them is marked
    Running and left Passed or Failed; the turns touch no other index. *)
Lemma for_each_progress (cases0 : list TestCase.t) (n k : nat) (s : St) :
  (forall j, (k <= j)%nat -> updatedCases s !! j = cases0 !! j) ->
  exists cases k' evs,
    for_each (seq k n) s = (tt, mkSt cases k' (trace s ++ evs))
    /\ length cases = length (updatedCases s)
    /\ (forall j, (j < k)%nat -> cases !! j = updatedCases s !! j)
    /\ (forall j, (k + n <= j)%nat -> cases !! j = cases0 !! j)
    /\ activated evs
       = map TestCase.id (List.filter to_run (take n (drop k cases0)))
    /\ (forall j tc, (k <= j < k + n)%nat -> cases0 !! j = Some tc ->
          TestCase.status tc <> PASSED ->
          (exists snap, In snap (snapshots evs)
                        /\ snap !! j = Some (TestCase.with_status tc RUNNING))
          /\ (exists tc', cases !! j = Some tc'
                          /\ (TestCase.status tc' = PASSED
                              \/ TestCase.status tc' = FAILED))).
Proof.
  revert k s. induction n as [|n IH]; intros k s Hrest.
  - exists (updatedCases s), (drawn s), []. simpl. rewrite app_nil_r.
    destruct s; simpl in *. split; [reflexivity|]. split; [reflexivity|].
    split; [reflexivity|]. split; [intros j Hj; apply Hrest; lia|].
    split; [reflexivity|]. intros j tc Hj. lia.
  - simpl. unfold bind. unfold Runner.turn at 1.
    destruct (updatedCases s !! k) as [tck|] eqn:Hk.
    + assert (Hk0 : cases0 !! k = Some tck) by (rewrite <- Hrest; [exact Hk|lia]).
      rewrite (drop_S _ _ _ Hk0). simpl.
      destruct (bool_decide (TestCase.status tck = PASSED)) eqn:Hp.
      * (* the case has passed: the turn is skipped *)
        apply bool_decide_eq_true in Hp.
        destruct (IH (S k) s) as (cases & k' & evs & Heq & Hlen & Hlow & Hhigh & Hact & Hrun).
        { intros j Hj. apply Hrest. lia. }
        rewrite Heq. exists cases, k', evs.
        split; [reflexivity|]. split; [exact Hlen|].
        split; [intros j Hj; apply Hlow; lia|].
        split; [intros j Hj; apply Hhigh; lia|].
        split.
        { unfold to_run at 1. rewrite bool_decide_eq_true_2 by exact Hp.
          exact Hact. }
        intros j tc Hj Hj0 Hne.
        destruct (Nat.eq_dec j k) as [->|Hjk]; [congruence|].
        apply (Hrun j tc); [lia|exact Hj0|exact Hne].
      * (* the case is run *)
        apply bool_decide_eq_false in Hp.
        destruct (run_case_spec k tck s) as (k1 & evs1 & Heq1 & Hs1 & Ha1).
        rewrite Heq1.
        match goal with |- context [Runner.for_each _ _ _ _ ?s1] =>
          destruct (IH (S k) s1)
            as (cases & k' & evs & Heq & Hlen & Hlow & Hhigh & Hact & Hrun) end.
        { intros j Hj. simpl. rewrite list_lookup_insert_ne by lia.
          apply Hrest. lia. }
        rewrite Heq. simpl in *. exists cases, k', (evs1 ++ evs).
        rewrite app_assoc. split; [reflexivity|].
        rewrite length_insert in Hlen. split; [exact Hlen|].
        split.
        { intros j Hj. rewrite Hlow by lia.
          now rewrite list_lookup_insert_ne by lia. }
        split; [intros j Hj; apply Hhigh; lia|].
        split.
        { unfold to_run at 1. rewrite bool_decide_eq_false_2 by exact Hp.
          simpl. unfold activated in *. now rewrite omap_app, Ha1, Hact. }
        intros j tc Hj Hj0 Hne.
        destruct (Nat.eq_dec j k) as [->|Hjk].
        -- assert (tc = tck) as -> by congruence.
           assert (Hlt : (k < length (updatedCases s))%nat)
             by (apply lookup_lt_is_Some; eauto).
           split.
           ++ exists (<[k := TestCase.with_status tck RUNNING]> (updatedCases s)).
              split.
              ** unfold snapshots. rewrite omap_app. apply in_or_app. left.
                 unfold snapshots in Hs1. rewrite Hs1. now left.
              ** now apply list_lookup_insert_eq.
           ++ exists (finished tck (drawn s)). split.
              ** rewrite Hlow by lia. now apply list_lookup_insert_eq.
              ** apply finished_status.
        -- destruct (Hrun j tc) as [(snap & Hin & Hsnap) Hfin];
             [lia|exact Hj0|exact Hne|].
           split; [|exact Hfin]. exists snap. split; [|exact Hsnap].
           unfold snapshots. rewrite omap_app. apply in_or_app. now right.
    + (* past the end of the array *)
      assert (Hk0 : cases0 !! k = None) by (rewrite <- Hrest; [exact Hk|lia]).
      apply lookup_ge_None in Hk0.
      destruct (IH (S k) s) as (cases & k' & evs & Heq & Hlen & Hlow & Hhigh & Hact & Hrun).
      { intros j Hj. apply Hrest. lia. }
      rewrite Heq. exists cases, k', evs.
      split; [reflexivity|]. split; [exact Hlen|].
      split; [intros j Hj; apply Hlow; lia|].
      split; [intros j Hj; apply Hhigh; lia|].
      split.
      { rewrite Hact. rewrite !drop_ge by lia. now rewrite !take_nil. }
      intros j tc Hj Hj0 Hne.
      apply lookup_lt_Some in Hj0. lia.
Qed.

End RunnerFacts.

(** [failedCount > totalCount / 2] compares twice the one with the other. *)
Lemma gt_half (failed total : nat) :
  Runner.gt (inject_Z (Z.of_nat failed)) (inject_Z (Z.of_nat total) / 2)
  = (total <? 2 * failed)%nat.
Proof.
  unfold Runner.gt, Qcompare, Qdiv, Qmult, Qinv, inject_Z.
  cbn [Qnum Qden].
  change (Z.pos (1 * 2)) with 2%Z. change (Z.pos 1) with 1%Z.
  destruct (Z.compare_spec (Z.of_nat failed * 2) (Z.of_nat total * 1 * 1));
    destruct (Nat.ltb_spec total (2 * failed)); (reflexivity || lia).
Qed.

Lemma finalStatus_of_rule (failed total : nat) :
  (failed = 0%nat -> Runner.finalStatus_of failed total = Validated)
  /\ ((1 <= failed)%nat -> (2 * failed <= total)%nat ->
      Runner.finalStatus_of failed total = PartlyValidated)
  /\ ((total < 2 * failed)%nat -> Runner.finalStatus_of failed total = Failed).
Proof.
  unfold Runner.finalStatus_of. rewrite gt_half.
  destruct (Nat.ltb_spec total (2 * failed));
    destruct (Nat.ltb_spec 0 failed); repeat split; intros; try lia;
    reflexivity.
Qed.

(** Without a pending case nothing is run and no project is handed back. *)
Lemma runTests_no_pending gs rng cl (project : ValidationProject.t) :
  Runner.pendingCount_of (ValidationProject.testCases project) = 0%nat ->
  Runner.update (Runner.runTests gs rng cl project) = None
  /\ Runner.testCases_state (Runner.runTests gs rng cl project)
     = ValidationProject.testCases project
  /\ Runner.snapshots (Runner.events (Runner.runTests gs rng cl project)) = []
  /\ Runner.activated (Runner.events (Runner.runTests gs rng cl project)) = [].
Proof.
  intros H. unfold Runner.runTests. rewrite H. simpl. repeat split.
Qed.

(** C1: a run makes a pass over the cases whenever one of them is
    Pending, and a pass ends by handing back the project with the cases as
    the pass left them and with the status Validated when none of them is
    Failed, Partly Validated when at least one and at most half of them
    are, and Failed when more than half of them are.  The Failed cases are
    counted here on the cases handed back, by their status. *)
Theorem aggregate_status_after_pass gs rng cl (project : ValidationProject.t) :
  let o := Runner.runTests gs rng cl project in
  (Runner.pendingCount_of (ValidationProject.testCases project) <> 0%nat ->
   exists p, Runner.update o = Some p)
  /\ (forall p, Runner.update o = Some p ->
        ValidationProject.testCases p = Runner.testCases_state o
        /\ let failed :=
             length (List.filter
                       (fun tc => bool_decide (TestCase.status tc = FAILED))
                       (ValidationProject.testCases p)) in
           let total := length (ValidationProject.testCases p) in
           (failed = 0%nat -> ValidationProject.status p = Validated)
           /\ ((1 <= failed)%nat -> (2 * failed <= total)%nat ->
               ValidationProject.status p = PartlyValidated)
           /\ ((total < 2 * failed)%nat ->
               ValidationProject.status p = Failed)).
Proof.
  unfold Runner.runTests.
  destruct (Nat.eqb_spec
              (Runner.pendingCount_of (ValidationProject.testCases project)) 0)
    as [E|Hpending].
  - simpl. split; [intros H; contradiction|discriminate].
  - destruct (Runner.for_each _ _ _ _ _) as [u s]. simpl. split.
    + intros _. eexists. reflexivity.
    + intros p [= <-]. split; [reflexivity|].
      exact (finalStatus_of_rule
               (length (List.filter
                          (fun tc => bool_decide (TestCase.status tc = FAILED))
                          (Runner.updatedCases s)))
               (length (Runner.updatedCases s))).
Qed.

Lemma aggregate_status_after_pass_witness :
  exists p,
    Runner.update (Runner.runTests blank_screenshot draws_low []
                     (project_of InProgress
                        [case_pending; case_passed; case_passed])) = Some p
    /\ map TestCase.status (ValidationProject.testCases p)
       = [FAILED; PASSED; PASSED]
    /\ ValidationProject.status p = PartlyValidated.
Proof.
  destruct (aggregate_status_after_pass blank_screenshot draws_low []
              (project_of InProgress [case_pending; case_passed; case_passed]))
    as [Hpass Hrule].
  destruct Hpass as [p Hp]; [vm_compute; discriminate|].
  destruct (Hrule p Hp) as (Hcases & _ & Hpartly & _).
  exists p. split; [exact Hp|].
  assert (Hstatus : map TestCase.status (ValidationProject.testCases p)
                    = [FAILED; PASSED; PASSED])
    by (rewrite Hcases; vm_compute; reflexivity).
  split; [exact Hstatus|].
  apply Hpartly; rewrite Hcases; vm_compute; lia.
Defined.

(** The two scenarios of the spec: 3 failures in 10 cases, and 6 in 10. *)
Example status_3_of_10 : Runner.finalStatus_of 3 10 = PartlyValidated.
Proof. reflexivity. Qed.

Example status_6_of_10 : Runner.finalStatus_of 6 10 = Failed.
Proof. reflexivity. Qed.

Example status_1_of_2 : Runner.finalStatus_of 1 2 = PartlyValidated.
Proof. reflexivity. Qed.

Example status_0_of_0 : Runner.finalStatus_of 0 0 = Validated.
Proof. reflexivity. Qed.

(** C4: a case that is Passed when the run starts is the same record, at
    the same place, in every snapshot the run shows, in the cases it ends
    with, and in the project it hands back. *)
Theorem passed_cases_untouched gs rng cl (project : ValidationProject.t)
    (j : nat) (tc : TestCase.t) :
  ValidationProject.testCases project !! j = Some tc ->
  TestCase.status tc = PASSED ->
  let o := Runner.runTests gs rng cl project in
  Runner.testCases_state o !! j = Some tc
  /\ Forall (fun snap : list TestCase.t => snap !! j = Some tc)
            (Runner.snapshots (Runner.events o))
  /\ (forall p, Runner.update o = Some p ->
        ValidationProject.testCases p !! j = Some tc).
Proof.
  intros Hj Hpassed. unfold Runner.runTests.
  destruct (Nat.eqb_spec
              (Runner.pendingCount_of (ValidationProject.testCases project)) 0)
    as [E|_].
  - simpl. split; [exact Hj|]. split; [constructor|discriminate].
  - match goal with |- context [Runner.for_each _ _ _ ?l ?s0] =>
      destruct (for_each_frame gs rng cl l j tc s0 Hj Hpassed)
        as (cases & k & evs & Heq & Hc & Hs) end.
    rewrite Heq. simpl. split; [exact Hc|]. split.
    + unfold Runner.snapshots in *. rewrite !omap_app. simpl.
      rewrite app_nil_r. exact Hs.
    + intros p [= <-]. exact Hc.
Qed.

Lemma passed_cases_untouched_witness :
  Runner.testCases_state
    (Runner.runTests blank_screenshot draws_low []
       (project_of InProgress [case_pending; case_passed])) !! 1%nat
  = Some case_passed.
Proof.
  refine (proj1 (passed_cases_untouched blank_screenshot draws_low []
                   (project_of InProgress [case_pending; case_passed])
                   1 case_passed _ _)); reflexivity.
Defined.

(** A run over a Pending, a Passed and a Failed case, where only the first
    draw is under the threshold: the first case fails at its step 1, the
    second is skipped, the third passes and loses its failure fields. *)
Example run_three_cases :
  let o := Runner.runTests blank_screenshot draws_first_low []
             (project_of InProgress [case_pending; case_passed; case_two_steps]) in
  map TestCase.status (Runner.testCases_state o) = [FAILED; PASSED; PASSED]
  /\ map TestCase.failedStepNumber (Runner.testCases_state o)
     = [Some 1%Z; None; None]
  /\ map TestCase.failureReason (Runner.testCases_state o)
     = [Some "API returned 500 Internal Server Error"%string; None; None]
  /\ Runner.activated (Runner.events o) = ["TC-1-2"; "TC-1-0"]%string
  /\ ValidationProject.status <$> Runner.update o = Some PartlyValidated.
Proof. vm_compute. repeat split. Qed.

(** C5, as stated, fails: in a run over one Failed case, with no Pending
    case, the case is never marked Running; no snapshot is shown at all. *)
Lemma run_without_pending_marks_nothing :
  let project := project_of PartlyValidated [case_two_steps] in
  let o := Runner.runTests blank_screenshot draws_mid [] project in
  ValidationProject.testCases project !! 0%nat = Some case_two_steps
  /\ TestCase.status case_two_steps <> PASSED
  /\ Runner.snapshots (Runner.events o) = []
  /\ Runner.activated (Runner.events o) = []
  /\ ~ (exists snap,
          In snap (Runner.snapshots (Runner.events o))
          /\ snap !! 0%nat = Some (TestCase.with_status case_two_steps RUNNING)).
Proof.
  simpl. split; [reflexivity|]. split; [discriminate|].
  split; [reflexivity|]. split; [reflexivity|].
  intros (snap & [] & _).
Qed.

(** C5, amended: in a run that starts with at least one Pending case, the
    cases that are not Passed are taken in list order; each is marked
    Running and ends the run Passed or Failed. *)
Theorem pending_run_processes_cases gs rng cl (project : ValidationProject.t) :
  Runner.pendingCount_of (ValidationProject.testCases project) <> 0%nat ->
  let cases := ValidationProject.testCases project in
  let o := Runner.runTests gs rng cl project in
  Runner.activated (Runner.events o)
  = map TestCase.id (List.filter Runner.to_run cases)
  /\ (forall j tc, cases !! j = Some tc -> TestCase.status tc <> PASSED ->
        (exists snap,
           In snap (Runner.snapshots (Runner.events o))
           /\ snap !! j = Some (TestCase.with_status tc RUNNING))
        /\ (exists tc',
              Runner.testCases_state o !! j = Some tc'
              /\ (TestCase.status tc' = PASSED
                  \/ TestCase.status tc' = FAILED))).
Proof.
  intros Hpending cases o. subst o. unfold Runner.runTests.
  destruct (Nat.eqb_spec
              (Runner.pendingCount_of (ValidationProject.testCases project)) 0)
    as [E|_]; [contradiction|].
  fold cases.
  match goal with |- context [Runner.for_each _ _ _ _ ?s0] =>
    destruct (for_each_progress gs rng cl cases (length cases) 0 s0)
      as (cs & k & evs & Heq & _ & _ & _ & Hact & Hrun) end.
  { reflexivity. }
  rewrite Heq. simpl.
  rewrite drop_0, firstn_all in Hact. split.
  - unfold Runner.activated in *. rewrite !omap_app. simpl.
    now rewrite app_nil_r.
  - intros j tc Hj Hne.
    destruct (Hrun j tc) as [(snap & Hin & Hsnap) Hfin];
      [split; [lia|apply lookup_lt_Some in Hj; simpl; lia]|exact Hj|exact Hne|].
    split; [|exact Hfin]. exists snap. split; [|exact Hsnap].
    unfold Runner.snapshots in *. rewrite !omap_app. simpl.
    now rewrite app_nil_r.
Qed.

Lemma pending_run_processes_cases_witness :
  Runner.activated
    (Runner.events
       (Runner.runTests blank_screenshot draws_mid []
          (project_of InProgress [case_two_steps; case_passed; case_pending])))
  = ["TC-1-0"; "TC-1-2"]%string.
Proof.
  refine (proj1 (pending_run_processes_cases blank_screenshot draws_mid []
                   (project_of InProgress
                      [case_two_steps; case_passed; case_pending]) _)).
  vm_compute. discriminate.
Defined.

(** C7 at a case with no step: the draw decides failure, the case ends
    Failed, and neither a failed step number nor a failure reason is
    recorded; the result line reads "Failed at Step undefined". *)
Theorem failed_case_without_step gs :
  exists tc',
    Runner.testCases_state
      (Runner.runTests gs draws_low [] (project_of InProgress [case_no_steps]))
    = [tc']
    /\ TestCase.status tc' = FAILED
    /\ TestCase.failedStepNumber tc' = None
    /\ TestCase.failureReason tc' = None
    /\ TestCase.logs tc' = ["Result: Failed at Step undefined"]%string.
Proof. eexists. split; [vm_compute; reflexivity|]. repeat split. Qed.

(** The same at a case whose two steps are numbered 10 and 20: the drawn
    number is 1 or 2, which no step carries. *)
Example failed_case_steps_10_20 gs :
  exists tc',
    Runner.testCases_state
      (Runner.runTests gs draws_low []
         (project_of InProgress [case_steps_10_20]))
    = [tc']
    /\ TestCase.status tc' = FAILED
    /\ TestCase.failedStepNumber tc' = None
    /\ TestCase.failureReason tc' = None.
Proof. eexists. split; [vm_compute; reflexivity|]. repeat split. Qed.

(** Where the steps are numbered 1, ..., n with n > 0, and the draws are
    in [0,1), a failing case does get the number of one of its steps and
    one of the five reasons. *)
Lemma floor_times_range (r : Q) (n : nat) :
  (0 <= r)%Q -> (r < 1)%Q -> (0 < n)%nat ->
  (0 <= Runner.floor_times r n < Z.of_nat n)%Z.
Proof.
  intros H0 H1 Hn. unfold Runner.floor_times.
  set (m := inject_Z (Z.of_nat n)).
  assert (Hm : (inject_Z 0 < m)%Q) by (unfold m; rewrite <- Zlt_Qlt; lia).
  change (inject_Z 0) with 0%Q in Hm.
  split.
  - assert (Hle : (0 <= r * m)%Q)
      by (apply Qmult_le_0_compat; [exact H0|now apply Qlt_le_weak]).
    exact (Qfloor_resp_le 0 (r * m) Hle).
  - rewrite Zlt_Qlt. apply Qle_lt_trans with (r * m)%Q; [apply Qfloor_le|].
    fold m. rewrite <- (Qmult_1_l m) at 2.
    now apply Qmult_lt_compat_r.
Qed.

Lemma find_contiguous (steps : list TestStep) (z : Z) :
  contiguous steps -> (1 <= z <= Z.of_nat (length steps))%Z ->
  exists step,
    List.find (fun step => (stepNumber step =? z)%Z) steps = Some step
    /\ stepNumber step = z /\ In step steps.
Proof.
  intros Hc Hz.
  assert (Hin : z ∈ stepNumbers steps).
  { rewrite Hc. apply elem_of_seqZ. lia. }
  unfold stepNumbers in Hin. apply list_elem_of_In, in_map_iff in Hin.
  destruct Hin as (st & Hst & Hmem).
  destruct (List.find (fun step => (stepNumber step =? z)%Z) steps)
    as [step|] eqn:E.
  - exists step. split; [reflexivity|].
    apply find_some in E as [Hi He]. apply Z.eqb_eq in He. now split.
  - apply (find_none _ _ E) in Hmem. apply Z.eqb_neq in Hmem. contradiction.
Qed.

Lemma failing_case_records_step gs rng cl (tc : TestCase.t) (k : nat) :
  (forall i, 0 <= rng i /\ rng i < 1)%Q ->
  contiguous (TestCase.steps tc) ->
  (0 < length (TestCase.steps tc))%nat ->
  Runner.gt (rng k) 0.3 = false ->
  exists z reason,
    TestCase.failedStepNumber (Runner.finished gs rng cl tc k) = Some z
    /\ (1 <= z <= Z.of_nat (length (TestCase.steps tc)))%Z
    /\ z ∈ stepNumbers (TestCase.steps tc)
    /\ TestCase.failureReason (Runner.finished gs rng cl tc k) = Some reason
    /\ In reason Runner.reasons.
Proof.
  intros Hrng Hc Hn Hfail.
  destruct (Hrng (S k)) as [Ha Hb]. destruct (Hrng (S (S k))) as [Ha' Hb'].
  pose proof (floor_times_range (rng (S k)) (length (TestCase.steps tc))
                Ha Hb Hn) as Hr.
  pose proof (floor_times_range (rng (S (S k))) (length Runner.reasons)
                Ha' Hb' ltac:(simpl; lia)) as Hr'.
  destruct (find_contiguous (TestCase.steps tc)
              (Runner.floor_times (rng (S k)) (length (TestCase.steps tc)) + 1)
              Hc ltac:(lia)) as (step & Hfind & Hnum & Hmem).
  unfold Runner.finished. cbn [TestCase.failedStepNumber TestCase.failureReason].
  rewrite Hfail. unfold Runner.stop_step. rewrite Hfind. simpl fmap.
  unfold Runner.at_index.
  destruct (Z.ltb_spec (Runner.floor_times (rng (S (S k))) (length Runner.reasons)) 0);
    [lia|].
  destruct (Runner.reasons !! Z.to_nat (Runner.floor_times (rng (S (S k)))
                                          (length Runner.reasons)))
    as [reason|] eqn:E.
  - exists (stepNumber step), reason. split; [reflexivity|].
    split; [lia|]. split.
    + unfold stepNumbers. apply list_elem_of_In, in_map. exact Hmem.
    + split; [reflexivity|].
      apply list_elem_of_In. eapply list_elem_of_lookup_2. exact E.
  - apply lookup_ge_None in E. lia.
Qed.


(** ** The fix modal and the view controller *)

Lemma updatedTestCases_lookup (project : ValidationProject.t)
    (selectedTest : TestCase.t) (k : nat) :
  Report.updatedTestCases project selectedTest !! k
  = (fun tc =>
       if String.eqb (TestCase.id tc) (TestCase.id selectedTest)
       then Report.reset selectedTest else tc)
    <$> ValidationProject.testCases project !! k.
Proof. unfold Report.updatedTestCases. apply list_lookup_fmap. Qed.

Lemma saved_testCases (project : ValidationProject.t) (t : TestCase.t) :
  ValidationProject.testCases (Report.saved project t)
  = Report.updatedTestCases project t.
Proof. reflexivity. Qed.

Lemma fix_saved_state (selectedTest : TestCase.t)
    (project : ValidationProject.t) (s : App.State) :
  App.activeProject s = Some project ->
  App.fix_saved (Some selectedTest) s
  = (None,
     App.mkState EXECUTION (Some (Report.saved project selectedTest))
       (<[ValidationProject.id project := Report.saved project selectedTest]>
          (App.history s))).
Proof. intros H. unfold App.fix_saved. now rewrite H. Qed.

(** C3: saving a fix for a case of the active project puts, in place of
    that case, the edited copy with its steps, with the status Pending, no
    failed step number, no failure reason, no screenshot and no logs; the
    cases with another identifier stay as they are.  The project with
    these cases becomes the active one and is written to the store. *)
Theorem fix_save_resets_case (s : App.State) (project : ValidationProject.t)
    (selectedTest : TestCase.t) (j : nat) (tc : TestCase.t) :
  App.activeProject s = Some project ->
  ValidationProject.testCases project !! j = Some tc ->
  TestCase.status tc = FAILED ->
  TestCase.id selectedTest = TestCase.id tc ->
  let s' := (App.fix_saved (Some selectedTest) s).2 in
  exists p,
    App.activeProject s' = Some p
    /\ App.history s' !! ValidationProject.id p = Some p
    /\ length (ValidationProject.testCases p)
       = length (ValidationProject.testCases project)
    /\ (exists tc',
          ValidationProject.testCases p !! j = Some tc'
          /\ TestCase.id tc' = TestCase.id tc
          /\ TestCase.steps tc' = TestCase.steps selectedTest
          /\ TestCase.title tc' = TestCase.title selectedTest
          /\ TestCase.status tc' = PENDING
          /\ TestCase.failedStepNumber tc' = None
          /\ TestCase.failureReason tc' = None
          /\ TestCase.screenshotUrl tc' = None
          /\ TestCase.logs tc' = [])
    /\ (forall k other,
          ValidationProject.testCases project !! k = Some other ->
          TestCase.id other <> TestCase.id tc ->
          ValidationProject.testCases p !! k = Some other).
Proof.
  intros Hactive Hj _ Hid s'. subst s'.
  rewrite (fix_saved_state selectedTest project s Hactive).
  cbn [snd App.activeProject App.history].
  exists (Report.saved project selectedTest). rewrite saved_testCases.
  split; [reflexivity|]. split; [apply lookup_insert_eq|].
  split; [unfold Report.updatedTestCases; apply length_map|].
  split.
  - exists (Report.reset selectedTest). split.
    + rewrite updatedTestCases_lookup, Hj. simpl.
      rewrite Hid, String.eqb_refl. reflexivity.
    + repeat split. exact Hid.
  - intros k other Hk Hne.
    rewrite updatedTestCases_lookup, Hk. simpl.
    destruct (String.eqb_spec (TestCase.id other) (TestCase.id selectedTest))
      as [E|_]; [congruence|reflexivity].
Qed.


Lemma fix_save_resets_case_witness :
  exists p,
    App.activeProject
      (App.fix_saved
         (Editor.Fix.addStep (Report.openFixModal case_two_steps))
         (state_with REPORT
            (project_of PartlyValidated [case_two_steps; case_passed]))).2
    = Some p
    /\ map TestCase.status (ValidationProject.testCases p) = [PENDING; PASSED].
Proof.
  destruct (fix_save_resets_case
              (state_with REPORT
                 (project_of PartlyValidated [case_two_steps; case_passed]))
              (project_of PartlyValidated [case_two_steps; case_passed])
              (TestCase.with_steps case_two_steps
                 (Editor.addStep_steps "New step action"
                    (TestCase.steps case_two_steps)))
              0 case_two_steps eq_refl eq_refl eq_refl eq_refl)
    as (p & Hp & _).
  exists p. split; [exact Hp|].
  vm_compute in Hp. injection Hp as <-. reflexivity.
Defined.

(** C10: saving a fix sets the status of the project to In Progress,
    whatever it was, so also a status a pass had computed; the cases with
    another identifier than the fixed one keep their records, status
    included. *)
Theorem fix_save_sets_in_progress (s : App.State)
    (project : ValidationProject.t) (selectedTest : TestCase.t) :
  App.activeProject s = Some project ->
  let s' := (App.fix_saved (Some selectedTest) s).2 in
  exists p,
    App.activeProject s' = Some p
    /\ App.history s' !! ValidationProject.id p = Some p
    /\ ValidationProject.status p = InProgress
    /\ (forall k other,
          ValidationProject.testCases project !! k = Some other ->
          TestCase.id other <> TestCase.id selectedTest ->
          ValidationProject.testCases p !! k = Some other).
Proof.
  intros Hactive s'. subst s'.
  rewrite (fix_saved_state selectedTest project s Hactive).
  cbn [snd App.activeProject App.history].
  exists (Report.saved project selectedTest). rewrite saved_testCases.
  split; [reflexivity|]. split; [apply lookup_insert_eq|].
  split; [reflexivity|].
  intros k other Hk Hne. rewrite updatedTestCases_lookup, Hk. simpl.
  destruct (String.eqb_spec (TestCase.id other) (TestCase.id selectedTest))
    as [E|_]; [congruence|reflexivity].
Qed.

Lemma fix_save_sets_in_progress_witness :
  exists p,
    App.activeProject
      (App.fix_saved (Report.openFixModal case_two_steps)
         (state_with REPORT
            (project_of PartlyValidated [case_two_steps; case_passed]))).2
    = Some p
    /\ ValidationProject.status p = InProgress
    /\ ValidationProject.testCases p !! 1%nat = Some case_passed.
Proof.
  destruct (fix_save_sets_in_progress
              (state_with REPORT
                 (project_of PartlyValidated [case_two_steps; case_passed]))
              (project_of PartlyValidated [case_two_steps; case_passed])
              case_two_steps eq_refl)
    as (p & Hp & _ & Hstatus & Hothers).
  exists p. split; [exact Hp|]. split; [exact Hstatus|].
  apply Hothers; [reflexivity|]. vm_compute. discriminate.
Defined.

(** C9: when the extraction of the requirements succeeds, the end of the
    chat makes a project with the status Draft, no test case and the
    extracted requirements the active project, writes it to the store
    under its identifier, and shows the plan review. *)
Theorem extraction_creates_draft_project {Exn : Type} (now : Z) (iso : string)
    (messages : list ChatMessage)
    (extraction : Exn + (list Requirement.t * string))
    (requirements : list Requirement.t) (name : string) (s : App.State) :
  extraction = inr (requirements, name) ->
  let s' := App.chat_finished now iso messages extraction s in
  exists p,
    App.activeProject s' = Some p
    /\ ValidationProject.status p = Draft
    /\ ValidationProject.testCases p = []
    /\ ValidationProject.requirements p = requirements
    /\ ValidationProject.chatHistory p = messages
    /\ App.history s' !! ValidationProject.id p = Some p
    /\ App.currentView s' = REVIEW_PLAN.
Proof.
  intros -> s'. subst s'. unfold App.chat_finished. simpl.
  eexists. split; [reflexivity|]. simpl.
  repeat split. apply lookup_insert_eq.
Qed.

Lemma extraction_creates_draft_project_witness :
  exists p,
    App.activeProject
      (App.chat_finished (Exn := Gateway.Exn) 1700000000000
         "2023-11-14T22:13:20.000Z"
         [mkMsg user "Login must work" 1700000000000]
         (inr ([Requirement.mk "REQ-1700000000000-0" FUNCTIONAL
                  "Login works" High], "Login"))
         App.initial) = Some p
    /\ ValidationProject.status p = Draft
    /\ ValidationProject.name p = "Login"%string.
Proof.
  destruct (extraction_creates_draft_project (Exn := Gateway.Exn)
              1700000000000 "2023-11-14T22:13:20.000Z"
              [mkMsg user "Login must work" 1700000000000]
              (inr ([Requirement.mk "REQ-1700000000000-0" FUNCTIONAL
                       "Login works" High], "Login"%string))
              _ _ App.initial eq_refl)
    as (p & Hp & Hstatus & _).
  exists p. split; [exact Hp|]. split; [exact Hstatus|].
  vm_compute in Hp. injection Hp as <-. reflexivity.
Defined.

(** A failed extraction leaves the controller as it was. *)
Lemma failed_extraction_changes_nothing {Exn : Type} (now : Z) (iso : string)
    (messages : list ChatMessage) (e : Exn) (s : App.State) :
  App.chat_finished now iso messages (inl e) s = s.
Proof. reflexivity. Qed.

(** ** Sample runs of the gateway *)


Example retry_twice_then_succeed :
  Gateway.retry_default (failing_first 2 (Gateway.ExtractRequirements "")) 0%nat
  = (inr (Gateway.mkResponse (Some "{}")), 3%nat,
     [ Gateway.Attempt (inl (Gateway.ApiError "503")); Gateway.Wait 1000;
       Gateway.Attempt (inl (Gateway.ApiError "503"));
       Gateway.Wait (1000 * 1.5);
       Gateway.Attempt (inr (Gateway.mkResponse (Some "{}"))) ]).
Proof. reflexivity. Qed.

Example retry_gives_up_after_three :
  (Gateway.analyzeAndFixTestCase (failing_first 5) (fun _ => None)
     case_two_steps 0%nat).1
  = (inl (Gateway.ApiError "503"), 3%nat).
Proof. reflexivity. Qed.

Example strip_fences :
  Gateway.strip_close_fence
    (Gateway.strip_open_fence
       ("```ts" ++ String Gateway.newline "test();"
        ++ String Gateway.newline "```"))%string
  = "test();"%string.
Proof. reflexivity. Qed.


(** * Further properties *)

(** ** The gateway *)

(** X1: the full trace of [retry], whatever [retries] and [delay] are.
    It is a run of at most [retries] failed attempts, each followed at once
    by its sleep ([delay] after the first failure, 1.5 times the previous
    sleep after each later one), and then the attempt whose outcome is
    returned, with no sleep after it; [fn] is called once per attempt, each
    call starting where the previous one ended; and a failure is returned
    only after exactly [retries] failed attempts before the last one. *)
Theorem retry_contract {W E T : Type} (fn : W -> (E + T) * W)
    (retries : nat) (delay : Q) (w : W) :
  exists errors : list E,
    (length errors <= retries)%nat
    /\ (Gateway.retry fn retries delay w).2
       = flat_map (fun ed => [Gateway.Attempt (inl ed.1); Gateway.Wait ed.2])
           (zip errors (Gateway.backoff delay (length errors)))
         ++ [Gateway.Attempt (Gateway.retry fn retries delay w).1.1]
    /\ (Gateway.retry fn retries delay w).1.2
       = Nat.iter (S (length errors)) (fun w' => (fn w').2) w
    /\ (forall e, (Gateway.retry fn retries delay w).1.1 = inl e ->
          length errors = retries).
Proof.
  revert delay w. induction retries as [|r IH]; intros delay w; simpl.
  - exists []. destruct (fn w) as [[e|v] w1] eqn:Hfn; simpl; rewrite Hfn;
      repeat split; lia.
  - destruct (fn w) as [[e|v] w1] eqn:Hfn; simpl.
    + destruct (IH (delay * 1.5)%Q w1) as (errors & Hlen & Htr & Hw & Hend).
      destruct (Gateway.retry fn r (delay * 1.5)%Q w1) as [[r' w2] tr].
      simpl in *. exists (e :: errors). simpl. split; [lia|].
      split; [now rewrite Htr|].
      split.
      * rewrite Hw. f_equal.
        change (fn (Nat.iter (length errors) (fun w' => (fn w').2) w)).2
          with (Nat.iter (S (length errors)) (fun w' => (fn w').2) w).
        rewrite Nat.iter_succ_r. simpl. now rewrite Hfn.
      * intros e' He'. f_equal. now apply (Hend e').
    + exists []. simpl. rewrite Hfn. repeat split; [lia|discriminate].
Qed.

Lemma retry_contract_witness :
  exists errors : list Gateway.Exn,
    length errors = 2%nat
    /\ (Gateway.retry (failing_first 5 (Gateway.ExtractRequirements "")) 2
          1000 0%nat).1.2 = 3%nat.
Proof.
  destruct (retry_contract (failing_first 5 (Gateway.ExtractRequirements ""))
              2 1000 0%nat) as (errors & _ & _ & Hw & Hend).
  exists errors. split; [|reflexivity].
  apply (Hend (Gateway.ApiError "503")). reflexivity.
Defined.

Section ResolvedCall.
Import Gateway.
Context {W : Type}.
Variable generateContent :
  Request -> W -> (Exn + GenerateContentResponse) * W.

Lemma retry_default_resolved (req : Request) (w w' : W)
    (response : GenerateContentResponse) :
  generateContent req w = (inr response, w') ->
  retry_default (generateContent req) w
  = (inr response, w', [Attempt (inr response)]).
Proof. intros H. unfold retry_default. simpl. now rewrite H. Qed.

End ResolvedCall.

(** X2: a remote call that resolves is never repeated, whatever comes of
    its text.  With an absent or empty text the four structured operations
    fail with "No response from Gemini" after that one call, and the code
    generation returns the empty script; with a text the parser rejects,
    the structured operations fail with the parse error after that one
    call. *)
Theorem resolved_call_not_retried {W : Type}
    (generateContent :
       Gateway.Request -> W ->
       (Gateway.Exn + Gateway.GenerateContentResponse) * W)
    (parse_requirements : string -> option (list Gateway.RawRequirement * string))
    (parse_testCases : string -> option (list Gateway.RawTestCase))
    (parse_fix : string -> option (list TestStep * string))
    (parse_refine : string -> option (string * list TestStep))
    (now : nat -> Z) (chatHistory instruction framework : string)
    (requirements : list Requirement.t) (testCase : TestCase.t)
    (testCases : list TestCase.t) (envConfig : option string)
    (w w' : W) (response : Gateway.GenerateContentResponse) :
  (forall req, generateContent req w = (inr response, w')) ->
  let once := [Gateway.Attempt (inr response)] in
  (Gateway.response_text response = None
   \/ Gateway.response_text response = Some ""%string ->
   Gateway.extractRequirements generateContent parse_requirements
     now chatHistory w = (inl Gateway.NoResponse, w', once)
   /\ Gateway.generateTestCases generateContent parse_testCases
        now requirements w = (inl Gateway.NoResponse, w', once)
   /\ Gateway.analyzeAndFixTestCase generateContent parse_fix testCase w
      = (inl Gateway.NoResponse, w', once)
   /\ Gateway.refineTestCase generateContent parse_refine
        testCase instruction w = (inl Gateway.NoResponse, w', once)
   /\ Gateway.generateTestSuiteCode generateContent
        testCases framework envConfig w = (inr ""%string, w', once))
  /\ (forall text,
        Gateway.response_text response = Some text -> text <> ""%string ->
        (parse_requirements text = None ->
         Gateway.extractRequirements generateContent parse_requirements
           now chatHistory w = (inl Gateway.ParseError, w', once))
        /\ (parse_testCases text = None ->
            Gateway.generateTestCases generateContent parse_testCases
              now requirements w = (inl Gateway.ParseError, w', once))
        /\ (parse_fix text = None ->
            Gateway.analyzeAndFixTestCase generateContent parse_fix testCase w
            = (inl Gateway.ParseError, w', once))
        /\ (parse_refine text = None ->
            Gateway.refineTestCase generateContent parse_refine
              testCase instruction w = (inl Gateway.ParseError, w', once))).
Proof.
  intros Hcall once.
  unfold Gateway.extractRequirements, Gateway.generateTestCases,
    Gateway.analyzeAndFixTestCase, Gateway.refineTestCase,
    Gateway.generateTestSuiteCode, Gateway.call_parsed.
  rewrite !(retry_default_resolved generateContent _ w w' response (Hcall _)).
  split.
  - intros [H|H]; rewrite H; repeat split.
  - intros text Htext Hne. rewrite Htext.
    destruct text as [|c text]; [contradiction|].
    unfold Gateway.parsed.
    repeat split; intros Hparse; now rewrite Hparse.
Qed.

Lemma resolved_call_not_retried_witness :
  Gateway.generateTestCases (resolving None) parse_two_cases
    (fun _ => 0%Z) [] 0%nat
  = (inl Gateway.NoResponse, 1%nat,
     [Gateway.Attempt (inr (Gateway.mkResponse None))]).
Proof.
  refine (proj1 (proj2 (proj1
            (resolved_call_not_retried (resolving None) (fun _ => None)
               parse_two_cases (fun _ => None) (fun _ => None) (fun _ => 0%Z)
               "" "" "" [] case_two_steps [] None 0%nat 1%nat
               (Gateway.mkResponse None) _) _))).
  - intros req. reflexivity.
  - left. reflexivity.
Defined.

Section FenceFacts.
Import Gateway.

Lemma drop_letters_app (lang rest : string) :
  (forall c, In c (list_ascii_of_string lang) -> is_letter c = true) ->
  drop_letters (lang ++ String newline rest)%string = String newline rest.
Proof.
  induction lang as [|c lang IH]; intros H.
  - reflexivity.
  - rewrite append_cons. simpl.
    rewrite (H c) by (simpl; now left).
    apply IH. intros d Hd. apply H. simpl. now right.
Qed.

Lemma strip_close_fence_app (body : string) :
  strip_close_fence (body ++ close_fence)%string = body.
Proof.
  induction body as [|c body IH].
  - reflexivity.
  - rewrite append_cons. cbn [strip_close_fence].
    destruct (String.eqb_spec (String c (body ++ close_fence)) close_fence)
      as [E|_].
    + apply (f_equal String.length) in E. simpl in E.
      rewrite append_length in E. simpl in E. lia.
    + now rewrite IH.
Qed.

End FenceFacts.

(** X3: a script the model wraps in a Markdown fence comes back bare: for
    a language tag made of letters and any body, stripping
    [```tag\nbody\n```] gives [body], and this is what the code generation
    returns when the remote call resolves with that text at once. *)
Theorem fenced_script_is_unwrapped {W : Type}
    (generateContent :
       Gateway.Request -> W ->
       (Gateway.Exn + Gateway.GenerateContentResponse) * W)
    (testCases : list TestCase.t) (framework : string)
    (envConfig : option string) (w w' : W) (tag body : string) :
  (forall c, In c (list_ascii_of_string tag) -> Gateway.is_letter c = true) ->
  let fenced :=
    ("```" ++ tag ++ String Gateway.newline body ++ Gateway.close_fence)%string in
  generateContent (Gateway.GenerateCode testCases framework envConfig) w
  = (inr (Gateway.mkResponse (Some fenced)), w') ->
  Gateway.strip_close_fence (Gateway.strip_open_fence fenced) = body
  /\ (Gateway.generateTestSuiteCode generateContent
        testCases framework envConfig w).1.1 = inr body.
Proof.
  intros Htag fenced Hcall.
  assert (Hstrip : Gateway.strip_close_fence (Gateway.strip_open_fence fenced)
                   = body).
  { subst fenced.
    change ("```" ++ tag ++ String Gateway.newline body ++ Gateway.close_fence)%string
      with (String "`" (String "`" (String "`"
              (tag ++ String Gateway.newline (body ++ Gateway.close_fence)))))%string.
    unfold Gateway.strip_open_fence.
    rewrite (drop_letters_app tag _ Htag).
    rewrite Ascii.eqb_refl. apply strip_close_fence_app. }
  split; [exact Hstrip|].
  unfold Gateway.generateTestSuiteCode.
  rewrite (retry_default_resolved generateContent _ w w' _ Hcall).
  simpl. now f_equal.
Qed.

Lemma fenced_script_is_unwrapped_witness :
  (Gateway.generateTestSuiteCode
     (resolving (Some ("```ts" ++ String Gateway.newline "test();"
                       ++ Gateway.close_fence)%string))
     [] "Playwright (TypeScript)" None 0%nat).1.1
  = inr "test();"%string.
Proof.
  refine (proj2 (fenced_script_is_unwrapped
                   (resolving (Some ("```ts" ++ String Gateway.newline "test();"
                                     ++ Gateway.close_fence)%string))
                   [] "Playwright (TypeScript)" None 0%nat 1%nat
                   "ts" "test();" _ _)).
  - intros c [<-|[<-|[]]]; reflexivity.
  - reflexivity.
Defined.

(** ** Generated identifiers *)

Section IdFacts.

Lemma pretty_N_char_not_dash (x : N) : pretty_N_char x <> dash.
Proof.
  unfold pretty_N_char, dash.
  destruct x as [|p]; [discriminate|].
  do 4 (try (destruct p as [p|p|]; try discriminate)).
Qed.

Lemma pretty_N_go_dashless (x : N) (s : string) :
  dashless s -> dashless (pretty_N_go x s).
Proof.
  revert s. induction (N.lt_wf_0 x) as [x _ IH]; intros s Hs.
  destruct (N.eq_0_gt_0_cases x) as [->|Hpos].
  - now rewrite pretty_N_go_0.
  - rewrite pretty_N_go_step by exact Hpos. apply IH.
    + now apply N.div_lt.
    + unfold dashless. simpl. intros [H|H]; [|now apply Hs].
      now apply (pretty_N_char_not_dash (x `mod` 10)).
Qed.

Lemma pretty_nat_dashless (n : nat) : dashless (pretty n).
Proof.
  unfold pretty, pretty_nat, pretty, pretty_N.
  destruct (decide (N.of_nat n = 0%N)).
  - unfold dashless, dash. simpl. intros [H|[]]. discriminate.
  - apply pretty_N_go_dashless. intros [].
Qed.

(** In [a ++ "-" ++ d] with no dash in [d], the text after the last dash
    is [d]. *)
Lemma after_last_dash (a b d1 d2 : string) :
  dashless d1 -> dashless d2 ->
  (a ++ String dash d1)%string = (b ++ String dash d2)%string -> d1 = d2.
Proof.
  intros H1 H2. revert b. induction a as [|x a IH]; intros b Heq.
  - destruct b as [|y b].
    + now injection Heq.
    + rewrite append_nil, append_cons in Heq. injection Heq as _ Heq.
      exfalso. apply H1. rewrite Heq. clear.
      induction b as [|z b IHb]; [now left|]. rewrite append_cons. now right.
  - destruct b as [|y b].
    + rewrite append_nil, append_cons in Heq. injection Heq as _ Heq.
      exfalso. apply H2. rewrite <- Heq. clear.
      induction a as [|z a IHa]; [now left|]. rewrite append_cons. now right.
    + rewrite (append_cons x a), (append_cons y b) in Heq.
      injection Heq as _ Heq. exact (IH b Heq).
Qed.

Lemma string_app_inv_head (a b c : string) :
  (a ++ b)%string = (a ++ c)%string -> b = c.
Proof.
  induction a as [|x a IH]; [easy|].
  rewrite (append_cons x a b), (append_cons x a c).
  intros [= H]. now apply IH.
Qed.

(** Two identifiers built by [tagged_id] with one tag agree only at one
    index, whatever the clock shows. *)
Lemma tagged_id_inj (tag : string) (now : nat -> Z) (i j : nat) :
  Gateway.tagged_id tag now i = Gateway.tagged_id tag now j -> i = j.
Proof.
  unfold Gateway.tagged_id. intros H.
  apply string_app_inv_head in H.
  change ("-" ++ pretty i)%string with (String dash (pretty i)) in H.
  change ("-" ++ pretty j)%string with (String dash (pretty j)) in H.
  apply (after_last_dash (pretty (now i)) (pretty (now j))) in H;
    try apply pretty_nat_dashless.
  now apply (inj pretty) in H.
Qed.

Lemma NoDup_imap_index {A B} (f : nat -> A -> B) (l : list A) :
  (forall i j x y, f i x = f j y -> i = j) -> NoDup (imap f l).
Proof.
  intros Hinj. apply NoDup_alt. intros i j b Hi Hj.
  apply list_lookup_imap_Some in Hi as (x & _ & ->).
  apply list_lookup_imap_Some in Hj as (y & _ & Heq).
  now apply (Hinj i j x y).
Qed.

End IdFacts.

(** X4: the test cases [generateTestCases] returns carry pairwise distinct
    identifiers, whatever the clock shows while they are built, are all
    Pending and have no log.  They are read off the text of the first
    remote call that resolved, one of the first three: the requirement ids,
    the titles and the steps come from it, in order, and so do a
    screenshot, a failed step number and a failure reason, which a parsed
    case that carries them keeps.  The requirements [extractRequirements]
    returns carry pairwise distinct identifiers as well. *)
Theorem generated_ids_distinct {W : Type}
    (generateContent :
       Gateway.Request -> W ->
       (Gateway.Exn + Gateway.GenerateContentResponse) * W)
    (parse_requirements : string -> option (list Gateway.RawRequirement * string))
    (parse_testCases : string -> option (list Gateway.RawTestCase))
    (now : nat -> Z) (chatHistory : string)
    (requirements : list Requirement.t) (w : W) :
  (forall cases,
     (Gateway.generateTestCases generateContent parse_testCases
        now requirements w).1.1 = inr cases ->
     NoDup (map TestCase.id cases)
     /\ Forall (fun tc => TestCase.status tc = PENDING
                          /\ TestCase.logs tc = []) cases
     /\ exists k response text raw,
          (k <= 2)%nat
          /\ (forall i, (i < k)%nat ->
                exists e,
                  (generateContent (Gateway.GenerateTestCases requirements)
                     (after_calls
                        (generateContent (Gateway.GenerateTestCases requirements))
                        i w)).1 = inl e)
          /\ (generateContent (Gateway.GenerateTestCases requirements)
                (after_calls
                   (generateContent (Gateway.GenerateTestCases requirements))
                   k w)).1 = inr response
          /\ Gateway.response_text response = Some text
          /\ parse_testCases text = Some raw
          /\ map TestCase.requirementId cases
             = map Gateway.raw_requirementId raw
          /\ map TestCase.title cases = map Gateway.raw_title raw
          /\ map TestCase.steps cases = map Gateway.raw_steps raw
          /\ map TestCase.screenshotUrl cases
             = map Gateway.raw_screenshotUrl raw
          /\ map TestCase.failedStepNumber cases
             = map Gateway.raw_failedStepNumber raw
          /\ map TestCase.failureReason cases
             = map Gateway.raw_failureReason raw)
  /\ (forall reqs name,
        (Gateway.extractRequirements generateContent parse_requirements
           now chatHistory w).1.1 = inr (reqs, name) ->
        NoDup (map Requirement.id reqs)).
Proof.
  split.
  - intros cases. unfold Gateway.generateTestCases, Gateway.call_parsed.
    unfold Gateway.retry_default.
    destruct (retry_calls
                (generateContent (Gateway.GenerateTestCases requirements))
                2 1000 w) as (errors & Hlen & Herr & _ & Hres & _ & _).
    destruct (Gateway.retry _ 2 1000 w) as [[r w'] tr]. simpl in *.
    destruct r as [e|response]; [discriminate|].
    destruct (Gateway.response_text response) as [[|c text]|] eqn:Htext;
      try discriminate.
    unfold Gateway.parsed.
    destruct (parse_testCases (String c text)) as [raw|] eqn:Hparse;
      [|discriminate].
    intros [= <-]. split; [|split].
    + change (map TestCase.id ?l) with (TestCase.id <$> l).
      rewrite fmap_imap. apply NoDup_imap_index.
      intros i j x y. apply tagged_id_inj.
    + apply Forall_forall. intros tc Htc.
      apply elem_of_lookup_imap_1 in Htc as (i & x & -> & _).
      repeat split.
    + exists (length errors), response, (String c text), raw.
      split; [exact Hlen|]. split.
      { intros i Hi. apply lookup_lt_is_Some_2 in Hi as [e He].
        exists e. now apply Herr. }
      split; [now rewrite <- Hres|].
      split; [exact Htext|]. split; [exact Hparse|].
      repeat split;
        match goal with |- map ?f _ = _ => change (map f ?l) with (f <$> l) end;
        rewrite fmap_imap; apply imap_const.
  - intros reqs name.
    unfold Gateway.extractRequirements, Gateway.call_parsed.
    destruct (Gateway.retry_default _ w) as [[r w'] tr]. simpl.
    destruct r as [e|response]; [discriminate|].
    destruct (Gateway.response_text response) as [[|c text]|];
      try discriminate.
    unfold Gateway.parsed.
    destruct (parse_requirements (String c text)) as [[raw nm]|];
      [|discriminate].
    intros [= <- _].
    change (map Requirement.id ?l) with (Requirement.id <$> l).
    rewrite fmap_imap. apply NoDup_imap_index.
    intros i j x y. apply tagged_id_inj.
Qed.

Lemma generated_ids_distinct_witness :
  exists cases,
    (Gateway.generateTestCases (resolving (Some "{}")) parse_two_cases
       (fun _ => 1700000000000%Z) [] 0%nat).1.1 = inr cases
    /\ map TestCase.id cases
       = ["TC-1700000000000-0"; "TC-1700000000000-1"]%string
    /\ map TestCase.failedStepNumber cases = [None; Some 7%Z]
    /\ NoDup (map TestCase.id cases).
Proof.
  eexists. split; [reflexivity|]. split; [reflexivity|].
  split; [reflexivity|].
  refine (proj1 (proj1 (generated_ids_distinct (resolving (Some "{}"))
                          (fun _ => None) parse_two_cases
                          (fun _ => 1700000000000%Z) "" [] 0%nat) _ _)).
  reflexivity.
Defined.

(** ** The spreadsheet import *)

Section ImportFacts.
Import Excel.


Lemma keep_not_blank (req : Requirement.t) :
  keep req = bool_decide (~ blank (Requirement.description req)).
Proof.
  destruct (keep req) eqn:K; symmetry.
  - apply bool_decide_eq_true_2. intros H. apply keep_false in H. congruence.
  - apply bool_decide_eq_false_2. intros H. apply H. now apply keep_false.
Qed.

Lemma filter_map_comm {A B} (f : A -> B) (p : B -> bool) (l : list A) :
  List.filter p (map f l) = map f (List.filter (fun x => p (f x)) l).
Proof.
  induction l as [|x l IH]; [reflexivity|]. simpl.
  destruct (p (f x)); simpl; now rewrite IH.
Qed.

Lemma NoDup_List_filter {A} (p : A -> bool) (l : list A) :
  NoDup l -> NoDup (List.filter p l).
Proof.
  induction 1 as [|x l Hx Hl IH]; simpl; [constructor|].
  destruct (p x); [|exact IH]. constructor; [|exact IH].
  intros Hin. apply Hx. apply list_elem_of_In in Hin.
  apply filter_In in Hin as [Hin _]. now apply list_elem_of_In.
Qed.

Lemma imap_description (now : nat -> Z) (rows : list Row) :
  map Requirement.description (imap (row_to_requirement now) rows)
  = map (fun row => to_String (description_of row)) rows.
Proof.
  change (map Requirement.description ?l) with (Requirement.description <$> l).
  rewrite fmap_imap. apply imap_const.
Qed.

End ImportFacts.





(** X7: the import keeps the rows in sheet order and drops nothing but the
    blank descriptions: the descriptions it returns are the resolved
    descriptions of the rows that are not empty or made of white space
    only (of any of the white-space characters [trim] strips), in order.
    Each requirement keeps the index of its row in its identifier, so the
    identifiers are pairwise distinct. *)
Theorem import_keeps_order (now : nat -> Z) (jsonData : list Excel.Row) :
  map Requirement.description (Excel.requirements_of now jsonData)
  = List.filter (fun d => bool_decide (~ Excel.blank d))
      (map (fun row => Excel.to_String (Excel.description_of row)) jsonData)
  /\ (forall req, In req (Excel.requirements_of now jsonData) ->
        exists index row,
          jsonData !! index = Some row
          /\ req = Excel.row_to_requirement now index row)
  /\ NoDup (map Requirement.id (Excel.requirements_of now jsonData)).
Proof.
  unfold Excel.requirements_of. split; [|split].
  - rewrite <- (imap_description now jsonData), filter_map_comm. f_equal.
    apply filter_ext. intros req. apply keep_not_blank.
  - intros req Hin. apply filter_In in Hin as [Hin _].
    apply list_elem_of_In, elem_of_lookup_imap_1 in Hin
      as (index & row & -> & Hrow).
    now exists index, row.
  - change (map Requirement.id ?l) with (Requirement.id <$> l).
    apply NoDup_fmap_2_strong; [|apply NoDup_List_filter].
    + intros x y Hx Hy Hid.
      apply list_elem_of_In, filter_In in Hx as [Hx _].
      apply list_elem_of_In, filter_In in Hy as [Hy _].
      apply list_elem_of_In, elem_of_lookup_imap_1 in Hx as (i & rx & -> & Hrx).
      apply list_elem_of_In, elem_of_lookup_imap_1 in Hy as (j & ry & -> & Hry).
      simpl in Hid.
      apply (tagged_id_inj "REQ-IMPORT-" now i j) in Hid. subst j.
      congruence.
    + apply NoDup_imap_index. intros i j x y Heq.
      apply (f_equal Requirement.id) in Heq. simpl in Heq.
      now apply (tagged_id_inj "REQ-IMPORT-" now i j).
Qed.

Lemma import_keeps_order_witness :
  exists index row,
    sheet_two_rows !! index = Some row
    /\ Excel.row_to_requirement (fun _ => 0%Z) 0
         [ ("Description", Excel.CString "Login works");
           ("Priority", Excel.CString "HIGH") ]
       = Excel.row_to_requirement (fun _ => 0%Z) index row.
Proof.
  refine (proj1 (proj2 (import_keeps_order (fun _ => 0%Z) sheet_two_rows)) _ _).
  vm_compute. now left.
Defined.

Section NameFacts.
Import Excel.

Lemma before_dot_dotless (s : string) :
  ~ In dot (list_ascii_of_string (before_dot s)).
Proof.
  induction s as [|c s IH]; simpl; [tauto|].
  destruct (Ascii.eqb_spec c ".") as [->|Hne]; simpl; [tauto|].
  intros [H|H]; [now apply Hne|now apply IH].
Qed.








End NameFacts.



(** X9: an import that parses makes a project with the status Draft, the
    imported requirements, no test case and no transcript the active
    project, named after the file, stores it under its identifier and shows
    the plan review; an import that fails to read or parse, and a change
    event without a file, leave the controller as it was. *)
Theorem import_creates_draft_project {Err : Type}
    (toUpperCase : string -> string) (now : Z) (iso : string)
    (clock : nat -> Z) (fileName : string) (jsonData : list Excel.Row)
    (err : Err) (s : App.State) :
  (let s' := App.handleFileChange (Err := Err) toUpperCase now iso clock
               (Some fileName) (inr jsonData) s in
   exists p,
     App.activeProject s' = Some p
     /\ ValidationProject.status p = Draft
     /\ ValidationProject.requirements p = Excel.requirements_of clock jsonData
     /\ ValidationProject.testCases p = []
     /\ ValidationProject.chatHistory p = []
     /\ ValidationProject.name p
        = Excel.projectName_of toUpperCase (Excel.before_dot fileName)
     /\ App.history s' !! ValidationProject.id p = Some p
     /\ App.currentView s' = REVIEW_PLAN)
  /\ App.handleFileChange toUpperCase now iso clock (Some fileName) (inl err) s
     = s
  /\ App.handleFileChange toUpperCase now iso clock None (inl err) s = s
  /\ App.handleFileChange (Err := Err) toUpperCase now iso clock None
       (inr jsonData) s = s.
Proof.
  split; [|repeat split].
  simpl. eexists. split; [reflexivity|]. simpl.
  repeat split. apply lookup_insert_eq.
Qed.

(** ** Editing steps *)

(** X10: removing a step (in the editor and in the fix modal) drops the
    step at the index and nothing else: the actions and the expected
    results of the other steps stay, in order; an index past the end drops
    nothing. *)
Theorem removeStep_drops_one (index : nat) (tc : TestCase.t) :
  let removed := Editor.removeStep_steps index (TestCase.steps tc) in
  Editor.Plan.removeStep index (Some tc) = Some (TestCase.with_steps tc removed)
  /\ Editor.Fix.removeStep index (Some tc) = Some (TestCase.with_steps tc removed)
  /\ map action removed = delete index (map action (TestCase.steps tc))
  /\ map expectedResult removed
     = delete index (map expectedResult (TestCase.steps tc))
  /\ ((index < length (TestCase.steps tc))%nat ->
      length removed = (length (TestCase.steps tc) - 1)%nat)
  /\ ((length (TestCase.steps tc) <= index)%nat ->
      length removed = length (TestCase.steps tc)
      /\ map action removed = map action (TestCase.steps tc)
      /\ map expectedResult removed = map expectedResult (TestCase.steps tc)).
Proof.
  intros removed. subst removed.
  assert (Ha : forall l, map action (Editor.removeStep_steps index l)
                         = delete index (map action l)).
  { intros l. rewrite removeStep_steps_delete.
    change (map action ?x) with (action <$> x).
    rewrite fmap_imap, <- list_fmap_delete. apply imap_const. }
  assert (He : forall l, map expectedResult (Editor.removeStep_steps index l)
                         = delete index (map expectedResult l)).
  { intros l. rewrite removeStep_steps_delete.
    change (map expectedResult ?x) with (expectedResult <$> x).
    rewrite fmap_imap, <- list_fmap_delete. apply imap_const. }
  split; [reflexivity|]. split; [reflexivity|].
  split; [apply Ha|]. split; [apply He|]. split.
  - apply removeStep_steps_length.
  - intros Hge. rewrite Ha, He, removeStep_steps_delete, length_imap.
    rewrite !delete_past_end by (rewrite ?length_map; lia). repeat split.
Qed.

Lemma removeStep_drops_one_witness :
  length (Editor.removeStep_steps 0 (TestCase.steps case_two_steps)) = 1%nat.
Proof.
  refine (proj1 (proj2 (proj2 (proj2 (proj2
            (removeStep_drops_one 0 case_two_steps))))) _).
  vm_compute. lia.
Defined.

(** X11: on a case whose steps are numbered 1, ..., n, adding a step and
    then removing the step just added gives back the case as it was, in
    the editor and in the fix modal. *)
Theorem addStep_then_removeStep (tc : TestCase.t) :
  contiguous (TestCase.steps tc) ->
  Editor.Plan.removeStep (length (TestCase.steps tc))
    (Editor.Plan.addStep (Some tc)) = Some tc
  /\ Editor.Fix.removeStep (length (TestCase.steps tc))
       (Editor.Fix.addStep (Some tc)) = Some tc.
Proof.
  intros Hc.
  assert (H : forall act,
            Editor.removeStep_steps (length (TestCase.steps tc))
              (Editor.addStep_steps act (TestCase.steps tc))
            = TestCase.steps tc).
  { intros act. rewrite removeStep_steps_delete. unfold Editor.addStep_steps.
    rewrite delete_middle, app_nil_r. now apply imap_renumber_contiguous. }
  split; simpl; rewrite H; now destruct tc.
Qed.

Lemma addStep_then_removeStep_witness :
  Editor.Fix.removeStep 2 (Editor.Fix.addStep (Some case_two_steps))
  = Some case_two_steps.
Proof.
  refine (proj2 (addStep_then_removeStep case_two_steps _)). reflexivity.
Defined.



(** ** The test-plan view *)

Section PlanFacts.

Lemma edit_same_record (tc : TestCase.t) (f f' : option TestCase.t) :
  PlanView.edit f f' ->
  (exists a, f = Some a /\ same_record tc a) ->
  exists b, f' = Some b /\ same_record tc b.
Proof.
  intros Hedit (a & -> & Ha).
  remember (Some a) as f eqn:Hf.
  destruct Hedit as [form value|form form' index field value Hup|form|form index];
    subst form.
  - eexists. split; [reflexivity|]. exact Ha.
  - unfold PlanView.updateStep in Hup.
    destruct (PlanView.set_step index field value (TestCase.steps a));
      [|discriminate].
    injection Hup as <-. eexists. split; [reflexivity|]. exact Ha.
  - eexists. split; [reflexivity|]. exact Ha.
  - eexists. split; [reflexivity|]. exact Ha.
Qed.

Lemma edits_same_record (tc : TestCase.t) (f f' : option TestCase.t) :
  rtc PlanView.edit f f' ->
  (exists a, f = Some a /\ same_record tc a) ->
  exists b, f' = Some b /\ same_record tc b.
Proof.
  induction 1 as [f|f g h Hedit _ IH]; intros Hf; [exact Hf|].
  apply IH. now apply (edit_same_record tc f g).
Qed.

Lemma replaced_lookup (project : ValidationProject.t) (form : TestCase.t)
    (k : nat) :
  PlanView.replaced project form !! k
  = (fun tc =>
       if String.eqb (TestCase.id tc) (TestCase.id form) then form else tc)
    <$> ValidationProject.testCases project !! k.
Proof. unfold PlanView.replaced. apply list_lookup_fmap. Qed.

Lemma refined_lookup (project : ValidationProject.t) (tc : TestCase.t)
    (title : string) (steps : list TestStep) (k : nat) :
  PlanView.refined project tc title steps !! k
  = (fun t =>
       if String.eqb (TestCase.id t) (TestCase.id tc)
       then TestCase.mk (TestCase.id t) (TestCase.requirementId t) title
              steps (TestCase.status t) (TestCase.logs t)
              (TestCase.screenshotUrl t) (TestCase.failedStepNumber t)
              (TestCase.failureReason t)
       else t)
    <$> ValidationProject.testCases project !! k.
Proof. unfold PlanView.refined. apply list_lookup_fmap. Qed.

End PlanFacts.

(** X13: a case edited in the plan view (title, step texts, steps added
    and removed, in any number and order) and saved takes the place of the
    case it was opened from with the edited title and steps and with the
    status, logs, evidence and failure fields the case had: unlike a fix
    saved from the report, the save does not put a Failed case back to
    Pending.  The other cases and the status of the project stay, and the
    edit mode is left. *)
Theorem plan_edit_keeps_status (s : App.State) (project : ValidationProject.t)
    (l : PlanView.Local) (j : nat) (tc form : TestCase.t) :
  ValidationProject.testCases project !! j = Some tc ->
  rtc PlanView.edit (PlanView.editForm (PlanView.startEditing tc l))
      (Some form) ->
  let l0 := PlanView.mkLocal (Some (TestCase.id tc)) (Some form)
              None (PlanView.refinePrompt l) in
  let after := PlanView.saveTestChanges App.handleUpdateProject project l0 s in
  PlanView.editForm after.1 = None
  /\ PlanView.editingTestId after.1 = None
  /\ exists p,
       App.activeProject after.2 = Some p
       /\ ValidationProject.status p = ValidationProject.status project
       /\ ValidationProject.testCases p !! j = Some form
       /\ TestCase.status form = TestCase.status tc
       /\ TestCase.logs form = TestCase.logs tc
       /\ TestCase.screenshotUrl form = TestCase.screenshotUrl tc
       /\ TestCase.failedStepNumber form = TestCase.failedStepNumber tc
       /\ TestCase.failureReason form = TestCase.failureReason tc
       /\ (forall k other,
             ValidationProject.testCases project !! k = Some other ->
             TestCase.id other <> TestCase.id tc ->
             ValidationProject.testCases p !! k = Some other).
Proof.
  intros Hj Hedits l0 after. subst after l0. simpl.
  destruct (edits_same_record tc _ _ Hedits) as (b & [= <-] & Hsame).
  { exists tc. split; [reflexivity|]. repeat split. }
  destruct Hsame as (Hid & _ & Hst & Hlogs & Hshot & Hnum & Hreason).
  split; [reflexivity|]. split; [reflexivity|].
  eexists. split; [reflexivity|].
  cbn [ValidationProject.status ValidationProject.testCases
       PlanView.with_cases ValidationProject.with_cases_status].
  split; [reflexivity|]. split.
  { rewrite replaced_lookup, Hj. simpl. now rewrite Hid, String.eqb_refl. }
  repeat (split; [congruence|]).
  intros k other Hk Hne. rewrite replaced_lookup, Hk. simpl.
  destruct (String.eqb_spec (TestCase.id other) (TestCase.id form))
    as [E|_]; [congruence|reflexivity].
Qed.

Lemma plan_edit_keeps_status_witness :
  exists p,
    App.activeProject
      (PlanView.saveTestChanges App.handleUpdateProject
         (project_of InProgress [case_two_steps; case_passed])
         (PlanView.mkLocal (Some "TC-1-0")
            (Editor.Plan.removeStep 0 (Some case_two_steps)) None
            "Add a wait step")
         (state_with REVIEW_PLAN
            (project_of InProgress [case_two_steps; case_passed]))).2 = Some p
    /\ map TestCase.status (ValidationProject.testCases p) = [FAILED; PASSED]
    /\ ValidationProject.status p = InProgress.
Proof.
  destruct (plan_edit_keeps_status
              (state_with REVIEW_PLAN
                 (project_of InProgress [case_two_steps; case_passed]))
              (project_of InProgress [case_two_steps; case_passed])
              plan_local 0 case_two_steps
              (TestCase.with_steps case_two_steps
                 (Editor.removeStep_steps 0 (TestCase.steps case_two_steps)))
              eq_refl)
    as (_ & _ & p & Hp & Hstatus & _).
  - eapply rtc_l; [|apply rtc_refl].
    exact (PlanView.EditRemove (Some case_two_steps) 0).
  - exists p. split; [exact Hp|].
    vm_compute in Hp. injection Hp as <-. split; reflexivity.
Defined.

(** X14: a refinement that succeeds replaces the title and the steps of
    the case with the identifier of the refined one and nothing else: its
    status, logs, evidence and failure fields, the other cases and the
    status of the project stay.  With a blank prompt, or when the gateway
    call fails, nothing changes at all. *)
Theorem refine_replaces_title_and_steps {Exn : Type} (s : App.State)
    (project : ValidationProject.t) (l : PlanView.Local) (tc : TestCase.t)
    (title : string) (steps : list TestStep) (e : Exn) :
  (Excel.trim (PlanView.refinePrompt l) <> ""%string ->
   let after := PlanView.handleRefineSubmit (Exn := Exn)
                  App.handleUpdateProject project tc (inr (title, steps)) l s in
   PlanView.refiningTestId after.1 = None
   /\ PlanView.refinePrompt after.1 = ""%string
   /\ exists p,
        App.activeProject after.2 = Some p
        /\ ValidationProject.status p = ValidationProject.status project
        /\ length (ValidationProject.testCases p)
           = length (ValidationProject.testCases project)
        /\ (forall k t,
              ValidationProject.testCases project !! k = Some t ->
              exists t',
                ValidationProject.testCases p !! k = Some t'
                /\ same_record t t'
                /\ (TestCase.id t = TestCase.id tc ->
                    TestCase.title t' = title /\ TestCase.steps t' = steps)
                /\ (TestCase.id t <> TestCase.id tc -> t' = t)))
  /\ PlanView.handleRefineSubmit App.handleUpdateProject project tc (inl e) l s
     = (l, s)
  /\ (Excel.trim (PlanView.refinePrompt l) = ""%string ->
      PlanView.handleRefineSubmit (Exn := Exn) App.handleUpdateProject
        project tc (inr (title, steps)) l s = (l, s)).
Proof.
  unfold PlanView.handleRefineSubmit. split; [|split].
  - intros Hprompt.
    destruct (String.eqb_spec (Excel.trim (PlanView.refinePrompt l)) "")
      as [E|_]; [contradiction|].
    simpl. split; [reflexivity|]. split; [reflexivity|].
    eexists. split; [reflexivity|].
    cbn [ValidationProject.status ValidationProject.testCases
         PlanView.with_cases ValidationProject.with_cases_status].
    split; [reflexivity|]. split; [apply length_map|].
    intros k t Hk. rewrite refined_lookup, Hk. simpl.
    destruct (String.eqb_spec (TestCase.id t) (TestCase.id tc)) as [E|Hne].
    + eexists. split; [reflexivity|]. split; [repeat split|].
      split; [intros _; split; reflexivity|contradiction].
    + exists t. split; [reflexivity|]. split; [repeat split|].
      split; [contradiction|reflexivity].
  - now destruct (String.eqb _ _).
  - intros ->. reflexivity.
Qed.

Lemma refine_replaces_title_and_steps_witness :
  exists p,
    App.activeProject
      (PlanView.handleRefineSubmit (Exn := Gateway.Exn)
         App.handleUpdateProject
         (project_of InProgress [case_two_steps; case_passed]) case_two_steps
         (inr ("Login with wait", [mkStep 1 "Wait" "Page is ready"]))
         plan_local
         (state_with REVIEW_PLAN
            (project_of InProgress [case_two_steps; case_passed]))).2 = Some p
    /\ map TestCase.title (ValidationProject.testCases p)
       = ["Login with wait"; "Filter"]%string
    /\ map TestCase.status (ValidationProject.testCases p) = [FAILED; PASSED].
Proof.
  destruct (proj1 (refine_replaces_title_and_steps (Exn := Gateway.Exn)
                     (state_with REVIEW_PLAN
                        (project_of InProgress [case_two_steps; case_passed]))
                     (project_of InProgress [case_two_steps; case_passed])
                     plan_local case_two_steps "Login with wait"
                     [mkStep 1 "Wait" "Page is ready"] Gateway.NoResponse))
    as (_ & _ & p & Hp & _).
  - vm_compute. discriminate.
  - exists p. split; [exact Hp|].
    vm_compute in Hp. injection Hp as <-. split; reflexivity.
Defined.

(** X15: the exported sheet has one row for each step of each case, in the
    order of the cases and of their steps, so as many rows as there are
    steps in all; a case without steps adds no row, and a plan whose cases
    have no steps exports an empty sheet. *)
Theorem export_rows_per_step (cases : list TestCase.t) :
  length (PlanView.export_rows cases)
  = list_sum (map (fun tc => length (TestCase.steps tc)) cases)
  /\ map PlanView.row_step (PlanView.export_rows cases)
     = flat_map (fun tc => stepNumbers (TestCase.steps tc)) cases
  /\ map PlanView.row_testCaseId (PlanView.export_rows cases)
     = flat_map (fun tc => replicate (length (TestCase.steps tc))
                             (TestCase.id tc)) cases
  /\ (forall before tc after,
        cases = before ++ tc :: after -> TestCase.steps tc = [] ->
        PlanView.export_rows cases = PlanView.export_rows (before ++ after))
  /\ (Forall (fun tc => TestCase.steps tc = []) cases ->
      PlanView.export_rows cases = []).
Proof.
  unfold PlanView.export_rows. split; [|split; [|split; [|split]]].
  - rewrite length_flat_map. f_equal. apply map_ext. intros tc.
    apply length_map.
  - induction cases as [|tc cases IH]; [reflexivity|]. simpl.
    rewrite map_app, IH. f_equal. unfold stepNumbers.
    rewrite map_map. reflexivity.
  - induction cases as [|tc cases IH]; [reflexivity|]. simpl.
    rewrite map_app, IH. f_equal. rewrite map_map. simpl.
    induction (TestCase.steps tc) as [|st sts IHs]; [reflexivity|].
    simpl. now rewrite IHs.
  - intros before tc after -> Hsteps.
    rewrite !flat_map_app. simpl. now rewrite Hsteps.
  - induction 1 as [|tc cases Htc _ IH]; [reflexivity|].
    simpl. now rewrite Htc, IH.
Qed.

Lemma export_rows_per_step_witness :
  PlanView.export_rows [case_two_steps; case_no_steps; case_pending]
  = PlanView.export_rows [case_two_steps; case_pending].
Proof.
  refine (proj1 (proj2 (proj2 (proj2
            (export_rows_per_step [case_two_steps; case_no_steps; case_pending]))))
            [case_two_steps] case_no_steps [case_pending] eq_refl eq_refl).
Defined.

Section NameOfFile.
Import PlanView.

Lemma has_space_empty : ~ has_space "".
Proof.
  intros (pre & ws & post & Hin & Heq).
  destruct (white_space_bytes ws Hin) as [Hlen _].
  destruct pre; [|rewrite append_cons in Heq; discriminate].
  destruct ws; [simpl in Hlen; lia|].
  rewrite append_nil, append_cons in Heq. discriminate.
Qed.

(** A string holds a white-space character where it starts with one or
    where what follows its first byte holds one. *)
Lemma has_space_cons (c : ascii) (x : string) :
  has_space (String c x)
  <-> Excel.space_width (String c x) <> 0%nat \/ has_space x.
Proof.
  split.
  - intros (pre & ws & post & Hin & Heq). destruct pre as [|d pre].
    + left. rewrite append_nil in Heq.
      rewrite Heq, (space_width_space ws post Hin).
      pose proof (white_space_bytes ws Hin). lia.
    + right. rewrite append_cons in Heq. injection Heq as _ ->.
      now exists pre, ws, post.
  - intros [H|(pre & ws & post & Hin & ->)].
    + apply space_width_split in H as (ws & rest & Hin & Heq).
      exists ""%string, ws, rest. now rewrite append_nil.
    + exists (String c pre), ws, post. now rewrite append_cons.
Qed.

Lemma space_width_underscore (x : string) :
  Excel.space_width (String "_" x) = 0%nat.
Proof.
  destruct (Nat.eq_dec (Excel.space_width (String "_" x)) 0) as [E|E];
    [exact E|exfalso].
  apply space_width_split in E as (ws & rest & Hin & Heq).
  destruct (white_space_bytes ws Hin) as [Hlen Hno].
  destruct ws as [|a u]; [simpl in Hlen; lia|].
  rewrite append_cons in Heq. injection Heq as <- _.
  apply Hno. now left.
Qed.

Lemma tail_length (s : string) :
  (String.length (Excel.tail s) <= String.length s)%nat.
Proof. destruct s; simpl; lia. Qed.

(** Where the result, followed by a text that starts with an underscore,
    starts with another byte, that byte is copied from the input. *)
Lemma underscore_spaces_head (t r rest : string) (b : ascii) :
  (underscore_spaces r ++ String "_" t)%string = String b rest ->
  b <> "_"%char ->
  exists r', r = String b r'
             /\ rest = (underscore_spaces r' ++ String "_" t)%string.
Proof.
  destruct r as [|d r'].
  - simpl. rewrite append_nil. intros [= <- _] H. contradiction.
  - cbn [underscore_spaces].
    destruct (Excel.space_width (String d r')) as [|[|[|k]]];
      rewrite append_cons; intros [= <- <-] Hb; try contradiction.
    now exists r'.
Qed.

Lemma underscore_spaces_prefix (t u : string) :
  (forall b, In b (list_ascii_of_string u) -> b <> "_"%char) ->
  forall r rest,
    (underscore_spaces r ++ String "_" t)%string = (u ++ rest)%string ->
    exists r', r = (u ++ r')%string.
Proof.
  induction u as [|a u IH]; intros Hu r rest Heq.
  - now exists r.
  - rewrite append_cons in Heq.
    apply underscore_spaces_head in Heq as (r1 & -> & Hrest);
      [|apply Hu; now left].
    destruct (IH (fun b Hb => Hu b (or_intror Hb)) r1 rest) as [r' ->];
      [now symmetry|].
    exists r'. now rewrite append_cons.
Qed.

(** No white-space character is left in the result, also when a text
    without any, which starts with an underscore, follows it. *)
Lemma underscore_spaces_spaceless (t : string) :
  ~ has_space (String "_" t) ->
  forall n s, (String.length s <= n)%nat ->
    ~ has_space (underscore_spaces s ++ String "_" t).
Proof.
  intros Ht. induction n as [|n IH]; intros s Hlen.
  - destruct s; [exact Ht|simpl in Hlen; lia].
  - destruct s as [|c r]; [exact Ht|]. simpl in Hlen.
    cbn [underscore_spaces].
    destruct (Excel.space_width (String c r)) as [|[|[|k]]] eqn:E;
      rewrite append_cons, has_space_cons.
    + intros [H|H]; [|apply (IH r); [lia|exact H]].
      apply space_width_split in H as (ws & rest & Hin & Heq).
      destruct (white_space_bytes ws Hin) as [Hws Hno].
      destruct ws as [|a u]; [simpl in Hws; lia|].
      rewrite append_cons in Heq. injection Heq as -> Heq.
      apply underscore_spaces_prefix in Heq as [r' ->].
      * rewrite <- append_cons, (space_width_space _ r' Hin) in E.
        simpl in E. discriminate.
      * intros b Hb ->. apply Hno. now right.
    + rewrite space_width_underscore. intros [H|H]; [congruence|].
      apply (IH (Excel.trim_start r)); [|exact H].
      pose proof (trim_start_length r). lia.
    + rewrite space_width_underscore. intros [H|H]; [congruence|].
      apply (IH (Excel.trim_start (Excel.tail r))); [|exact H].
      pose proof (trim_start_length (Excel.tail r)).
      pose proof (tail_length r). lia.
    + rewrite space_width_underscore. intros [H|H]; [congruence|].
      apply (IH (Excel.trim_start (Excel.tail (Excel.tail r)))); [|exact H].
      pose proof (trim_start_length (Excel.tail (Excel.tail r))).
      pose proof (tail_length (Excel.tail r)).
      pose proof (tail_length r). lia.
Qed.

Lemma underscore_spaces_id (s : string) :
  ~ has_space s -> underscore_spaces s = s.
Proof.
  induction s as [|c s IH]; intros H; [reflexivity|].
  cbn [underscore_spaces].
  destruct (Nat.eq_dec (Excel.space_width (String c s)) 0) as [E|E].
  - rewrite E. f_equal. apply IH. intros Hs. apply H, has_space_cons.
    now right.
  - exfalso. apply H, has_space_cons. now left.
Qed.

End NameOfFile.

(** X16: the name of the exported sheet is the project name with each run
    of white space turned into one underscore, followed by
    "_TestPlan.xlsx": it holds no white-space character (of those [\s]
    matches), and a project name without any is kept as it is. *)
Theorem export_fileName_spaceless (project : ValidationProject.t) :
  ~ has_space (PlanView.export_fileName project)
  /\ (~ has_space (ValidationProject.name project) ->
      PlanView.export_fileName project
      = (ValidationProject.name project ++ "_TestPlan.xlsx")%string).
Proof.
  unfold PlanView.export_fileName. split.
  - apply (underscore_spaces_spaceless "TestPlan.xlsx"
             ltac:(intros H;
                   repeat (apply has_space_cons in H as [H|H];
                           [vm_compute in H; congruence|]);
                   now apply has_space_empty in H)
             (String.length (ValidationProject.name project))).
    lia.
  - intros H. now rewrite underscore_spaces_id.
Qed.

Lemma export_fileName_spaceless_witness :
  PlanView.export_fileName (project_of Draft []) = "Login_TestPlan.xlsx"%string.
Proof.
  refine (proj2 (export_fileName_spaceless (project_of Draft [])) _).
  intros H. simpl in H.
  repeat (apply has_space_cons in H as [H|H]; [vm_compute in H; congruence|]).
  now apply has_space_empty in H.
Defined.

Example export_fileName_nbsp :
  PlanView.export_fileName
    (ValidationProject.mk "PROJ-1" ("Login" ++ nbsp ++ " flow") "1.0.0" Draft
       "2024-01-01T00:00:00.000Z" [] [] [] None)
  = "Login_flow_TestPlan.xlsx"%string.
Proof. reflexivity. Qed.

(** ** The chat *)

(** X17: sending a message never rewrites the transcript: it appends the
    user message, with the input as typed, and then one model message: the
    reply, a fixed line when the reply has no text, or a fixed error line
    when the call fails; the input is cleared.  A send with an input that
    is empty or made of white space only, or without a session, changes
    nothing. *)
Theorem send_appends_two_messages {Exn : Type} (now later : Z)
    (reply : Exn + option string) (l : ChatView.Local) :
  (~ Excel.blank (ChatView.input l) -> ChatView.session l = true ->
   exists modelMsg,
     ChatView.messages (ChatView.handleSend now later reply l)
     = ChatView.messages l ++ [mkMsg user (ChatView.input l) now; modelMsg]
     /\ role modelMsg = model
     /\ text modelMsg <> ""%string
     /\ (forall t, reply = inr (Some t) -> t <> ""%string -> text modelMsg = t)
     /\ ChatView.input (ChatView.handleSend now later reply l) = ""%string)
  /\ (Excel.blank (ChatView.input l) \/ ChatView.session l = false ->
      ChatView.handleSend now later reply l = l).
Proof.
  unfold ChatView.handleSend. split.
  - intros Hin Hs. rewrite Hs.
    destruct (String.eqb_spec (Excel.trim (ChatView.input l)) "")
      as [E|_]; [now apply trim_empty in E|].
    simpl. eexists. rewrite <- app_assoc. split; [reflexivity|].
    destruct reply as [e|[[|c t]|]]; simpl; repeat split;
      try discriminate; intros t' [= <-]; try reflexivity; contradiction.
  - intros [H | ->]; [|now rewrite orb_true_r].
    apply trim_empty in H. now rewrite H.
Qed.

Lemma send_appends_two_messages_witness :
  exists modelMsg,
    ChatView.messages
      (ChatView.handleSend (Exn := Gateway.Exn) 1700000001000 1700000002000
         (inr None) chat_local)
    = ChatView.messages chat_local
      ++ [mkMsg user "Login must work" 1700000001000; modelMsg]
    /\ role modelMsg = model.
Proof.
  destruct (proj1 (send_appends_two_messages (Exn := Gateway.Exn)
                     1700000001000 1700000002000 (inr None) chat_local))
    as (m & Hm & Hrole & _).
  - intros H. apply trim_empty in H. vm_compute in H. discriminate.
  - reflexivity.
  - exists m. split; [exact Hm|exact Hrole].
Defined.

(** An input made of an ideographic space and a no-break space is not
    sent. *)
Example send_wide_space :
  ChatView.handleSend (Exn := Gateway.Exn) 1700000001000 1700000002000
    (inr None)
    (ChatView.mkLocal [] (ideographic_space ++ nbsp) true)
  = ChatView.mkLocal [] (ideographic_space ++ nbsp) true.
Proof. reflexivity. Qed.

(** ** More on the execution simulator *)

Section RunFacts.
Import Runner.
Variable generateScreenshot :
  CaseStatus -> string -> option Z -> option string -> string.
Variable rng : nat -> Q.
Variable consoleLogs : list string.

Local Abbreviation run_case := (Runner.run_case generateScreenshot rng consoleLogs).
Local Abbreviation finished := (Runner.finished generateScreenshot rng consoleLogs).
Local Abbreviation for_each := (Runner.for_each generateScreenshot rng consoleLogs).
Local Abbreviation runTests := (Runner.runTests generateScreenshot rng consoleLogs).

(** The turns for the indices [k, ..., k + n - 1] leave each case they run
    as [finished] says, and every other case as it was. *)
Lemma for_each_outcome (cases0 : list TestCase.t) (n k : nat) (s : St) :
  (forall j, (k <= j)%nat -> updatedCases s !! j = cases0 !! j) ->
  exists cases k' evs,
    for_each (seq k n) s = (tt, mkSt cases k' (trace s ++ evs))
    /\ length cases = length (updatedCases s)
    /\ (forall j, (j < k)%nat -> cases !! j = updatedCases s !! j)
    /\ (forall j, (k + n <= j)%nat -> cases !! j = cases0 !! j)
    /\ (forall j tc, (k <= j < k + n)%nat -> cases0 !! j = Some tc ->
          if to_run tc then exists d, cases !! j = Some (finished tc d)
          else cases !! j = Some tc).
Proof.
  revert k s. induction n as [|n IH]; intros k s Hrest.
  - exists (updatedCases s), (drawn s), []. simpl. rewrite app_nil_r.
    destruct s; simpl in *. split; [reflexivity|]. split; [reflexivity|].
    split; [reflexivity|]. split; [intros j Hj; apply Hrest; lia|].
    intros j tc Hj. lia.
  - simpl. unfold bind. unfold Runner.turn at 1.
    destruct (updatedCases s !! k) as [tck|] eqn:Hk.
    + assert (Hk0 : cases0 !! k = Some tck) by (rewrite <- Hrest; [exact Hk|lia]).
      destruct (bool_decide (TestCase.status tck = PASSED)) eqn:Hp.
      * destruct (IH (S k) s) as (cases & k' & evs & Heq & Hlen & Hlow & Hhigh & Hrun).
        { intros j Hj. apply Hrest. lia. }
        rewrite Heq. exists cases, k', evs.
        split; [reflexivity|]. split; [exact Hlen|].
        split; [intros j Hj; apply Hlow; lia|].
        split; [intros j Hj; apply Hhigh; lia|].
        intros j tc Hj Hj0.
        destruct (Nat.eq_dec j k) as [->|Hjk].
        -- assert (tc = tck) as -> by congruence.
           unfold to_run. rewrite Hp. simpl. rewrite Hlow by lia. exact Hk.
        -- apply (Hrun j tc); [lia|exact Hj0].
      * destruct (run_case_spec generateScreenshot rng consoleLogs k tck s)
          as (k1 & evs1 & Heq1 & _ & _).
        rewrite Heq1.
        match goal with |- context [Runner.for_each _ _ _ _ ?s1] =>
          destruct (IH (S k) s1)
            as (cases & k' & evs & Heq & Hlen & Hlow & Hhigh & Hrun) end.
        { intros j Hj. simpl. rewrite list_lookup_insert_ne by lia.
          apply Hrest. lia. }
        rewrite Heq. simpl in *. exists cases, k', (evs1 ++ evs).
        rewrite app_assoc. split; [reflexivity|].
        rewrite length_insert in Hlen. split; [exact Hlen|].
        split.
        { intros j Hj. rewrite Hlow by lia.
          now rewrite list_lookup_insert_ne by lia. }
        split; [intros j Hj; apply Hhigh; lia|].
        intros j tc Hj Hj0.
        destruct (Nat.eq_dec j k) as [->|Hjk].
        -- assert (tc = tck) as -> by congruence.
           unfold to_run. rewrite Hp. simpl. exists (drawn s).
           rewrite Hlow by lia. apply list_lookup_insert_eq.
           apply lookup_lt_is_Some. eauto.
        -- apply (Hrun j tc); [lia|exact Hj0].
    + assert (Hk0 : cases0 !! k = None) by (rewrite <- Hrest; [exact Hk|lia]).
      apply lookup_ge_None in Hk0.
      destruct (IH (S k) s) as (cases & k' & evs & Heq & Hlen & Hlow & Hhigh & Hrun).
      { intros j Hj. apply Hrest. lia. }
      rewrite Heq. exists cases, k', evs.
      split; [reflexivity|]. split; [exact Hlen|].
      split; [intros j Hj; apply Hlow; lia|].
      split; [intros j Hj; apply Hhigh; lia|].
      intros j tc Hj Hj0. apply lookup_lt_Some in Hj0. lia.
Qed.

(** What a run leaves of each case: the case itself when the run takes the
    early return or skips it, and what [finished] says when it runs it. *)
Lemma runTests_cases (project : ValidationProject.t) :
  let cases := ValidationProject.testCases project in
  length (testCases_state (runTests project)) = length cases
  /\ (forall j tc, cases !! j = Some tc ->
        if (pendingCount_of cases =? 0)%nat || negb (to_run tc)
        then testCases_state (runTests project) !! j = Some tc
        else exists d,
               testCases_state (runTests project) !! j = Some (finished tc d))
  /\ (forall p, update (runTests project) = Some p ->
        pendingCount_of cases <> 0%nat
        /\ p = ValidationProject.with_cases_status project
                 (testCases_state (runTests project))
                 (finalStatus_of
                    (failedCount_of (testCases_state (runTests project)))
                    (length (testCases_state (runTests project))))).
Proof.
  intros cases. unfold Runner.runTests. fold cases.
  destruct (Nat.eqb_spec (pendingCount_of cases) 0) as [E|Hne].
  - simpl. split; [reflexivity|]. split; [tauto|discriminate].
  - match goal with |- context [Runner.for_each _ _ _ _ ?s0] =>
      destruct (for_each_outcome cases (length cases) 0 s0)
        as (cs & k & evs & Heq & Hlen & _ & _ & Hrun) end.
    { reflexivity. }
    rewrite Heq. simpl in *. split; [exact Hlen|]. split.
    + intros j tc Hj. specialize (Hrun j tc).
      destruct (to_run tc); simpl; apply Hrun; try exact Hj;
        (split; [lia|apply lookup_lt_Some in Hj; lia]).
    + intros p [= <-]. split; [exact Hne|reflexivity].
Qed.

(** The record of a case that was run. *)
Lemma finished_facts (tc : TestCase.t) (d : nat) :
  let tc' := finished tc d in
  TestCase.id tc' = TestCase.id tc
  /\ TestCase.requirementId tc' = TestCase.requirementId tc
  /\ TestCase.title tc' = TestCase.title tc
  /\ TestCase.steps tc' = TestCase.steps tc
  /\ (TestCase.status tc' = FAILED -> is_Some (TestCase.screenshotUrl tc'))
  /\ (TestCase.status tc' = PASSED ->
      TestCase.failedStepNumber tc' = None
      /\ TestCase.failureReason tc' = None)
  /\ (forall z, TestCase.failedStepNumber tc' = Some z ->
        TestCase.status tc' = FAILED
        /\ exists step, In step (TestCase.steps tc) /\ stepNumber step = z)
  /\ (forall reason, TestCase.failureReason tc' = Some reason ->
        In reason reasons /\ is_Some (TestCase.failedStepNumber tc'))
  /\ (exists line, TestCase.logs tc' = line :: slice_last 5 consoleLogs).
Proof.
  unfold Runner.finished. cbn [TestCase.id TestCase.requirementId
    TestCase.title TestCase.steps TestCase.status TestCase.logs
    TestCase.screenshotUrl TestCase.failedStepNumber TestCase.failureReason].
  split; [reflexivity|]. split; [reflexivity|]. split; [reflexivity|].
  split; [reflexivity|].
  destruct (gt (rng d) 0.3) eqn:Esucc; cbn [stop_step fmap option_fmap option_map].
  - split; [discriminate|]. split; [now split|].
    split; [discriminate|]. split; [discriminate|]. eexists; reflexivity.
  - split; [intros _; eexists; reflexivity|]. split; [discriminate|].
    split; [|split].
    + intros z Hz. split; [reflexivity|].
      destruct (List.find _ (TestCase.steps tc)) as [step|] eqn:Hfind;
        [|discriminate].
      injection Hz as <-. exists step. split; [|reflexivity].
      now apply find_some in Hfind.
    + intros reason Hr.
      destruct (List.find _ (TestCase.steps tc)) as [step|];
        [|discriminate].
      split; [|eexists; reflexivity].
      unfold at_index in Hr.
      destruct (floor_times _ _ <? 0)%Z; [discriminate|].
      apply list_elem_of_In. eapply list_elem_of_lookup_2. exact Hr.
    + eexists; reflexivity.
Qed.

End RunFacts.

(** X18: a run changes neither the number nor the order of the cases, nor
    the identifier, requirement, title or steps of any case; the project
    it hands back differs from the one it was given in the cases and the
    status only. *)
Theorem run_keeps_case_identity gs rng cl (project : ValidationProject.t)
    (j : nat) (tc : TestCase.t) :
  ValidationProject.testCases project !! j = Some tc ->
  let o := Runner.runTests gs rng cl project in
  length (Runner.testCases_state o)
  = length (ValidationProject.testCases project)
  /\ (exists tc',
        Runner.testCases_state o !! j = Some tc'
        /\ TestCase.id tc' = TestCase.id tc
        /\ TestCase.requirementId tc' = TestCase.requirementId tc
        /\ TestCase.title tc' = TestCase.title tc
        /\ TestCase.steps tc' = TestCase.steps tc)
  /\ (forall p, Runner.update o = Some p ->
        ValidationProject.testCases p = Runner.testCases_state o
        /\ ValidationProject.id p = ValidationProject.id project
        /\ ValidationProject.name p = ValidationProject.name project
        /\ ValidationProject.platformVersion p
           = ValidationProject.platformVersion project
        /\ ValidationProject.createdAt p = ValidationProject.createdAt project
        /\ ValidationProject.requirements p
           = ValidationProject.requirements project
        /\ ValidationProject.chatHistory p
           = ValidationProject.chatHistory project
        /\ ValidationProject.environmentConfig p
           = ValidationProject.environmentConfig project).
Proof.
  intros Hj o. subst o.
  destruct (runTests_cases gs rng cl project) as (Hlen & Hcases & Hup).
  split; [exact Hlen|]. split.
  - specialize (Hcases j tc Hj).
    destruct (_ || _).
    + exists tc. now repeat split.
    + destruct Hcases as [d Hd]. eexists. split; [exact Hd|].
      destruct (finished_facts gs rng cl tc d) as (H1 & H2 & H3 & H4 & _).
      now repeat split.
  - intros p Hp. destruct (Hup p Hp) as [_ ->]. now repeat split.
Qed.

Lemma run_keeps_case_identity_witness :
  exists tc',
    Runner.testCases_state
      (Runner.runTests blank_screenshot draws_low []
         (project_of InProgress [case_pending; case_passed])) !! 0%nat
    = Some tc'
    /\ TestCase.id tc' = "TC-1-2"%string
    /\ TestCase.steps tc' = TestCase.steps case_pending.
Proof.
  destruct (run_keeps_case_identity blank_screenshot draws_low []
              (project_of InProgress [case_pending; case_passed])
              0 case_pending eq_refl)
    as (_ & (tc' & Hj & Hid & _ & _ & Hsteps) & _).
  exists tc'. split; [exact Hj|]. split; [exact Hid|exact Hsteps].
Defined.

(** X19: in a run that makes a pass, the record of every case that was
    not Passed at the start is coherent at the end: it is Passed or
    Failed; a Failed case has a screenshot; a Passed case has neither a
    failed step number nor a failure reason; a failed step number, when
    there is one, is the number of a step of the case, and the case is
    Failed; a failure reason, when there is one, is one of the five
    reasons, and comes with a failed step number. *)
Theorem run_records_are_coherent gs rng cl (project : ValidationProject.t)
    (j : nat) (tc : TestCase.t) :
  Runner.pendingCount_of (ValidationProject.testCases project) <> 0%nat ->
  ValidationProject.testCases project !! j = Some tc ->
  TestCase.status tc <> PASSED ->
  exists tc',
    Runner.testCases_state (Runner.runTests gs rng cl project) !! j = Some tc'
    /\ (TestCase.status tc' = PASSED \/ TestCase.status tc' = FAILED)
    /\ (TestCase.status tc' = FAILED -> is_Some (TestCase.screenshotUrl tc'))
    /\ (TestCase.status tc' = PASSED ->
        TestCase.failedStepNumber tc' = None
        /\ TestCase.failureReason tc' = None)
    /\ (forall z, TestCase.failedStepNumber tc' = Some z ->
          TestCase.status tc' = FAILED
          /\ exists step, In step (TestCase.steps tc) /\ stepNumber step = z)
    /\ (forall reason, TestCase.failureReason tc' = Some reason ->
          In reason Runner.reasons
          /\ is_Some (TestCase.failedStepNumber tc')).
Proof.
  intros Hpending Hj Hne.
  destruct (runTests_cases gs rng cl project) as (_ & Hcases & _).
  specialize (Hcases j tc Hj).
  apply Nat.eqb_neq in Hpending. rewrite Hpending in Hcases.
  unfold Runner.to_run in Hcases.
  rewrite bool_decide_eq_false_2 in Hcases by exact Hne. simpl in Hcases.
  destruct Hcases as [d Hd]. eexists. split; [exact Hd|].
  destruct (finished_facts gs rng cl tc d)
    as (_ & _ & _ & _ & H5 & H6 & H7 & H8 & _).
  split; [apply finished_status|]. split; [exact H5|].
  split; [exact H6|]. split; [exact H7|exact H8].
Qed.

Lemma run_records_are_coherent_witness :
  exists tc',
    Runner.testCases_state
      (Runner.runTests blank_screenshot draws_low []
         (project_of InProgress [case_pending; case_passed])) !! 0%nat
    = Some tc'
    /\ (TestCase.status tc' = FAILED -> is_Some (TestCase.screenshotUrl tc')).
Proof.
  destruct (run_records_are_coherent blank_screenshot draws_low []
              (project_of InProgress [case_pending; case_passed])
              0 case_pending)
    as (tc' & Hj & _ & Hshot & _).
  - vm_compute. discriminate.
  - reflexivity.
  - discriminate.
  - exists tc'. split; [exact Hj|exact Hshot].
Defined.

Section AfterPass.

Lemma count_zero_Forall {A} (p : A -> bool) (l : list A) :
  length (List.filter p l) = 0%nat <-> Forall (fun x => p x = false) l.
Proof.
  induction l as [|x l IH]; simpl.
  - split; [constructor|reflexivity].
  - destruct (p x) eqn:E; simpl.
    + split; [discriminate|]. intros H. inversion H; congruence.
    + rewrite IH. split; [now constructor|]. intros H. now inversion H.
Qed.

Lemma passed_failed_total (l : list TestCase.t) :
  Forall (fun tc => TestCase.status tc = PASSED \/ TestCase.status tc = FAILED) l ->
  (length (List.filter (fun tc => bool_decide (TestCase.status tc = PASSED)) l)
   + length (List.filter (fun tc => bool_decide (TestCase.status tc = FAILED)) l)
   = length l)%nat.
Proof.
  induction 1 as [|tc l [H|H] _ IH]; [reflexivity| |]; simpl; rewrite H; simpl; lia.
Qed.

(** After a pass every case is Passed or Failed. *)
Lemma pass_settles_cases gs rng cl (project p : ValidationProject.t) :
  Runner.update (Runner.runTests gs rng cl project) = Some p ->
  Forall (fun tc => TestCase.status tc = PASSED \/ TestCase.status tc = FAILED)
         (ValidationProject.testCases p).
Proof.
  intros Hp.
  destruct (runTests_cases gs rng cl project) as (Hlen & Hcases & Hup).
  destruct (Hup p Hp) as [Hpending ->]. simpl.
  apply Forall_lookup. intros j tc' Hj.
  assert (Hlt : (j < length (ValidationProject.testCases project))%nat).
  { rewrite <- Hlen. apply lookup_lt_is_Some. eauto. }
  apply lookup_lt_is_Some in Hlt as [tc Htc].
  specialize (Hcases j tc Htc).
  apply Nat.eqb_neq in Hpending. rewrite Hpending in Hcases. simpl in Hcases.
  unfold Runner.to_run in Hcases.
  destruct (bool_decide (TestCase.status tc = PASSED)) eqn:E; simpl in Hcases.
  - apply bool_decide_eq_true in E. left. congruence.
  - destruct Hcases as [d Hd]. rewrite Hd in Hj. injection Hj as <-.
    apply finished_status.
Qed.

End AfterPass.

(** X20: the project a pass hands back has no Pending and no Running case
    left, so a run started on it again, whatever its draws, takes the
    early return: it shows no snapshot, hands nothing back and leaves the
    cases as they are.  Results change again only after a case is put back
    to Pending. *)
Theorem second_run_does_nothing gs rng cl gs' rng' cl'
    (project p : ValidationProject.t) :
  Runner.update (Runner.runTests gs rng cl project) = Some p ->
  Forall (fun tc => TestCase.status tc = PASSED \/ TestCase.status tc = FAILED)
         (ValidationProject.testCases p)
  /\ Runner.pendingCount_of (ValidationProject.testCases p) = 0%nat
  /\ Runner.update (Runner.runTests gs' rng' cl' p) = None
  /\ Runner.testCases_state (Runner.runTests gs' rng' cl' p)
     = ValidationProject.testCases p
  /\ Runner.snapshots (Runner.events (Runner.runTests gs' rng' cl' p)) = [].
Proof.
  intros Hp. pose proof (pass_settles_cases gs rng cl project p Hp) as Hall.
  assert (Hzero : Runner.pendingCount_of (ValidationProject.testCases p) = 0%nat).
  { unfold Runner.pendingCount_of. apply count_zero_Forall.
    eapply Forall_impl; [exact Hall|]. intros tc [H|H]; simpl in *;
      apply bool_decide_eq_false_2; congruence. }
  split; [exact Hall|]. split; [exact Hzero|].
  destruct (runTests_no_pending gs' rng' cl' p Hzero) as (H1 & H2 & H3 & _).
  now repeat split.
Qed.

Lemma second_run_does_nothing_witness :
  exists p,
    Runner.update
      (Runner.runTests blank_screenshot draws_low []
         (project_of InProgress [case_pending; case_passed])) = Some p
    /\ Runner.update (Runner.runTests blank_screenshot draws_mid [] p) = None.
Proof.
  destruct (Runner.update
              (Runner.runTests blank_screenshot draws_low []
                 (project_of InProgress [case_pending; case_passed])))
    as [p|] eqn:Hp; [|vm_compute in Hp; discriminate].
  exists p. split; [reflexivity|].
  exact (proj1 (proj2 (proj2
           (second_run_does_nothing blank_screenshot draws_low []
              blank_screenshot draws_mid []
              (project_of InProgress [case_pending; case_passed]) p Hp)))).
Defined.

(** X21: in the project a pass hands back, the Passed and the Failed
    cases of the report add up to all the cases, and the status says
    exactly how they compare: Validated if and only if every case is
    Passed, Failed if and only if more than half are Failed, Partly
    Validated otherwise; it is never Draft or In Progress. *)
Theorem report_tallies_match_status gs rng cl (project p : ValidationProject.t) :
  Runner.update (Runner.runTests gs rng cl project) = Some p ->
  (Report.passed p + Report.failed p = Report.total p)%nat
  /\ (ValidationProject.status p = Validated
      <-> Report.passed p = Report.total p)
  /\ (ValidationProject.status p = Failed
      <-> (Report.total p < 2 * Report.failed p)%nat)
  /\ (ValidationProject.status p = PartlyValidated
      <-> (1 <= Report.failed p /\ 2 * Report.failed p <= Report.total p)%nat)
  /\ ValidationProject.status p <> Draft
  /\ ValidationProject.status p <> InProgress.
Proof.
  intros Hp.
  pose proof (passed_failed_total _ (pass_settles_cases gs rng cl project p Hp))
    as Hsum.
  destruct (runTests_cases gs rng cl project) as (_ & _ & Hup).
  destruct (Hup p Hp) as [_ Heq].
  assert (Hstatus : ValidationProject.status p
                    = Runner.finalStatus_of (Report.failed p) (Report.total p)).
  { rewrite Heq. reflexivity. }
  unfold Report.passed, Report.failed, Report.total in *.
  set (f := length (List.filter
                      (fun tc => bool_decide (TestCase.status tc = FAILED))
                      (ValidationProject.testCases p))) in *.
  set (t := length (ValidationProject.testCases p)) in *.
  destruct (finalStatus_of_rule f t) as (Hv & Hpv & Hf).
  rewrite Hstatus. split; [exact Hsum|].
  destruct (Nat.eq_dec f 0) as [E0|E0];
    [rewrite (Hv E0)
    |destruct (Nat.le_gt_cases (2 * f) t) as [Hle|Hgt];
     [rewrite (Hpv ltac:(lia) Hle)|rewrite (Hf Hgt)]];
    repeat split; intros; try discriminate; try lia.
Qed.

Lemma report_tallies_match_status_witness :
  exists p,
    Runner.update
      (Runner.runTests blank_screenshot draws_mid []
         (project_of InProgress [case_pending; case_passed])) = Some p
    /\ (Report.passed p + Report.failed p = Report.total p)%nat
    /\ ValidationProject.status p = Validated.
Proof.
  destruct (Runner.update
              (Runner.runTests blank_screenshot draws_mid []
                 (project_of InProgress [case_pending; case_passed])))
    as [p|] eqn:Hp; [|vm_compute in Hp; discriminate].
  exists p. split; [reflexivity|].
  destruct (report_tallies_match_status blank_screenshot draws_mid []
              (project_of InProgress [case_pending; case_passed]) p Hp)
    as (Hsum & Hvalidated & _).
  split; [exact Hsum|]. apply Hvalidated.
  vm_compute in Hp. injection Hp as <-. reflexivity.
Defined.

(** ** The view controller *)

Section FlowFacts.

(** In a run that makes a pass, every case that is not Passed is shown
    Running in some snapshot. *)
Lemma pass_marks_running gs rng cl (project : ValidationProject.t)
    (j : nat) (tc : TestCase.t) :
  Runner.pendingCount_of (ValidationProject.testCases project) <> 0%nat ->
  ValidationProject.testCases project !! j = Some tc ->
  TestCase.status tc <> PASSED ->
  exists snap,
    In snap (Runner.snapshots (Runner.events (Runner.runTests gs rng cl project)))
    /\ snap !! j = Some (TestCase.with_status tc RUNNING).
Proof.
  intros Hpending Hj Hne. unfold Runner.runTests.
  destruct (Nat.eqb_spec
              (Runner.pendingCount_of (ValidationProject.testCases project)) 0)
    as [E|_]; [contradiction|].
  match goal with |- context [Runner.for_each _ _ _ _ ?s0] =>
    destruct (for_each_progress gs rng cl (ValidationProject.testCases project)
                (length (ValidationProject.testCases project)) 0 s0)
      as (cs & k & evs & Heq & _ & _ & _ & _ & Hrun) end.
  { reflexivity. }
  rewrite Heq. simpl.
  destruct (Hrun j tc) as [(snap & Hin & Hsnap) _];
    [split; [lia|apply lookup_lt_Some in Hj; simpl; lia]|exact Hj|exact Hne|].
  exists snap. split; [|exact Hsnap].
  unfold Runner.snapshots in *. rewrite !omap_app. simpl.
  now rewrite app_nil_r.
Qed.

(** A pass hands back a project whose status is one of the three a pass
    computes. *)
Lemma aggregate_status_rule gs rng cl (project : ValidationProject.t) :
  Runner.pendingCount_of (ValidationProject.testCases project) <> 0%nat ->
  exists p,
    Runner.update (Runner.runTests gs rng cl project) = Some p
    /\ (ValidationProject.status p = Validated
        \/ ValidationProject.status p = PartlyValidated
        \/ ValidationProject.status p = Failed).
Proof.
  intros Hpending. unfold Runner.runTests.
  destruct (Nat.eqb_spec
              (Runner.pendingCount_of (ValidationProject.testCases project)) 0)
    as [E|_]; [contradiction|].
  destruct (Runner.for_each _ _ _ _ _) as [u st]. simpl.
  eexists. split; [reflexivity|]. simpl. unfold Runner.finalStatus_of.
  destruct (Runner.gt _ _); [tauto|]. destruct (_ <? _)%nat; tauto.
Qed.

Lemma pending_after_fix (project : ValidationProject.t)
    (selectedTest : TestCase.t) (j : nat) (tc : TestCase.t) :
  ValidationProject.testCases project !! j = Some tc ->
  TestCase.id tc = TestCase.id selectedTest ->
  Runner.pendingCount_of (Report.updatedTestCases project selectedTest)
  <> 0%nat.
Proof.
  intros Hj Hid Hzero. unfold Runner.pendingCount_of in Hzero.
  apply count_zero_Forall in Hzero.
  rewrite Forall_lookup in Hzero.
  specialize (Hzero j (Report.reset selectedTest)).
  simpl in Hzero. 
  assert (H : Report.updatedTestCases project selectedTest !! j
              = Some (Report.reset selectedTest)).
  { rewrite updatedTestCases_lookup, Hj. simpl.
    now rewrite Hid, String.eqb_refl. }
  specialize (Hzero H). discriminate.
Qed.

End FlowFacts.

(** X22: starting the execution makes the active project In Progress and
    shows the run.  When a case is Pending, the end of the run shows the
    report with the project of the same identifier active and stored, its
    status Validated, Partly Validated or Failed, so that choosing it in
    the history later shows its report.  When no case is Pending, the run
    hands nothing back and the project is left In Progress under the
    report. *)
Theorem start_run_finish gs rng cl (s : App.State)
    (project : ValidationProject.t) :
  App.activeProject s = Some project ->
  let s1 := App.handleStartExecution s in
  let running := ValidationProject.with_status project InProgress in
  let s2 := App.execution_finished (Runner.runTests gs rng cl running) s1 in
  App.activeProject s1 = Some running
  /\ App.currentView s1 = EXECUTION
  /\ App.currentView s2 = REPORT
  /\ (Runner.pendingCount_of (ValidationProject.testCases project) <> 0%nat ->
      exists p,
        App.activeProject s2 = Some p
        /\ App.history s2 !! ValidationProject.id project = Some p
        /\ ValidationProject.id p = ValidationProject.id project
        /\ (ValidationProject.status p = Validated
            \/ ValidationProject.status p = PartlyValidated
            \/ ValidationProject.status p = Failed)
        /\ App.currentView (App.handleHistorySelect p s2) = REPORT)
  /\ (Runner.pendingCount_of (ValidationProject.testCases project) = 0%nat ->
      App.activeProject s2 = Some running
      /\ ValidationProject.status running = InProgress).
Proof.
  intros Hactive s1 running s2. subst s2 s1.
  unfold App.handleStartExecution. rewrite Hactive. fold running.
  split; [reflexivity|]. split; [reflexivity|]. split; [reflexivity|].
  split.
  - intros Hpending.
    destruct (aggregate_status_rule gs rng cl running) as (p & Hp & Hstatus).
    { exact Hpending. }
    unfold App.execution_finished. rewrite Hp.
    exists p. split; [reflexivity|].
    destruct (runTests_cases gs rng cl running) as (_ & _ & Hup).
    destruct (Hup p Hp) as [_ Heq].
    assert (Hid : ValidationProject.id p = ValidationProject.id project)
      by (rewrite Heq; reflexivity).
    split; [simpl; rewrite <- Hid; apply lookup_insert_eq|].
    split; [exact Hid|]. split; [exact Hstatus|].
    unfold App.handleHistorySelect.
    destruct Hstatus as [H|[H|H]]; rewrite H; reflexivity.
  - intros Hzero.
    destruct (runTests_no_pending gs rng cl running Hzero) as (Hnone & _).
    unfold App.execution_finished. rewrite Hnone. now split.
Qed.

Lemma start_run_finish_witness :
  App.currentView
    (App.execution_finished
       (Runner.runTests blank_screenshot draws_mid []
          (ValidationProject.with_status
             (project_of Draft [case_pending]) InProgress))
       (App.handleStartExecution
          (state_with REVIEW_PLAN (project_of Draft [case_pending]))))
  = REPORT.
Proof.
  refine (proj1 (proj2 (proj2
            (start_run_finish blank_screenshot draws_mid []
               (state_with REVIEW_PLAN (project_of Draft [case_pending]))
               (project_of Draft [case_pending]) eq_refl)))).
Defined.

(** X23: saving a fix for a case of the active project always leads to a
    run that makes a pass: the fixed case is Pending, so the run does not
    take the early return, and its end shows the report with a status a
    pass computes.  That pass runs again every case that is not Passed,
    also the Failed cases no fix was saved for. *)
Theorem fix_then_retry_runs gs rng cl (s : App.State)
    (project : ValidationProject.t) (selectedTest : TestCase.t)
    (j : nat) (tc : TestCase.t) :
  App.activeProject s = Some project ->
  ValidationProject.testCases project !! j = Some tc ->
  TestCase.id tc = TestCase.id selectedTest ->
  let s1 := (App.fix_saved (Some selectedTest) s).2 in
  let fixed := Report.saved project selectedTest in
  let o := Runner.runTests gs rng cl fixed in
  App.activeProject s1 = Some fixed
  /\ App.currentView s1 = EXECUTION
  /\ Runner.pendingCount_of (ValidationProject.testCases fixed) <> 0%nat
  /\ (exists p,
        Runner.update o = Some p
        /\ App.activeProject (App.execution_finished o s1) = Some p
        /\ App.currentView (App.execution_finished o s1) = REPORT
        /\ (ValidationProject.status p = Validated
            \/ ValidationProject.status p = PartlyValidated
            \/ ValidationProject.status p = Failed))
  /\ (forall k other,
        ValidationProject.testCases project !! k = Some other ->
        TestCase.id other <> TestCase.id selectedTest ->
        TestCase.status other = FAILED ->
        exists snap,
          In snap (Runner.snapshots (Runner.events o))
          /\ snap !! k = Some (TestCase.with_status other RUNNING)).
Proof.
  intros Hactive Hj Hid s1 fixed o. subst s1 o.
  rewrite (fix_saved_state selectedTest project s Hactive).
  fold fixed. cbn [snd App.activeProject App.currentView].
  assert (Hpending : Runner.pendingCount_of (ValidationProject.testCases fixed)
                     <> 0%nat).
  { subst fixed. rewrite saved_testCases.
    now apply (pending_after_fix project selectedTest j tc). }
  split; [reflexivity|]. split; [reflexivity|]. split; [exact Hpending|].
  split.
  - destruct (aggregate_status_rule gs rng cl fixed Hpending)
      as (p & Hp & Hstatus).
    exists p. split; [exact Hp|]. unfold App.execution_finished.
    rewrite Hp. now repeat split.
  - intros k other Hk Hne Hfailed.
    apply (pass_marks_running gs rng cl fixed k other Hpending).
    + subst fixed. rewrite saved_testCases, updatedTestCases_lookup, Hk.
      simpl.
      destruct (String.eqb_spec (TestCase.id other) (TestCase.id selectedTest))
        as [E|_]; [contradiction|reflexivity].
    + rewrite Hfailed. discriminate.
Qed.

Lemma fix_then_retry_runs_witness :
  Runner.pendingCount_of
    (ValidationProject.testCases
       (Report.saved (project_of PartlyValidated [case_two_steps; case_passed])
          case_two_steps)) <> 0%nat.
Proof.
  refine (proj1 (proj2 (proj2
            (fix_then_retry_runs blank_screenshot draws_mid []
               (state_with REPORT
                  (project_of PartlyValidated [case_two_steps; case_passed]))
               (project_of PartlyValidated [case_two_steps; case_passed])
               case_two_steps 0 case_two_steps eq_refl eq_refl eq_refl)))).
Defined.

(** X24: choosing a project in the history makes it the active project
    without writing to the store, and shows the report exactly when its
    status is Validated, Partly Validated or Failed; a Draft and an In
    Progress project open in the plan review, whatever their cases are. *)
Theorem history_select_view (project : ValidationProject.t) (s : App.State) :
  let s' := App.handleHistorySelect project s in
  App.activeProject s' = Some project
  /\ App.history s' = App.history s
  /\ (App.currentView s' = REPORT
      <-> ValidationProject.status project = Validated
          \/ ValidationProject.status project = PartlyValidated
          \/ ValidationProject.status project = Failed)
  /\ (App.currentView s' = REVIEW_PLAN
      <-> ValidationProject.status project = Draft
          \/ ValidationProject.status project = InProgress).
Proof.
  unfold App.handleHistorySelect.
  destruct (ValidationProject.status project) eqn:E;
    destruct (length (ValidationProject.testCases project) =? 0)%nat;
    simpl; (split; [reflexivity|]); (split; [reflexivity|]);
    split; split; intros H; try discriminate; try reflexivity; try tauto;
    repeat (destruct H as [H|H]; try discriminate).
Qed.

Lemma history_select_view_witness :
  App.currentView
    (App.handleHistorySelect (project_of PartlyValidated [case_two_steps])
       App.initial) = REPORT.
Proof.
  refine (proj2 (proj1 (proj2 (proj2
            (history_select_view (project_of PartlyValidated [case_two_steps])
               App.initial)))) _).
  right. left. reflexivity.
Defined.

Section ControllerFacts.
Import Controller.

Lemma step_keeps_project (s s' : App.State) :
  step s s' -> is_Some (App.activeProject s) -> is_Some (App.activeProject s').
Proof.
  intros Hstep Hp.
  destruct Hstep as [s v _|s _|s _|s toUpperCase now iso clock file sheet
                    |s now iso messages extraction|s updated _|s _ _|s _
                    |s _ _|s _ _|s project].
  - exact Hp.
  - exact Hp.
  - unfold App.recent_activity_clicked.
    destruct (App.activeProject s) as [p|] eqn:E;
      [|destruct Hp; discriminate].
    destruct (bool_decide _); simpl; rewrite E; eauto.
  - unfold App.handleFileChange.
    destruct file as [fileName|]; [|exact Hp].
    destruct sheet as [err|rows]; simpl; [exact Hp|eauto].
  - unfold App.chat_finished.
    destruct extraction as [e|[reqs name]]; simpl; [exact Hp|eauto].
  - simpl. eauto.
  - unfold App.handleStartExecution.
    destruct (App.activeProject s); simpl; eauto.
    destruct Hp; discriminate.
  - exact Hp.
  - exact Hp.
  - exact Hp.
  - unfold App.handleHistorySelect.
    destruct (_ && _); [simpl; eauto|].
    destruct (bool_decide _); simpl; eauto.
Qed.

Lemma step_keeps_invariant (s s' : App.State) :
  step s s' ->
  (needs_project (App.currentView s) = true -> is_Some (App.activeProject s)) ->
  needs_project (App.currentView s') = true -> is_Some (App.activeProject s').
Proof.
  intros Hstep Hinv.
  destruct Hstep as [s v Hv|s Hd|s Hd|s toUpperCase now iso clock file sheet
                    |s now iso messages extraction|s updated Hp|s Hv Hp|s Hp
                    |s Hv Hp|s Hv Hp|s project].
  - simpl. destruct Hv as [<-|[<-|[<-|[]]]]; discriminate.
  - discriminate.
  - unfold App.recent_activity_clicked.
    destruct (App.activeProject s) as [p|] eqn:E;
      [|rewrite Hd; discriminate].
    destruct (bool_decide _); simpl; [rewrite Hd; discriminate|].
    rewrite E. eauto.
  - unfold App.handleFileChange.
    destruct file as [fileName|]; [|exact Hinv].
    destruct sheet as [err|rows]; simpl; [exact Hinv|eauto].
  - unfold App.chat_finished.
    destruct extraction as [e|[reqs name]]; simpl; [exact Hinv|eauto].
  - simpl. eauto.
  - intros _. unfold App.handleStartExecution.
    destruct (App.activeProject s); simpl; eauto.
    destruct Hp; discriminate.
  - intros _. exact Hp.
  - intros _. exact Hp.
  - discriminate.
  - intros _. unfold App.handleHistorySelect.
    destruct (_ && _); [simpl; eauto|].
    destruct (bool_decide _); simpl; eauto.
Qed.

End ControllerFacts.

(** X25: in every state the controller can reach from the dashboard, a
    view that renders nothing without an active project (the plan review,
    the execution, the report) comes with an active project; and no step
    of the controller ever takes the active project away. *)
Theorem views_have_their_project (s : App.State) :
  Controller.reachable s ->
  (Controller.needs_project (App.currentView s) = true ->
   is_Some (App.activeProject s))
  /\ (forall s', Controller.step s s' ->
        is_Some (App.activeProject s) -> is_Some (App.activeProject s')).
Proof.
  intros Hreach. split; [|intros s'; apply step_keeps_project].
  induction Hreach as [|s s' _ IH Hstep]; [discriminate|].
  now apply (step_keeps_invariant s s').
Qed.

Lemma views_have_their_project_witness :
  is_Some
    (App.activeProject
       (App.handleStartExecution
          (App.handleHistorySelect (project_of Draft [case_pending])
             (App.setCurrentView HISTORY App.initial)))).
Proof.
  refine (proj1 (views_have_their_project
                   (App.handleStartExecution
                      (App.handleHistorySelect (project_of Draft [case_pending])
                         (App.setCurrentView HISTORY App.initial))) _)
                eq_refl).
  apply (Controller.reach_step
           (App.handleHistorySelect (project_of Draft [case_pending])
              (App.setCurrentView HISTORY App.initial))).
  - apply (Controller.reach_step (App.setCurrentView HISTORY App.initial)).
    + apply (Controller.reach_step App.initial).
      * apply Controller.reach_initial.
      * apply (Controller.Navigate App.initial HISTORY). simpl. tauto.
    + apply (Controller.HistorySelect _ (project_of Draft [case_pending])).
  - apply Controller.StartExecution; [reflexivity|eexists; reflexivity].
Defined.
